(** * A shallow embedding of the m6502 instruction interpreter (cpu.go)

    Bytes are integers in [0, 256) with every wrap-around written out; the
    processor status is a byte manipulated with bit operations; the CPU
    struct is a record that owns the state of its bus; the closures of
    [tick] are functions in a small state-and-panic monad. *)

From Stdlib Require Import ZArith Lia List Bool String Ascii.
From stdpp Require Import gmap.
Import ListNotations.
Local Open Scope Z_scope.

(** ** Fixed-width arithmetic *)

(** Conversion to [byte], and the wrapping byte operators of Go. *)
Definition byte (z : Z) : Z := z mod 256.
Definition add8 (a b : Z) : Z := byte (a + b).
Definition sub8 (a b : Z) : Z := byte (a - b).
Definition shl8 (a n : Z) : Z := byte (Z.shiftl a n).
Definition not8 (a : Z) : Z := Z.lxor a 0xFF.

(** [int8(b)] for a byte, [int16] values, [uint16] sums. *)
Definition int8 (b : Z) : Z := (b + 128) mod 256 - 128.
Definition int16 (z : Z) : Z := (z + 32768) mod 65536 - 32768.
Definition uint16 (z : Z) : Z := z mod 65536.

Definition is_byte (z : Z) : Prop := 0 <= z < 256.

(** ** Processor flags *)

Definition flagN : Z := Z.shiftl 1 7.
Definition flagV : Z := Z.shiftl 1 6.
Definition flagU : Z := Z.shiftl 1 5.
Definition flagB : Z := Z.shiftl 1 4.
Definition flagD : Z := Z.shiftl 1 3.
Definition flagI : Z := Z.shiftl 1 2.
Definition flagZ : Z := Z.shiftl 1 1.
Definition flagC : Z := Z.shiftl 1 0.

(** [func (f *flag) set(cond bool, bit flag)] and [has]. *)
Definition flag_set (f : Z) (cond : bool) (bit : Z) : Z :=
  if cond then Z.lor f bit else Z.land f (not8 bit).

Definition flag_has (f : Z) (bit : Z) : bool := negb (Z.land f bit =? 0).

(** ** Panics, errors and results *)

(** A value given to [panic]: the only case [Step] recovers into an error
    is a string ([r.(string)]); any other value makes the type assertion
    in the deferred function panic again. *)
Inductive panicval : Type :=
| PanicString (msg : string)
| PanicOther.

Inductive res (A : Type) : Type :=
| Val (v : A)
| Panic (r : panicval).
Arguments Val {A} v.
Arguments Panic {A} r.

(** The three ways an [error] value is built in cpu.go. *)
Inductive error : Type :=
| ErrHalted
| Errorf (msg : string)
| ErrorsNew (msg : string).

Definition error_message (e : error) : string :=
  match e with
  | ErrHalted => "CPU halted"
  | Errorf msg => msg
  | ErrorsNew msg => msg
  end.

(** ** The bus *)

(** [Bus] is an interface: an implementation has a state of its own, and
    both methods may change it and may panic. *)
Class Bus (B : Type) : Type := {
  bus_Read : B -> Z -> Z -> B * res Z;
  bus_Write : B -> Z -> Z -> Z -> B * res unit
}.

(** [Read] returns a Go [byte]. *)
Class BusBytes (B : Type) `{Bus B} : Prop :=
  bus_Read_byte : forall b l h b' v, bus_Read b l h = (b', Val v) -> is_byte v.

(** ** The CPU *)

(** The struct [CPU]. The bus is the state of the bus the CPU was created
    on; [p] is the flag byte behind the pointer (nothing else holds that
    pointer); [cycles] is a [uint] that [tick] resets and then raises by
    single digits, so that it never wraps. *)
Record CPU {B : Type} : Type := mkCPU {
  bus : B;
  cpu_a : Z;
  cpu_x : Z;
  cpu_y : Z;
  cpu_s : Z;
  cpu_p : Z;
  cpu_pcl : Z;
  cpu_pch : Z;
  cpu_cycles : Z;
  cpu_halted : bool
}.
Arguments CPU B : clear implicits.
Arguments mkCPU {B}.

Definition with_bus {B} (v : B) (c : CPU B) : CPU B :=
  mkCPU v (cpu_a c) (cpu_x c) (cpu_y c) (cpu_s c) (cpu_p c) (cpu_pcl c) (cpu_pch c) (cpu_cycles c) (cpu_halted c).
Definition with_a {B} (v : Z) (c : CPU B) : CPU B :=
  mkCPU (bus c) v (cpu_x c) (cpu_y c) (cpu_s c) (cpu_p c) (cpu_pcl c) (cpu_pch c) (cpu_cycles c) (cpu_halted c).
Definition with_x {B} (v : Z) (c : CPU B) : CPU B :=
  mkCPU (bus c) (cpu_a c) v (cpu_y c) (cpu_s c) (cpu_p c) (cpu_pcl c) (cpu_pch c) (cpu_cycles c) (cpu_halted c).
Definition with_y {B} (v : Z) (c : CPU B) : CPU B :=
  mkCPU (bus c) (cpu_a c) (cpu_x c) v (cpu_s c) (cpu_p c) (cpu_pcl c) (cpu_pch c) (cpu_cycles c) (cpu_halted c).
Definition with_s {B} (v : Z) (c : CPU B) : CPU B :=
  mkCPU (bus c) (cpu_a c) (cpu_x c) (cpu_y c) v (cpu_p c) (cpu_pcl c) (cpu_pch c) (cpu_cycles c) (cpu_halted c).
Definition with_p {B} (v : Z) (c : CPU B) : CPU B :=
  mkCPU (bus c) (cpu_a c) (cpu_x c) (cpu_y c) (cpu_s c) v (cpu_pcl c) (cpu_pch c) (cpu_cycles c) (cpu_halted c).
Definition with_pc {B} (l h : Z) (c : CPU B) : CPU B :=
  mkCPU (bus c) (cpu_a c) (cpu_x c) (cpu_y c) (cpu_s c) (cpu_p c) l h (cpu_cycles c) (cpu_halted c).
Definition with_cycles {B} (v : Z) (c : CPU B) : CPU B :=
  mkCPU (bus c) (cpu_a c) (cpu_x c) (cpu_y c) (cpu_s c) (cpu_p c) (cpu_pcl c) (cpu_pch c) v (cpu_halted c).
Definition with_halted {B} (v : bool) (c : CPU B) : CPU B :=
  mkCPU (bus c) (cpu_a c) (cpu_x c) (cpu_y c) (cpu_s c) (cpu_p c) (cpu_pcl c) (cpu_pch c) (cpu_cycles c) v.

(** ** The monad of the interpreter: CPU state, and panics of the bus

    A panic unwinds the instruction; the state it leaves behind is kept,
    since [Step] recovers and the caller goes on with the same CPU. *)
Definition M (B A : Type) : Type := CPU B -> CPU B * res A.

Definition ret {B A} (v : A) : M B A := fun c => (c, Val v).

Definition bind {B A C} (m : M B A) (f : A -> M B C) : M B C :=
  fun c => match m c with
           | (c', Val v) => f v c'
           | (c', Panic r) => (c', Panic r)
           end.

Definition gets {B A} (f : CPU B -> A) : M B A := fun c => (c, Val (f c)).
Definition modify {B} (f : CPU B -> CPU B) : M B unit := fun c => (f c, Val tt).

Declare Scope m6502_scope.
Delimit Scope m6502_scope with m6502.
Notation "x <- m ;; k" := (bind m (fun x => k))
  (at level 20, m at level 99, k at level 200, only parsing) : m6502_scope.
Notation "' pat <- m ;; k" := (bind m (fun x => match x with pat => k end))
  (at level 20, pat pattern, m at level 99, k at level 200, only parsing) : m6502_scope.
Notation "m ;; k" := (bind m (fun _ => k))
  (at level 100, k at level 200, right associativity, only parsing) : m6502_scope.
Local Open Scope m6502_scope.

(** [fmt.Sprintf("%02X", b)] for a byte. *)
Definition hexdigit (n : Z) : ascii :=
  match n with
  | 0 => "0" | 1 => "1" | 2 => "2" | 3 => "3" | 4 => "4" | 5 => "5" | 6 => "6" | 7 => "7"
  | 8 => "8" | 9 => "9" | 10 => "A" | 11 => "B" | 12 => "C" | 13 => "D" | 14 => "E" | _ => "F"
  end%char.

Definition hex02 (b : Z) : string :=
  String (hexdigit (b / 16)) (String (hexdigit (b mod 16)) EmptyString).

(** [fmt.Errorf("m6502: invalid op code: %02X%02X: %02X", pch, pcl, b)] *)
Definition invalid_op_code (pch pcl b : Z) : error :=
  Errorf (String.append "m6502: invalid op code: "
           (String.append (hex02 pch) (String.append (hex02 pcl)
             (String.append ": " (hex02 b))))).

Section Interpreter.
Context {B : Type} `{Bus B}.

Local Abbreviation M := (M B).

(** Calls of [cpu.bus.Read] and [cpu.bus.Write]. *)
Definition busRead (l h : Z) : M Z :=
  fun c => let '(b', r) := bus_Read (bus c) l h in (with_bus b' c, r).

Definition busWrite (l h db : Z) : M unit :=
  fun c => let '(b', r) := bus_Write (bus c) l h db in (with_bus b' c, r).

(** *** The closures of [tick] *)

Definition when {A} (d : bool) (t g : A) : A := if d then t else g.
Definition cost (n : Z) : M unit := modify (fun c => with_cycles (cpu_cycles c + n) c).

Definition uadd (a b : Z) : Z * Z := let s := add8 a b in (s, when (s <? b) 0x01 0x00).
Definition ovfl (s : Z) : Z := when (Z.shiftr s 8 >? 0x00) 0x01 (when (s <? 0) 0xFF 0x00).
Definition sadd (a b : Z) : Z * Z := let s := int16 (int16 a + int16 b) in (byte s, ovfl s).
Definition inc (l h : Z) : Z * Z := let '(l, c) := uadd l 0x01 in (l, add8 h c).

Definition setPC (l h : Z) : M unit := modify (with_pc l h).
Definition incPC : M unit :=
  l <- gets cpu_pcl ;; h <- gets cpu_pch ;; '(l', h') <- ret (inc l h) ;; setPC l' h'.

Definition read (l h : Z) : M Z := cost 1 ;; busRead l h.
Definition zread (l : Z) : M Z := read l 0x00.
Definition vread (l : Z) : M (Z * Z) :=
  lo <- read l 0xFF ;; hi <- read (add8 l 1) 0xFF ;; ret (lo, hi).
Definition write (l h b : Z) : M unit := cost 1 ;; busWrite l h b.
Definition zwrite (l b : Z) : M unit := write l 0x00 b.
Definition fetch : M Z :=
  l <- gets cpu_pcl ;; h <- gets cpu_pch ;; b <- read l h ;; incPC ;; ret b.

Definition setF (c : bool) (f : Z) : M unit := modify (fun s => with_p (flag_set (cpu_p s) c f) s).
Definition hasF (f : Z) : M bool := gets (fun s => flag_has (cpu_p s) f).

Definition setC (c : bool) : M unit := setF c flagC.
Definition setI (c : bool) : M unit := setF c flagI.
Definition setN (b : Z) : M unit := setF (negb (Z.land b 0x80 =? 0x00)) flagN.
Definition setNZ (b : Z) : M Z := setN b ;; setF (b =? 0x00) flagZ ;; ret b.

Definition setA (b : Z) : M unit := v <- setNZ b ;; modify (with_a v).
Definition setX (b : Z) : M unit := v <- setNZ b ;; modify (with_x v).
Definition setY (b : Z) : M unit := v <- setNZ b ;; modify (with_y v).
Definition setS (b : Z) : M unit := modify (with_s b).
Definition setHalted (h : bool) : M unit := modify (with_halted h).

Definition push (b : Z) : M unit :=
  s <- gets cpu_s ;; write s 0x01 b ;; modify (fun c => with_s (sub8 (cpu_s c) 1) c).
Definition pop : M Z :=
  modify (fun c => with_s (add8 (cpu_s c) 1) c) ;; s <- gets cpu_s ;; read s 0x01.

Definition pushPC : M unit := h <- gets cpu_pch ;; push h ;; l <- gets cpu_pcl ;; push l.
Definition popPC : M (Z * Z) := l <- pop ;; h <- pop ;; ret (l, h).

Definition php : M unit := p <- gets cpu_p ;; push (Z.lor (Z.lor p flagU) flagB).
Definition plp : M unit :=
  b <- pop ;; modify (with_p (Z.land b (not8 (Z.lor flagU flagB)))).

Definition cmp (a b : Z) : M unit := setNZ (sub8 b a) ;; setC (b >=? a).
Definition bit (b : Z) : M unit :=
  setN b ;; a <- gets cpu_a ;; setF (Z.land b a =? 0) flagZ ;;
  setF (negb (Z.land b 0x40 =? 0)) flagV.

Definition asl (b : Z) : M Z := setC (negb (Z.land b 0x80 =? 0)) ;; setNZ (shl8 b 1).
Definition lsr (b : Z) : M Z := setC (negb (Z.land b 0x01 =? 0)) ;; setNZ (Z.shiftr b 1).
Definition rol (b : Z) : M Z :=
  p <- gets cpu_p ;; let c := Z.land p flagC in
  setC (negb (Z.land b 0x80 =? 0)) ;; setNZ (Z.lor (shl8 b 1) c).
Definition ror (b : Z) : M Z :=
  p <- gets cpu_p ;; let c := Z.land p flagC in
  setC (negb (Z.land b 0x01 =? 0)) ;; setNZ (Z.lor (Z.shiftr b 1) (shl8 c 7)).

Definition abs : M (Z * Z) := l <- fetch ;; h <- fetch ;; ret (l, h).
Definition absN (n : Z) : M (Z * Z * Z) :=
  b <- fetch ;; '(l, c) <- ret (uadd b n) ;; h <- fetch ;; ret (l, add8 h c, c).
Definition relN (n : Z) : M (Z * Z * Z) :=
  pcl <- gets cpu_pcl ;; '(l, o) <- ret (sadd pcl (int8 n)) ;;
  pch <- gets cpu_pch ;; ret (l, add8 pch o, o).

Definition indY : M (Z * Z * Z) :=
  b <- fetch ;; z <- zread b ;; y <- gets cpu_y ;; '(l, c) <- ret (uadd z y) ;;
  h <- zread (add8 b 1) ;; ret (l, add8 h c, c).
Definition indX : M (Z * Z) :=
  f <- fetch ;; x <- gets cpu_x ;; let b := add8 f x in
  l <- zread b ;; h <- zread (add8 b 1) ;; ret (l, h).

Definition adc (b : Z) : M Z :=
  d <- hasF flagD ;;
  if d then
    a <- gets cpu_a ;; c <- hasF flagC ;;
    let l := add8 (add8 (Z.land a 0x0F) (Z.land b 0x0F)) (when c 0x01 0x00) in
    let l := add8 l (when (Z.land l 0xFF >? 9) 6 0) in
    let h := add8 (add8 (Z.shiftr a 4) (Z.shiftr b 4)) (when (l >? 0x0F) 1 0) in
    let h := add8 h (when (Z.land h 0xFF >? 9) 6 0) in
    setC (h >? 0x0F) ;;
    ret (Z.lor (Z.land l 0x0F) (Z.land (shl8 h 4) 0xF0))
  else
    a <- gets cpu_a ;; c <- hasF flagC ;;
    let w := uint16 (uint16 (uint16 a + uint16 b) + uint16 (when c 0x01 0x00)) in
    let r := byte w in
    setC (w >? 0xFF) ;;
    setF (negb (Z.land (Z.land (Z.lxor a r) (Z.lxor b r)) 0x80 =? 0x00)) flagV ;;
    ret r.

Definition sbc (b : Z) : M Z :=
  d <- hasF flagD ;;
  if d then
    a <- gets cpu_a ;; c <- hasF flagC ;;
    let l := sub8 (sub8 (Z.land a 0x0F) (Z.land b 0x0F)) (when c 0x00 0x01) in
    let l := sub8 l (when (negb (Z.land l 0x10 =? 0)) 6 0) in
    let h := sub8 (sub8 (Z.shiftr a 4) (Z.shiftr b 4)) (when (negb (Z.land l 0x10 =? 0)) 1 0) in
    let h := sub8 h (when (negb (Z.land h 0x10 =? 0)) 6 0) in
    setC (Z.land h 0xFF <? 0x0F) ;;
    ret (Z.lor (Z.land l 0x0F) (shl8 h 4))
  else adc (not8 b).

Definition branch (c : bool) : M unit :=
  b <- fetch ;;
  if c then
    '(l, h, o) <- relN b ;;
    cost (add8 1 (when (o =? 0) 0 1)) ;;
    setPC l h
  else ret tt.

(** *** The opcode switch of [tick]

    A case that runs to the end of the [switch] yields [None]; the
    [default] case returns its error from inside. *)
Definition fall (m : M unit) : M (option error) := m ;; ret None.

Definition invalid (pcl pch : Z) : M (option error) :=
  b <- read pcl pch ;; ret (Some (invalid_op_code pch pcl b)).

Definition switch (pcl pch op : Z) : M (option error) :=
  match op with
  | 0x00 => (* BRK | implied | N- Z- C- I+ D- V- | 7 *)
      fall (fetch ;; pushPC ;; php ;; '(t1, t2) <- vread 0xFE ;; setPC t1 t2 ;; setI true)
  | 0x20 => (* JSR oper | absolute | N- Z- C- I- D- V- | 6 *)
      fall (l <- fetch ;; pushPC ;; t1 <- fetch ;; setPC l t1 ;; cost 1)
  | 0x40 => (* RTI | implied | from stack | 7 *)
      fall (plp ;; '(t1, t2) <- popPC ;; setPC t1 t2 ;; cost 3)
  | 0x60 => (* RTS | implied | N- Z- C- I- D- V- | 6 *)
      fall ('(t1, t2) <- popPC ;; '(t3, t4) <- ret (inc t1 t2) ;; setPC t3 t4 ;; cost 3)
  | 0x80 => (* NOP | immediate | N- Z- C- I- D- V- | 2 *)
      fall (cost 1)
  | 0xA0 => (* LDY #oper | immediate | N+ Z+ C- I- D- V- | 2 *)
      fall (t1 <- fetch ;; setY t1)
  | 0xC0 => (* CPY #oper | immediate | N+ Z+ C+ I- D- V- | 2 *)
      fall (t1 <- fetch ;; ry <- gets cpu_y ;; cmp t1 ry)
  | 0xE0 => (* CPX #oper | immediate | N+ Z+ C+ I- D- V- | 2 *)
      fall (t1 <- fetch ;; rx <- gets cpu_x ;; cmp t1 rx)
  | 0x01 => (* ORA (oper,X) | (indirect,X) | N+ Z+ C- I- D- V- | 6 *)
      fall (ra <- gets cpu_a ;; '(t1, t2) <- indX ;; t3 <- read t1 t2 ;; setA (Z.lor ra t3) ;; cost 1)
  | 0x21 => (* AND (oper,X) | (indirect,X) | N+ Z+ C- I- D- V- | 6 *)
      fall (ra <- gets cpu_a ;; '(t1, t2) <- indX ;; t3 <- read t1 t2 ;; setA (Z.land ra t3) ;; cost 1)
  | 0x41 => (* EOR (oper,X) | (indirect,X) | N+ Z+ C- I- D- V- | 6 *)
      fall (ra <- gets cpu_a ;; '(t1, t2) <- indX ;; t3 <- read t1 t2 ;; setA (Z.lxor ra t3) ;; cost 1)
  | 0x61 => (* ADC (oper,X) | (indirect,X) | N+ Z+ C+ I- D- V+ | 6 *)
      fall ('(t1, t2) <- indX ;; t3 <- read t1 t2 ;; t4 <- adc t3 ;; setA t4 ;; cost 1)
  | 0x81 => (* STA (oper,X) | (indirect,X) | N- Z- C- I- D- V- | 6 *)
      fall ('(l, h) <- indX ;; ra <- gets cpu_a ;; write l h ra ;; cost 1)
  | 0xA1 => (* LDA (oper,X) | (indirect,X) | N+ Z+ C- I- D- V- | 6 *)
      fall ('(t1, t2) <- indX ;; t3 <- read t1 t2 ;; setA t3 ;; cost 1)
  | 0xC1 => (* CMP (oper,X) | (indirect,X) | N+ Z+ C+ I- D- V- | 6 *)
      fall ('(t1, t2) <- indX ;; t3 <- read t1 t2 ;; ra <- gets cpu_a ;; cmp t3 ra ;; cost 1)
  | 0xE1 => (* SBC (oper,X) | (indirect,X) | N+ Z+ C+ I- D- V+ | 6 *)
      fall ('(t1, t2) <- indX ;; t3 <- read t1 t2 ;; t4 <- sbc t3 ;; setA t4 ;; cost 1)
  | 0x02 => (* HLT | | | 1 *)
      fall (setHalted true)
  | 0x22 => (* HLT | | | 1 *)
      fall (setHalted true)
  | 0x42 => (* HLT | | | 1 *)
      fall (setHalted true)
  | 0x62 => (* HLT | | | 1 *)
      fall (setHalted true)
  | 0x82 => (* NOP | immediate | N- Z- C- I- D- V- | 2 *)
      fall (cost 1)
  | 0xA2 => (* LDX #oper | immediate | N+ Z+ C- I- D- V- | 2 *)
      fall (t1 <- fetch ;; setX t1)
  | 0xC2 => (* NOP | immediate | N- Z- C- I- D- V- | 2 *)
      fall (cost 1)
  | 0xE2 => (* NOP | immediate | N- Z- C- I- D- V- | 2 *)
      fall (cost 1)
  | 0x04 => (* NOP | zeropage | N- Z- C- I- D- V- | 3 *)
      fall (cost 2)
  | 0x24 => (* BIT oper | zeropage | N+ Z+ C- I- D- V+ | 3 *)
      fall (t1 <- fetch ;; t2 <- zread t1 ;; bit t2)
  | 0x44 => (* NOP | zeropage | N- Z- C- I- D- V- | 3 *)
      fall (cost 2)
  | 0x64 => (* NOP | zeropage | N- Z- C- I- D- V- | 3 *)
      fall (cost 2)
  | 0x84 => (* STY oper | zeropage | N- Z- C- I- D- V- | 3 *)
      fall (t1 <- fetch ;; ry <- gets cpu_y ;; zwrite t1 ry)
  | 0xA4 => (* LDY oper | zeropage | N+ Z+ C- I- D- V- | 3 *)
      fall (t1 <- fetch ;; t2 <- zread t1 ;; setY t2)
  | 0xC4 => (* CPY oper | zeropage | N+ Z+ C+ I- D- V- | 3 *)
      fall (t1 <- fetch ;; t2 <- zread t1 ;; ry <- gets cpu_y ;; cmp t2 ry)
  | 0xE4 => (* CPX oper | zeropage | N+ Z+ C+ I- D- V- | 3 *)
      fall (t1 <- fetch ;; t2 <- zread t1 ;; rx <- gets cpu_x ;; cmp t2 rx)
  | 0x05 => (* ORA oper | zeropage | N+ Z+ C- I- D- V- | 3 *)
      fall (ra <- gets cpu_a ;; t1 <- fetch ;; t2 <- zread t1 ;; setA (Z.lor ra t2))
  | 0x25 => (* AND oper | zeropage | N+ Z+ C- I- D- V- | 3 *)
      fall (ra <- gets cpu_a ;; t1 <- fetch ;; t2 <- zread t1 ;; setA (Z.land ra t2))
  | 0x45 => (* EOR oper | zeropage | N+ Z+ C- I- D- V- | 3 *)
      fall (ra <- gets cpu_a ;; t1 <- fetch ;; t2 <- zread t1 ;; setA (Z.lxor ra t2))
  | 0x65 => (* ADC oper | zeropage | N+ Z+ C+ I- D- V+ | 3 *)
      fall (t1 <- fetch ;; t2 <- zread t1 ;; t3 <- adc t2 ;; setA t3)
  | 0x85 => (* STA oper | zeropage | N- Z- C- I- D- V- | 3 *)
      fall (t1 <- fetch ;; ra <- gets cpu_a ;; zwrite t1 ra)
  | 0xA5 => (* LDA oper | zeropage | N+ Z+ C- I- D- V- | 3 *)
      fall (t1 <- fetch ;; t2 <- zread t1 ;; setA t2)
  | 0xC5 => (* CMP oper | zeropage | N+ Z+ C+ I- D- V- | 3 *)
      fall (t1 <- fetch ;; t2 <- zread t1 ;; ra <- gets cpu_a ;; cmp t2 ra)
  | 0xE5 => (* SBC oper | zeropage | N+ Z+ C+ I- D- V+ | 3 *)
      fall (t1 <- fetch ;; t2 <- zread t1 ;; t3 <- sbc t2 ;; setA t3)
  | 0x06 => (* ASL oper | zeropage | N+ Z+ C+ I- D- V- | 5 *)
      fall (b <- fetch ;; t1 <- zread b ;; t2 <- asl t1 ;; zwrite b t2 ;; cost 1)
  | 0x26 => (* ROL oper | zeropage | N+ Z+ C+ I- D- V- | 5 *)
      fall (b <- fetch ;; t1 <- zread b ;; t2 <- rol t1 ;; zwrite b t2 ;; cost 1)
  | 0x46 => (* LSR oper | zeropage | N0 Z+ C+ I- D- V- | 5 *)
      fall (b <- fetch ;; t1 <- zread b ;; t2 <- lsr t1 ;; zwrite b t2 ;; cost 1)
  | 0x66 => (* ROR oper | zeropage | N+ Z+ C+ I- D- V- | 5 *)
      fall (b <- fetch ;; t1 <- zread b ;; t2 <- ror t1 ;; zwrite b t2 ;; cost 1)
  | 0x86 => (* STX oper | zeropage | N- Z- C- I- D- V- | 3 *)
      fall (t1 <- fetch ;; rx <- gets cpu_x ;; zwrite t1 rx)
  | 0xA6 => (* LDX oper | zeropage | N+ Z+ C- I- D- V- | 3 *)
      fall (t1 <- fetch ;; t2 <- zread t1 ;; setX t2)
  | 0xC6 => (* DEC oper | zeropage | N+ Z+ C- I- D- V- | 5 *)
      fall (b <- fetch ;; t1 <- zread b ;; t2 <- setNZ (sub8 t1 1) ;; zwrite b t2 ;; cost 1)
  | 0xE6 => (* INC oper | zeropage | N+ Z+ C- I- D- V- | 5 *)
      fall (b <- fetch ;; t1 <- zread b ;; t2 <- setNZ (add8 t1 1) ;; zwrite b t2 ;; cost 1)
  | 0x08 => (* PHP | implied | N- Z- C- I- D- V- | 3 *)
      fall (php ;; cost 1)
  | 0x28 => (* PLP | implied | from stack | 4 *)
      fall (plp ;; cost 2)
  | 0x48 => (* PHA | implied | N- Z- C- I- D- V- | 3 *)
      fall (ra <- gets cpu_a ;; push ra ;; cost 1)
  | 0x68 => (* PLA | implied | N+ Z+ C- I- D- V- | 4 *)
      fall (t1 <- pop ;; setA t1 ;; cost 2)
  | 0x88 => (* DEY | implied | N+ Z+ C- I- D- V- | 2 *)
      fall (ry <- gets cpu_y ;; setY (sub8 ry 1) ;; cost 1)
  | 0xA8 => (* TAY | implied | N+ Z+ C- I- D- V- | 2 *)
      fall (ra <- gets cpu_a ;; setY ra ;; cost 1)
  | 0xC8 => (* INY | implied | N+ Z+ C- I- D- V- | 2 *)
      fall (ry <- gets cpu_y ;; setY (add8 ry 1) ;; cost 1)
  | 0xE8 => (* INX | implied | N+ Z+ C- I- D- V- | 2 *)
      fall (rx <- gets cpu_x ;; setX (add8 rx 1) ;; cost 1)
  | 0x09 => (* ORA #oper | immediate | N+ Z+ C- I- D- V- | 2 *)
      fall (ra <- gets cpu_a ;; t1 <- fetch ;; setA (Z.lor ra t1))
  | 0x29 => (* AND #oper | immediate | N+ Z+ C- I- D- V- | 2 *)
      fall (ra <- gets cpu_a ;; t1 <- fetch ;; setA (Z.land ra t1))
  | 0x49 => (* EOR #oper | immediate | N+ Z+ C- I- D- V- | 2 *)
      fall (ra <- gets cpu_a ;; t1 <- fetch ;; setA (Z.lxor ra t1))
  | 0x69 => (* ADC #oper | immediate | N+ Z+ C+ I- D- V+ | 2 *)
      fall (t1 <- fetch ;; t2 <- adc t1 ;; setA t2)
  | 0x89 => (* NOP | immediate | N- Z- C- I- D- V- | 2 *)
      fall (cost 1)
  | 0xA9 => (* LDA #oper | immediate | N+ Z+ C- I- D- V- | 2 *)
      fall (t1 <- fetch ;; setA t1)
  | 0xC9 => (* CMP #oper | immediate | N+ Z+ C+ I- D- V- | 2 *)
      fall (t1 <- fetch ;; ra <- gets cpu_a ;; cmp t1 ra)
  | 0xE9 => (* SBC #oper | immediate | N+ Z+ C+ I- D- V+ | 2 *)
      fall (t1 <- fetch ;; t2 <- sbc t1 ;; setA t2)
  | 0x0A => (* ASL A | accumulator | N+ Z+ C+ I- D- V- | 2 *)
      fall (ra <- gets cpu_a ;; t1 <- asl ra ;; setA t1 ;; cost 1)
  | 0x2A => (* ROL A | accumulator | N+ Z+ C+ I- D- V- | 2 *)
      fall (ra <- gets cpu_a ;; t1 <- rol ra ;; setA t1 ;; cost 1)
  | 0x4A => (* LSR A | accumulator | N0 Z+ C+ I- D- V- | 2 *)
      fall (ra <- gets cpu_a ;; t1 <- lsr ra ;; setA t1 ;; cost 1)
  | 0x6A => (* ROR A | accumulator | N+ Z+ C+ I- D- V- | 2 *)
      fall (ra <- gets cpu_a ;; t1 <- ror ra ;; setA t1 ;; cost 1)
  | 0x8A => (* TXA | implied | N+ Z+ C- I- D- V- | 2 *)
      fall (rx <- gets cpu_x ;; setA rx ;; cost 1)
  | 0xAA => (* TAX | implied | N+ Z+ C- I- D- V- | 2 *)
      fall (ra <- gets cpu_a ;; setX ra ;; cost 1)
  | 0xCA => (* DEX | implied | N+ Z+ C- I- D- V- | 2 *)
      fall (rx <- gets cpu_x ;; setX (sub8 rx 1) ;; cost 1)
  | 0xEA => (* NOP | implied | N- Z- C- I- D- V- | 2 *)
      fall (cost 1)
  | 0x0C => (* NOP | absolute | N- Z- C- I- D- V- | 4 *)
      fall (cost 3)
  | 0x2C => (* BIT oper | absolute | N+ Z+ C- I- D- V+ | 4 *)
      fall ('(t1, t2) <- abs ;; t3 <- read t1 t2 ;; bit t3)
  | 0x4C => (* JMP oper | absolute | N- Z- C- I- D- V- | 3 *)
      fall ('(t1, t2) <- abs ;; setPC t1 t2)
  | 0x6C => (* JMP (oper) | indirect | N- Z- C- I- D- V- | 5 *)
      fall ('(l, h) <- abs ;; lo <- read l h ;; t1 <- read (add8 l 1) h ;; setPC lo t1)
  | 0x8C => (* STY oper | absolute | N- Z- C- I- D- V- | 4 *)
      fall (t1 <- fetch ;; t2 <- fetch ;; ry <- gets cpu_y ;; write t1 t2 ry)
  | 0xAC => (* LDY oper | absolute | N+ Z+ C- I- D- V- | 4 *)
      fall ('(t1, t2) <- abs ;; t3 <- read t1 t2 ;; setY t3)
  | 0xCC => (* CPY oper | absolute | N+ Z+ C+ I- D- V- | 4 *)
      fall ('(t1, t2) <- abs ;; t3 <- read t1 t2 ;; ry <- gets cpu_y ;; cmp t3 ry)
  | 0xEC => (* CPX oper | absolute | N+ Z+ C+ I- D- V- | 4 *)
      fall ('(t1, t2) <- abs ;; t3 <- read t1 t2 ;; rx <- gets cpu_x ;; cmp t3 rx)
  | 0x0D => (* ORA oper | absolute | N+ Z+ C- I- D- V- | 4 *)
      fall (ra <- gets cpu_a ;; '(t1, t2) <- abs ;; t3 <- read t1 t2 ;; setA (Z.lor ra t3))
  | 0x2D => (* AND oper | absolute | N+ Z+ C- I- D- V- | 4 *)
      fall (ra <- gets cpu_a ;; '(t1, t2) <- abs ;; t3 <- read t1 t2 ;; setA (Z.land ra t3))
  | 0x4D => (* EOR oper | absolute | N+ Z+ C- I- D- V- | 4 *)
      fall (ra <- gets cpu_a ;; '(t1, t2) <- abs ;; t3 <- read t1 t2 ;; setA (Z.lxor ra t3))
  | 0x6D => (* ADC oper | absolute | N+ Z+ C+ I- D- V+ | 4 *)
      fall ('(t1, t2) <- abs ;; t3 <- read t1 t2 ;; t4 <- adc t3 ;; setA t4)
  | 0x8D => (* STA oper | absolute | N- Z- C- I- D- V- | 4 *)
      fall (t1 <- fetch ;; t2 <- fetch ;; ra <- gets cpu_a ;; write t1 t2 ra)
  | 0xAD => (* LDA oper | absolute | N+ Z+ C- I- D- V- | 4 *)
      fall ('(t1, t2) <- abs ;; t3 <- read t1 t2 ;; setA t3)
  | 0xCD => (* CMP oper | absolute | N+ Z+ C+ I- D- V- | 4 *)
      fall ('(t1, t2) <- abs ;; t3 <- read t1 t2 ;; ra <- gets cpu_a ;; cmp t3 ra)
  | 0xED => (* SBC oper | absolute | N+ Z+ C+ I- D- V+ | 4 *)
      fall ('(t1, t2) <- abs ;; t3 <- read t1 t2 ;; t4 <- sbc t3 ;; setA t4)
  | 0x0E => (* ASL oper | absolute | N+ Z+ C+ I- D- V- | 6 *)
      fall ('(l, h) <- abs ;; b <- read l h ;; t1 <- asl b ;; write l h t1 ;; cost 1)
  | 0x2E => (* ROL oper | absolute | N+ Z+ C+ I- D- V- | 6 *)
      fall ('(l, h) <- abs ;; b <- read l h ;; t1 <- rol b ;; write l h t1 ;; cost 1)
  | 0x4E => (* LSR oper | absolute | N0 Z+ C+ I- D- V- | 6 *)
      fall ('(l, h) <- abs ;; b <- read l h ;; t1 <- lsr b ;; write l h t1 ;; cost 1)
  | 0x6E => (* ROR oper | absolute | N+ Z+ C+ I- D- V- | 6 *)
      fall ('(l, h) <- abs ;; b <- read l h ;; t1 <- ror b ;; write l h t1 ;; cost 1)
  | 0x8E => (* STX oper | absolute | N- Z- C- I- D- V- | 4 *)
      fall (t1 <- fetch ;; t2 <- fetch ;; rx <- gets cpu_x ;; write t1 t2 rx)
  | 0xAE => (* LDX oper | absolute | N+ Z+ C- I- D- V- | 4 *)
      fall ('(t1, t2) <- abs ;; t3 <- read t1 t2 ;; setX t3)
  | 0xCE => (* DEC oper | absolute | N+ Z+ C- I- D- V- | 6 *)
      fall ('(l, h) <- abs ;; b <- read l h ;; t1 <- setNZ (sub8 b 1) ;; write l h t1 ;; cost 1)
  | 0xEE => (* INC oper | absolute | N+ Z+ C- I- D- V- | 6 *)
      fall ('(l, h) <- abs ;; b <- read l h ;; t1 <- setNZ (add8 b 1) ;; write l h t1 ;; cost 1)
  | 0x10 => (* BPL oper | relative | N- Z- C- I- D- V- | 2** *)
      fall (t1 <- hasF flagN ;; branch (negb t1))
  | 0x30 => (* BMI oper | relative | N- Z- C- I- D- V- | 2** *)
      fall (t1 <- hasF flagN ;; branch t1)
  | 0x50 => (* BVC oper | relative | N- Z- C- I- D- V- | 2** *)
      fall (t1 <- hasF flagV ;; branch (negb t1))
  | 0x70 => (* BVS oper | relative | N- Z- C- I- D- V- | 2** *)
      fall (t1 <- hasF flagV ;; branch t1)
  | 0x90 => (* BCC oper | relative | N- Z- C- I- D- V- | 2** *)
      fall (t1 <- hasF flagC ;; branch (negb t1))
  | 0xB0 => (* BCS oper | relative | N- Z- C- I- D- V- | 2** *)
      fall (t1 <- hasF flagC ;; branch t1)
  | 0xD0 => (* BNE oper | relative | N- Z- C- I- D- V- | 2** *)
      fall (t1 <- hasF flagZ ;; branch (negb t1))
  | 0xF0 => (* BEQ oper | relative | N- Z- C- I- D- V- | 2** *)
      fall (t1 <- hasF flagZ ;; branch t1)
  | 0x11 => (* ORA (oper),Y | (indirect),Y | N+ Z+ C- I- D- V- | 5* *)
      fall ('(l, h, c) <- indY ;; ra <- gets cpu_a ;; t1 <- read l h ;; setA (Z.lor ra t1) ;; cost c)
  | 0x31 => (* AND (oper),Y | (indirect),Y | N+ Z+ C- I- D- V- | 5* *)
      fall ('(l, h, c) <- indY ;; ra <- gets cpu_a ;; t1 <- read l h ;; setA (Z.land ra t1) ;; cost c)
  | 0x51 => (* EOR (oper),Y | (indirect),Y | N+ Z+ C- I- D- V- | 5* *)
      fall ('(l, h, c) <- indY ;; ra <- gets cpu_a ;; t1 <- read l h ;; setA (Z.lxor ra t1) ;; cost c)
  | 0x71 => (* ADC (oper),Y | (indirect),Y | N+ Z+ C+ I- D- V+ | 5* *)
      fall ('(l, h, c) <- indY ;; t1 <- read l h ;; t2 <- adc t1 ;; setA t2 ;; cost c)
  | 0x91 => (* STA (oper),Y | (indirect),Y | N- Z- C- I- D- V- | 6 *)
      fall ('(l, h, _) <- indY ;; ra <- gets cpu_a ;; write l h ra ;; cost 1)
  | 0xB1 => (* LDA (oper),Y | (indirect),Y | N+ Z+ C- I- D- V- | 5* *)
      fall ('(l, h, c) <- indY ;; t1 <- read l h ;; setA t1 ;; cost c)
  | 0xD1 => (* CMP (oper),Y | (indirect),Y | N+ Z+ C+ I- D- V- | 5* *)
      fall ('(l, h, c) <- indY ;; t1 <- read l h ;; ra <- gets cpu_a ;; cmp t1 ra ;; cost c)
  | 0xF1 => (* SBC (oper),Y | (indirect),Y | N+ Z+ C+ I- D- V+ | 5* *)
      fall ('(l, h, c) <- indY ;; t1 <- read l h ;; t2 <- sbc t1 ;; setA t2 ;; cost c)
  | 0x12 => (* HLT | | | 1 *)
      fall (setHalted true)
  | 0x32 => (* HLT | | | 1 *)
      fall (setHalted true)
  | 0x52 => (* HLT | | | 1 *)
      fall (setHalted true)
  | 0x72 => (* HLT | | | 1 *)
      fall (setHalted true)
  | 0x92 => (* HLT | | | 1 *)
      fall (setHalted true)
  | 0xB2 => (* HLT | | | 1 *)
      fall (setHalted true)
  | 0xD2 => (* HLT | | | 1 *)
      fall (setHalted true)
  | 0xF2 => (* HLT | | | 1 *)
      fall (setHalted true)
  | 0x14 => (* NOP | zeropage,X | N- Z- C- I- D- V- | 4 *)
      fall (cost 3)
  | 0x34 => (* NOP | zeropage,X | N- Z- C- I- D- V- | 4 *)
      fall (cost 3)
  | 0x54 => (* NOP | zeropage,X | N- Z- C- I- D- V- | 4 *)
      fall (cost 3)
  | 0x74 => (* NOP | zeropage,X | N- Z- C- I- D- V- | 4 *)
      fall (cost 3)
  | 0x94 => (* STY oper,X | zeropage,X | N- Z- C- I- D- V- | 4 *)
      fall (t1 <- fetch ;; rx <- gets cpu_x ;; ry <- gets cpu_y ;; zwrite (add8 t1 rx) ry ;; cost 1)
  | 0xB4 => (* LDY oper,X | zeropage,X | N+ Z+ C- I- D- V- | 4 *)
      fall (t1 <- fetch ;; rx <- gets cpu_x ;; t2 <- zread (add8 t1 rx) ;; setY t2 ;; cost 1)
  | 0xD4 => (* NOP | zeropage,X | N- Z- C- I- D- V- | 4 *)
      fall (cost 3)
  | 0xF4 => (* NOP | zeropage,X | N- Z- C- I- D- V- | 4 *)
      fall (cost 3)
  | 0x15 => (* ORA oper,X | zeropage,X | N+ Z+ C- I- D- V- | 4 *)
      fall (ra <- gets cpu_a ;; t1 <- fetch ;; rx <- gets cpu_x ;; t2 <- zread (add8 t1 rx) ;; setA (Z.lor ra t2) ;; cost 1)
  | 0x35 => (* AND oper,X | zeropage,X | N+ Z+ C- I- D- V- | 4 *)
      fall (ra <- gets cpu_a ;; t1 <- fetch ;; rx <- gets cpu_x ;; t2 <- zread (add8 t1 rx) ;; setA (Z.land ra t2) ;; cost 1)
  | 0x55 => (* EOR oper,X | zeropage,X | N+ Z+ C- I- D- V- | 4 *)
      fall (ra <- gets cpu_a ;; t1 <- fetch ;; rx <- gets cpu_x ;; t2 <- zread (add8 t1 rx) ;; setA (Z.lxor ra t2) ;; cost 1)
  | 0x75 => (* ADC oper,X | zeropage,X | N+ Z+ C+ I- D- V+ | 4 *)
      fall (t1 <- fetch ;; rx <- gets cpu_x ;; t2 <- zread (add8 t1 rx) ;; t3 <- adc t2 ;; setA t3 ;; cost 1)
  | 0x95 => (* STA oper,X | zeropage,X | N- Z- C- I- D- V- | 4 *)
      fall (t1 <- fetch ;; rx <- gets cpu_x ;; ra <- gets cpu_a ;; zwrite (add8 t1 rx) ra ;; cost 1)
  | 0xB5 => (* LDA oper,X | zeropage,X | N+ Z+ C- I- D- V- | 4 *)
      fall (t1 <- fetch ;; rx <- gets cpu_x ;; t2 <- zread (add8 t1 rx) ;; setA t2 ;; cost 1)
  | 0xD5 => (* CMP oper,X | zeropage,X | N+ Z+ C+ I- D- V- | 4 *)
      fall (t1 <- fetch ;; rx <- gets cpu_x ;; t2 <- zread (add8 t1 rx) ;; ra <- gets cpu_a ;; cmp t2 ra ;; cost 1)
  | 0xF5 => (* SBC oper,X | zeropage,X | N+ Z+ C+ I- D- V+ | 4 *)
      fall (t1 <- fetch ;; rx <- gets cpu_x ;; t2 <- zread (add8 t1 rx) ;; t3 <- sbc t2 ;; setA t3 ;; cost 1)
  | 0x16 => (* ASL oper,X | zeropage,X | N+ Z+ C+ I- D- V- | 6 *)
      fall (t1 <- fetch ;; rx <- gets cpu_x ;; l <- ret (add8 t1 rx) ;; t2 <- zread l ;; t3 <- asl t2 ;; zwrite l t3 ;; cost 2)
  | 0x36 => (* ROL oper,X | zeropage,X | N+ Z+ C+ I- D- V- | 6 *)
      fall (t1 <- fetch ;; rx <- gets cpu_x ;; l <- ret (add8 t1 rx) ;; t2 <- zread l ;; t3 <- rol t2 ;; zwrite l t3 ;; cost 2)
  | 0x56 => (* LSR oper,X | zeropage,X | N0 Z+ C+ I- D- V- | 6 *)
      fall (t1 <- fetch ;; rx <- gets cpu_x ;; l <- ret (add8 t1 rx) ;; t2 <- zread l ;; t3 <- lsr t2 ;; zwrite l t3 ;; cost 2)
  | 0x76 => (* ROR oper,X | zeropage,X | N+ Z+ C+ I- D- V- | 6 *)
      fall (t1 <- fetch ;; rx <- gets cpu_x ;; l <- ret (add8 t1 rx) ;; t2 <- zread l ;; t3 <- ror t2 ;; zwrite l t3 ;; cost 2)
  | 0x96 => (* STX oper,Y | zeropage,Y | N- Z- C- I- D- V- | 4 *)
      fall (t1 <- fetch ;; ry <- gets cpu_y ;; rx <- gets cpu_x ;; zwrite (add8 t1 ry) rx ;; cost 1)
  | 0xB6 => (* LDX oper,Y | zeropage,Y | N+ Z+ C- I- D- V- | 4 *)
      fall (t1 <- fetch ;; ry <- gets cpu_y ;; t2 <- zread (add8 t1 ry) ;; setX t2 ;; cost 1)
  | 0xD6 => (* DEC oper,X | zeropage,X | N+ Z+ C- I- D- V- | 6 *)
      fall (t1 <- fetch ;; rx <- gets cpu_x ;; l <- ret (add8 t1 rx) ;; t2 <- zread l ;; t3 <- setNZ (sub8 t2 1) ;; zwrite l t3 ;; cost 2)
  | 0xF6 => (* INC oper,X | zeropage,X | N+ Z+ C- I- D- V- | 6 *)
      fall (t1 <- fetch ;; rx <- gets cpu_x ;; l <- ret (add8 t1 rx) ;; t2 <- zread l ;; t3 <- setNZ (add8 t2 1) ;; zwrite l t3 ;; cost 2)
  | 0x18 => (* CLC | implied | N- Z- C0 I- D- V- | 2 *)
      fall (setC false ;; cost 1)
  | 0x38 => (* SEC | implied | N- Z- C1 I- D- V- | 2 *)
      fall (setC true ;; cost 1)
  | 0x58 => (* CLI | implied | N- Z- C- I0 D- V- | 2 *)
      fall (setI false ;; cost 1)
  | 0x78 => (* SEI | implied | N- Z- C- I1 D- V- | 2 *)
      fall (setI true ;; cost 1)
  | 0x98 => (* TYA | implied | N+ Z+ C- I- D- V- | 2 *)
      fall (ry <- gets cpu_y ;; setA ry ;; cost 1)
  | 0xB8 => (* CLV | implied | N- Z- C- I- D- V0 | 2 *)
      fall (setF false flagV ;; cost 1)
  | 0xD8 => (* CLD | implied | N- Z- C- I- D0 V- | 2 *)
      fall (setF false flagD ;; cost 1)
  | 0xF8 => (* SED | implied | N- Z- C- I- D1 V- | 2 *)
      fall (setF true flagD ;; cost 1)
  | 0x19 => (* ORA oper,Y | absolute,Y | N+ Z+ C- I- D- V- | 4* *)
      fall (ry <- gets cpu_y ;; '(l, h, c) <- absN ry ;; ra <- gets cpu_a ;; t1 <- read l h ;; setA (Z.lor ra t1) ;; cost c)
  | 0x39 => (* AND oper,Y | absolute,Y | N+ Z+ C- I- D- V- | 4* *)
      fall (ry <- gets cpu_y ;; '(l, h, c) <- absN ry ;; ra <- gets cpu_a ;; t1 <- read l h ;; setA (Z.land ra t1) ;; cost c)
  | 0x59 => (* EOR oper,Y | absolute,Y | N+ Z+ C- I- D- V- | 4* *)
      fall (ry <- gets cpu_y ;; '(l, h, c) <- absN ry ;; ra <- gets cpu_a ;; t1 <- read l h ;; setA (Z.lxor ra t1) ;; cost c)
  | 0x79 => (* ADC oper,Y | absolute,Y | N+ Z+ C+ I- D- V+ | 4* *)
      fall (ry <- gets cpu_y ;; '(l, h, c) <- absN ry ;; t1 <- read l h ;; t2 <- adc t1 ;; setA t2 ;; cost c)
  | 0x99 => (* STA oper,Y | absolute,Y | N- Z- C- I- D- V- | 5 *)
      fall (ry <- gets cpu_y ;; '(l, h, _) <- absN ry ;; ra <- gets cpu_a ;; write l h ra ;; cost 1)
  | 0xB9 => (* LDA oper,Y | absolute,Y | N+ Z+ C- I- D- V- | 4* *)
      fall (ry <- gets cpu_y ;; '(l, h, c) <- absN ry ;; t1 <- read l h ;; setA t1 ;; cost c)
  | 0xD9 => (* CMP oper,Y | absolute,Y | N+ Z+ C+ I- D- V- | 4* *)
      fall (ry <- gets cpu_y ;; '(l, h, c) <- absN ry ;; t1 <- read l h ;; ra <- gets cpu_a ;; cmp t1 ra ;; cost c)
  | 0xF9 => (* SBC oper,Y | absolute,Y | N+ Z+ C+ I- D- V+ | 4* *)
      fall (ry <- gets cpu_y ;; '(l, h, c) <- absN ry ;; t1 <- read l h ;; t2 <- sbc t1 ;; setA t2 ;; cost c)
  | 0x1A => (* NOP | implied | N- Z- C- I- D- V- | 2 *)
      fall (cost 1)
  | 0x3A => (* NOP | implied | N- Z- C- I- D- V- | 2 *)
      fall (cost 1)
  | 0x5A => (* NOP | implied | N- Z- C- I- D- V- | 2 *)
      fall (cost 1)
  | 0x7A => (* NOP | implied | N- Z- C- I- D- V- | 2 *)
      fall (cost 1)
  | 0x9A => (* TXS | implied | N- Z- C- I- D- V- | 2 *)
      fall (rx <- gets cpu_x ;; setS rx ;; cost 1)
  | 0xBA => (* TSX | implied | N+ Z+ C- I- D- V- | 2 *)
      fall (rs <- gets cpu_s ;; setX rs ;; cost 1)
  | 0xDA => (* NOP | implied | N- Z- C- I- D- V- | 2 *)
      fall (cost 1)
  | 0xFA => (* NOP | implied | N- Z- C- I- D- V- | 2 *)
      fall (cost 1)
  | 0x1C => (* NOP | absolute,X | N- Z- C- I- D- V- | 4* *)
      fall (cost 3)
  | 0x3C => (* NOP | absolute,X | N- Z- C- I- D- V- | 4* *)
      fall (cost 3)
  | 0x5C => (* NOP | absolute,X | N- Z- C- I- D- V- | 4* *)
      fall (cost 3)
  | 0x7C => (* NOP | absolute,X | N- Z- C- I- D- V- | 4* *)
      fall (cost 3)
  | 0xBC => (* LDY oper,X | absolute,X | N+ Z+ C- I- D- V- | 4* *)
      fall (rx <- gets cpu_x ;; '(l, h, c) <- absN rx ;; t1 <- read l h ;; setY t1 ;; cost c)
  | 0xDC => (* NOP | absolute,X | N- Z- C- I- D- V- | 4* *)
      fall (cost 3)
  | 0xFC => (* NOP | absolute,X | N- Z- C- I- D- V- | 4* *)
      fall (cost 3)
  | 0x1D => (* ORA oper,X | absolute,X | N+ Z+ C- I- D- V- | 4* *)
      fall (rx <- gets cpu_x ;; '(l, h, c) <- absN rx ;; ra <- gets cpu_a ;; t1 <- read l h ;; setA (Z.lor ra t1) ;; cost c)
  | 0x3D => (* AND oper,X | absolute,X | N+ Z+ C- I- D- V- | 4* *)
      fall (rx <- gets cpu_x ;; '(l, h, c) <- absN rx ;; ra <- gets cpu_a ;; t1 <- read l h ;; setA (Z.land ra t1) ;; cost c)
  | 0x5D => (* EOR oper,X | absolute,X | N+ Z+ C- I- D- V- | 4* *)
      fall (rx <- gets cpu_x ;; '(l, h, c) <- absN rx ;; ra <- gets cpu_a ;; t1 <- read l h ;; setA (Z.lxor ra t1) ;; cost c)
  | 0x7D => (* ADC oper,X | absolute,X | N+ Z+ C+ I- D- V+ | 4* *)
      fall (rx <- gets cpu_x ;; '(l, h, c) <- absN rx ;; t1 <- read l h ;; t2 <- adc t1 ;; setA t2 ;; cost c)
  | 0x9D => (* STA oper,X | absolute,X | N- Z- C- I- D- V- | 5 *)
      fall (rx <- gets cpu_x ;; '(l, h, _) <- absN rx ;; ra <- gets cpu_a ;; write l h ra ;; cost 1)
  | 0xBD => (* LDA oper,X | absolute,X | N+ Z+ C- I- D- V- | 4* *)
      fall (rx <- gets cpu_x ;; '(l, h, c) <- absN rx ;; t1 <- read l h ;; setA t1 ;; cost c)
  | 0xDD => (* CMP oper,X | absolute,X | N+ Z+ C+ I- D- V- | 4* *)
      fall (rx <- gets cpu_x ;; '(l, h, c) <- absN rx ;; t1 <- read l h ;; ra <- gets cpu_a ;; cmp t1 ra ;; cost c)
  | 0xFD => (* SBC oper,X | absolute,X | N+ Z+ C+ I- D- V+ | 4* *)
      fall (rx <- gets cpu_x ;; '(l, h, c) <- absN rx ;; t1 <- read l h ;; t2 <- sbc t1 ;; setA t2 ;; cost c)
  | 0x1E => (* ASL oper,X | absolute,X | N+ Z+ C+ I- D- V- | 7 *)
      fall (rx <- gets cpu_x ;; '(l, h, _) <- absN rx ;; t1 <- read l h ;; t2 <- asl t1 ;; write l h t2 ;; cost 2)
  | 0x3E => (* ROL oper,X | absolute,X | N+ Z+ C+ I- D- V- | 7 *)
      fall (rx <- gets cpu_x ;; '(l, h, _) <- absN rx ;; t1 <- read l h ;; t2 <- rol t1 ;; write l h t2 ;; cost 2)
  | 0x5E => (* LSR oper,X | absolute,X | N0 Z+ C+ I- D- V- | 7 *)
      fall (rx <- gets cpu_x ;; '(l, h, _) <- absN rx ;; t1 <- read l h ;; t2 <- lsr t1 ;; write l h t2 ;; cost 2)
  | 0x7E => (* ROR oper,X | absolute,X | N+ Z+ C+ I- D- V- | 7 *)
      fall (rx <- gets cpu_x ;; '(l, h, _) <- absN rx ;; t1 <- read l h ;; t2 <- ror t1 ;; write l h t2 ;; cost 2)
  | 0xBE => (* LDX oper,Y | absolute,Y | N+ Z+ C- I- D- V- | 4* *)
      fall (ry <- gets cpu_y ;; '(l, h, c) <- absN ry ;; t1 <- read l h ;; setX t1 ;; cost c)
  | 0xDE => (* DEC oper,X | absolute,X | N+ Z+ C- I- D- V- | 7 *)
      fall (rx <- gets cpu_x ;; '(l, h, _) <- absN rx ;; t1 <- read l h ;; t2 <- setNZ (sub8 t1 1) ;; write l h t2 ;; cost 2)
  | 0xFE => (* INC oper,X | absolute,X | N+ Z+ C- I- D- V- | 7 *)
      fall (rx <- gets cpu_x ;; '(l, h, _) <- absN rx ;; t1 <- read l h ;; t2 <- setNZ (add8 t1 1) ;; write l h t2 ;; cost 2)
  | _ => invalid pcl pch
  end.

Definition tick : M (option error) :=
  modify (with_cycles 0) ;;
  pcl <- gets cpu_pcl ;; pch <- gets cpu_pch ;;
  op <- fetch ;;
  r <- switch pcl pch op ;;
  match r with
  | Some e => ret (Some e)
  | None => h <- gets cpu_halted ;; if h then ret (Some ErrHalted) else ret None
  end.

(** *** The public surface *)

(** What a call of [Step] does: it returns [(cycles, err)], or it panics
    (when the bus panicked with something that is not a string). *)
Inductive outcome : Type :=
| Returned (cycles : Z) (err : option error)
| Panicked.

Definition Step (c : CPU B) : CPU B * outcome :=
  if cpu_halted c then (c, Returned 0 (Some ErrHalted))
  else match tick c with
       | (c', Val (Some e)) => (c', Returned 0 (Some e))
       | (c', Val None) => (c', Returned (cpu_cycles c') None)
       | (c', Panic (PanicString msg)) => (c', Returned 0 (Some (ErrorsNew msg)))
       | (c', Panic PanicOther) => (c', Panicked)
       end.

Definition Reset : M unit :=
  modify (fun c => with_y 0x00 (with_x 0x00 (with_a 0x00 (with_s 0xFF c)))) ;;
  l <- busRead 0xFC 0xFF ;; modify (fun c => with_pc l (cpu_pch c) c) ;;
  h <- busRead 0xFD 0xFF ;; modify (fun c => with_pc (cpu_pcl c) h c) ;;
  modify (with_p 0) ;;
  setHalted false ;;
  modify (with_cycles 0).

(** [New]: the zero value of the struct around the bus, then [Reset]. *)
Definition New (b : B) : CPU B * res unit :=
  Reset (mkCPU b 0 0 0 0 0 0 0 0 false).

Definition PC (lo hi : Z) : M unit := modify (with_pc lo hi).
Definition PCL (c : CPU B) : Z := cpu_pcl c.
Definition PCH (c : CPU B) : Z := cpu_pch c.

Definition interrupt (l h : Z) : M unit :=
  s <- gets cpu_s ;; pch <- gets cpu_pch ;; busWrite s 0x01 pch ;;
  modify (fun c => with_s (sub8 (cpu_s c) 1) c) ;;
  s <- gets cpu_s ;; pcl <- gets cpu_pcl ;; busWrite s 0x01 pcl ;;
  modify (fun c => with_s (sub8 (cpu_s c) 1) c) ;;
  s <- gets cpu_s ;; p <- gets cpu_p ;; busWrite s 0x01 (Z.lor p flagU) ;;
  modify (fun c => with_s (sub8 (cpu_s c) 1) c) ;;
  modify (with_pc l h) ;;
  modify (fun c => with_p (Z.lor (cpu_p c) flagI) c).

Definition NMI : M unit :=
  l <- busRead 0xFA 0xFF ;; h <- busRead 0xFB 0xFF ;; interrupt l h.

Definition IRQ : M unit :=
  i <- hasF flagI ;;
  if negb i then l <- busRead 0xFE 0xFF ;; h <- busRead 0xFF 0xFF ;; interrupt l h
  else ret tt.

End Interpreter.

(** ** Two buses of the test suite *)

(** [memoryBus]: [mem [0x10000]byte], indexed by [uint16(h)<<8|uint16(l)].
    The array is a finite map from index to cell with every absent cell
    zero; a cell holds a Go [byte], so it is read through [byte]. *)
Record memoryBus : Type := mkMemoryBus { mem : gmap Z Z }.

Definition mem_index (l h : Z) : Z := Z.lor (uint16 (Z.shiftl (uint16 h) 8)) (uint16 l).

Definition mem_get (m : memoryBus) (i : Z) : Z := byte (default 0 (mem m !! i)).
Definition mem_put (m : memoryBus) (i v : Z) : memoryBus := mkMemoryBus (<[i := v]> (mem m)).

#[export] Instance memoryBus_Bus : Bus memoryBus := {|
  bus_Read m l h := (m, Val (mem_get m (mem_index l h)));
  bus_Write m l h data := (mem_put m (mem_index l h) data, Val tt)
|}.

(** [memoryBus.Reset] zeroes every cell. *)
Definition memoryBus_Reset (m : memoryBus) : memoryBus := mkMemoryBus ∅.

(** The test helper [W]: consecutive writes from [(l, h)], carrying into [h]. *)
Fixpoint W (l h : Z) (a : list Z) (m : memoryBus) : memoryBus :=
  match a with
  | [] => m
  | b :: a' =>
      let m' := fst (bus_Write m l h b) in
      let l' := add8 l 1 in
      W l' (if l' =? 0 then add8 h 1 else h) a' m'
  end.

(** [panicBus]: [Read] panics with ["foo"] when the low address byte is
    zero and returns zero otherwise; [Write] does nothing. *)
Inductive panicBus : Type := mkPanicBus.

#[export] Instance panicBus_Bus : Bus panicBus := {|
  bus_Read b l h := if l =? 0x00 then (b, Panic (PanicString "foo")) else (b, Val 0x00);
  bus_Write b l h data := (b, Val tt)
|}.

(** ** The documented instruction table (OPCODES.md)

    One row per implemented opcode: mnemonic, addressing mode, base cycle
    count, and the penalty mark of the cycles column ([*]: add 1 if a page
    boundary is crossed; [**]: add 1 if the branch occurs on the same
    page, 2 if it occurs to a different page). The two rows marked
    invalid, and the opcodes the table does not list, have no entry. *)

Inductive mnemonic : Type :=
| ADC | AND | ASL | BCC | BCS | BEQ | BIT | BMI | BNE | BPL | BRK | BVC | BVS | CLC
| CLD | CLI | CLV | CMP | CPX | CPY | DEC | DEX | DEY | EOR | HLT | INC | INX | INY
| JMP | JSR | LDA | LDX | LDY | LSR | NOP | ORA | PHA | PHP | PLA | PLP | ROL | ROR
| RTI | RTS | SBC | SEC | SED | SEI | STA | STX | STY | TAX | TAY | TSX | TXA | TXS | TYA.

Inductive addressing : Type :=
| NoMode | Implied | Immediate | Accumulator | Zeropage | ZeropageX | ZeropageY
| Absolute | AbsoluteX | AbsoluteY | Indirect | IndirectX | IndirectY | Relative.

Inductive penalty : Type := Flat | Star | StarStar.

Record entry : Type := mkEntry {
  e_mnemonic : mnemonic;
  e_mode : addressing;
  e_cycles : Z;
  e_penalty : penalty
}.

Definition OPCODES (op : Z) : option entry :=
  match op with
  | 0x00 => Some (mkEntry BRK Implied 7 Flat)
  | 0x20 => Some (mkEntry JSR Absolute 6 Flat)
  | 0x40 => Some (mkEntry RTI Implied 7 Flat)
  | 0x60 => Some (mkEntry RTS Implied 6 Flat)
  | 0x80 => Some (mkEntry NOP Immediate 2 Flat)
  | 0xA0 => Some (mkEntry LDY Immediate 2 Flat)
  | 0xC0 => Some (mkEntry CPY Immediate 2 Flat)
  | 0xE0 => Some (mkEntry CPX Immediate 2 Flat)
  | 0x01 => Some (mkEntry ORA IndirectX 6 Flat)
  | 0x21 => Some (mkEntry AND IndirectX 6 Flat)
  | 0x41 => Some (mkEntry EOR IndirectX 6 Flat)
  | 0x61 => Some (mkEntry ADC IndirectX 6 Flat)
  | 0x81 => Some (mkEntry STA IndirectX 6 Flat)
  | 0xA1 => Some (mkEntry LDA IndirectX 6 Flat)
  | 0xC1 => Some (mkEntry CMP IndirectX 6 Flat)
  | 0xE1 => Some (mkEntry SBC IndirectX 6 Flat)
  | 0x02 => Some (mkEntry HLT NoMode 1 Flat)
  | 0x22 => Some (mkEntry HLT NoMode 1 Flat)
  | 0x42 => Some (mkEntry HLT NoMode 1 Flat)
  | 0x62 => Some (mkEntry HLT NoMode 1 Flat)
  | 0x82 => Some (mkEntry NOP Immediate 2 Flat)
  | 0xA2 => Some (mkEntry LDX Immediate 2 Flat)
  | 0xC2 => Some (mkEntry NOP Immediate 2 Flat)
  | 0xE2 => Some (mkEntry NOP Immediate 2 Flat)
  | 0x04 => Some (mkEntry NOP Zeropage 3 Flat)
  | 0x24 => Some (mkEntry BIT Zeropage 3 Flat)
  | 0x44 => Some (mkEntry NOP Zeropage 3 Flat)
  | 0x64 => Some (mkEntry NOP Zeropage 3 Flat)
  | 0x84 => Some (mkEntry STY Zeropage 3 Flat)
  | 0xA4 => Some (mkEntry LDY Zeropage 3 Flat)
  | 0xC4 => Some (mkEntry CPY Zeropage 3 Flat)
  | 0xE4 => Some (mkEntry CPX Zeropage 3 Flat)
  | 0x05 => Some (mkEntry ORA Zeropage 3 Flat)
  | 0x25 => Some (mkEntry AND Zeropage 3 Flat)
  | 0x45 => Some (mkEntry EOR Zeropage 3 Flat)
  | 0x65 => Some (mkEntry ADC Zeropage 3 Flat)
  | 0x85 => Some (mkEntry STA Zeropage 3 Flat)
  | 0xA5 => Some (mkEntry LDA Zeropage 3 Flat)
  | 0xC5 => Some (mkEntry CMP Zeropage 3 Flat)
  | 0xE5 => Some (mkEntry SBC Zeropage 3 Flat)
  | 0x06 => Some (mkEntry ASL Zeropage 5 Flat)
  | 0x26 => Some (mkEntry ROL Zeropage 5 Flat)
  | 0x46 => Some (mkEntry LSR Zeropage 5 Flat)
  | 0x66 => Some (mkEntry ROR Zeropage 5 Flat)
  | 0x86 => Some (mkEntry STX Zeropage 3 Flat)
  | 0xA6 => Some (mkEntry LDX Zeropage 3 Flat)
  | 0xC6 => Some (mkEntry DEC Zeropage 5 Flat)
  | 0xE6 => Some (mkEntry INC Zeropage 5 Flat)
  | 0x08 => Some (mkEntry PHP Implied 3 Flat)
  | 0x28 => Some (mkEntry PLP Implied 4 Flat)
  | 0x48 => Some (mkEntry PHA Implied 3 Flat)
  | 0x68 => Some (mkEntry PLA Implied 4 Flat)
  | 0x88 => Some (mkEntry DEY Implied 2 Flat)
  | 0xA8 => Some (mkEntry TAY Implied 2 Flat)
  | 0xC8 => Some (mkEntry INY Implied 2 Flat)
  | 0xE8 => Some (mkEntry INX Implied 2 Flat)
  | 0x09 => Some (mkEntry ORA Immediate 2 Flat)
  | 0x29 => Some (mkEntry AND Immediate 2 Flat)
  | 0x49 => Some (mkEntry EOR Immediate 2 Flat)
  | 0x69 => Some (mkEntry ADC Immediate 2 Flat)
  | 0x89 => Some (mkEntry NOP Immediate 2 Flat)
  | 0xA9 => Some (mkEntry LDA Immediate 2 Flat)
  | 0xC9 => Some (mkEntry CMP Immediate 2 Flat)
  | 0xE9 => Some (mkEntry SBC Immediate 2 Flat)
  | 0x0A => Some (mkEntry ASL Accumulator 2 Flat)
  | 0x2A => Some (mkEntry ROL Accumulator 2 Flat)
  | 0x4A => Some (mkEntry LSR Accumulator 2 Flat)
  | 0x6A => Some (mkEntry ROR Accumulator 2 Flat)
  | 0x8A => Some (mkEntry TXA Implied 2 Flat)
  | 0xAA => Some (mkEntry TAX Implied 2 Flat)
  | 0xCA => Some (mkEntry DEX Implied 2 Flat)
  | 0xEA => Some (mkEntry NOP Implied 2 Flat)
  | 0x0C => Some (mkEntry NOP Absolute 4 Flat)
  | 0x2C => Some (mkEntry BIT Absolute 4 Flat)
  | 0x4C => Some (mkEntry JMP Absolute 3 Flat)
  | 0x6C => Some (mkEntry JMP Indirect 5 Flat)
  | 0x8C => Some (mkEntry STY Absolute 4 Flat)
  | 0xAC => Some (mkEntry LDY Absolute 4 Flat)
  | 0xCC => Some (mkEntry CPY Absolute 4 Flat)
  | 0xEC => Some (mkEntry CPX Absolute 4 Flat)
  | 0x0D => Some (mkEntry ORA Absolute 4 Flat)
  | 0x2D => Some (mkEntry AND Absolute 4 Flat)
  | 0x4D => Some (mkEntry EOR Absolute 4 Flat)
  | 0x6D => Some (mkEntry ADC Absolute 4 Flat)
  | 0x8D => Some (mkEntry STA Absolute 4 Flat)
  | 0xAD => Some (mkEntry LDA Absolute 4 Flat)
  | 0xCD => Some (mkEntry CMP Absolute 4 Flat)
  | 0xED => Some (mkEntry SBC Absolute 4 Flat)
  | 0x0E => Some (mkEntry ASL Absolute 6 Flat)
  | 0x2E => Some (mkEntry ROL Absolute 6 Flat)
  | 0x4E => Some (mkEntry LSR Absolute 6 Flat)
  | 0x6E => Some (mkEntry ROR Absolute 6 Flat)
  | 0x8E => Some (mkEntry STX Absolute 4 Flat)
  | 0xAE => Some (mkEntry LDX Absolute 4 Flat)
  | 0xCE => Some (mkEntry DEC Absolute 6 Flat)
  | 0xEE => Some (mkEntry INC Absolute 6 Flat)
  | 0x10 => Some (mkEntry BPL Relative 2 StarStar)
  | 0x30 => Some (mkEntry BMI Relative 2 StarStar)
  | 0x50 => Some (mkEntry BVC Relative 2 StarStar)
  | 0x70 => Some (mkEntry BVS Relative 2 StarStar)
  | 0x90 => Some (mkEntry BCC Relative 2 StarStar)
  | 0xB0 => Some (mkEntry BCS Relative 2 StarStar)
  | 0xD0 => Some (mkEntry BNE Relative 2 StarStar)
  | 0xF0 => Some (mkEntry BEQ Relative 2 StarStar)
  | 0x11 => Some (mkEntry ORA IndirectY 5 Star)
  | 0x31 => Some (mkEntry AND IndirectY 5 Star)
  | 0x51 => Some (mkEntry EOR IndirectY 5 Star)
  | 0x71 => Some (mkEntry ADC IndirectY 5 Star)
  | 0x91 => Some (mkEntry STA IndirectY 6 Flat)
  | 0xB1 => Some (mkEntry LDA IndirectY 5 Star)
  | 0xD1 => Some (mkEntry CMP IndirectY 5 Star)
  | 0xF1 => Some (mkEntry SBC IndirectY 5 Star)
  | 0x12 => Some (mkEntry HLT NoMode 1 Flat)
  | 0x32 => Some (mkEntry HLT NoMode 1 Flat)
  | 0x52 => Some (mkEntry HLT NoMode 1 Flat)
  | 0x72 => Some (mkEntry HLT NoMode 1 Flat)
  | 0x92 => Some (mkEntry HLT NoMode 1 Flat)
  | 0xB2 => Some (mkEntry HLT NoMode 1 Flat)
  | 0xD2 => Some (mkEntry HLT NoMode 1 Flat)
  | 0xF2 => Some (mkEntry HLT NoMode 1 Flat)
  | 0x14 => Some (mkEntry NOP ZeropageX 4 Flat)
  | 0x34 => Some (mkEntry NOP ZeropageX 4 Flat)
  | 0x54 => Some (mkEntry NOP ZeropageX 4 Flat)
  | 0x74 => Some (mkEntry NOP ZeropageX 4 Flat)
  | 0x94 => Some (mkEntry STY ZeropageX 4 Flat)
  | 0xB4 => Some (mkEntry LDY ZeropageX 4 Flat)
  | 0xD4 => Some (mkEntry NOP ZeropageX 4 Flat)
  | 0xF4 => Some (mkEntry NOP ZeropageX 4 Flat)
  | 0x15 => Some (mkEntry ORA ZeropageX 4 Flat)
  | 0x35 => Some (mkEntry AND ZeropageX 4 Flat)
  | 0x55 => Some (mkEntry EOR ZeropageX 4 Flat)
  | 0x75 => Some (mkEntry ADC ZeropageX 4 Flat)
  | 0x95 => Some (mkEntry STA ZeropageX 4 Flat)
  | 0xB5 => Some (mkEntry LDA ZeropageX 4 Flat)
  | 0xD5 => Some (mkEntry CMP ZeropageX 4 Flat)
  | 0xF5 => Some (mkEntry SBC ZeropageX 4 Flat)
  | 0x16 => Some (mkEntry ASL ZeropageX 6 Flat)
  | 0x36 => Some (mkEntry ROL ZeropageX 6 Flat)
  | 0x56 => Some (mkEntry LSR ZeropageX 6 Flat)
  | 0x76 => Some (mkEntry ROR ZeropageX 6 Flat)
  | 0x96 => Some (mkEntry STX ZeropageY 4 Flat)
  | 0xB6 => Some (mkEntry LDX ZeropageY 4 Flat)
  | 0xD6 => Some (mkEntry DEC ZeropageX 6 Flat)
  | 0xF6 => Some (mkEntry INC ZeropageX 6 Flat)
  | 0x18 => Some (mkEntry CLC Implied 2 Flat)
  | 0x38 => Some (mkEntry SEC Implied 2 Flat)
  | 0x58 => Some (mkEntry CLI Implied 2 Flat)
  | 0x78 => Some (mkEntry SEI Implied 2 Flat)
  | 0x98 => Some (mkEntry TYA Implied 2 Flat)
  | 0xB8 => Some (mkEntry CLV Implied 2 Flat)
  | 0xD8 => Some (mkEntry CLD Implied 2 Flat)
  | 0xF8 => Some (mkEntry SED Implied 2 Flat)
  | 0x19 => Some (mkEntry ORA AbsoluteY 4 Star)
  | 0x39 => Some (mkEntry AND AbsoluteY 4 Star)
  | 0x59 => Some (mkEntry EOR AbsoluteY 4 Star)
  | 0x79 => Some (mkEntry ADC AbsoluteY 4 Star)
  | 0x99 => Some (mkEntry STA AbsoluteY 5 Flat)
  | 0xB9 => Some (mkEntry LDA AbsoluteY 4 Star)
  | 0xD9 => Some (mkEntry CMP AbsoluteY 4 Star)
  | 0xF9 => Some (mkEntry SBC AbsoluteY 4 Star)
  | 0x1A => Some (mkEntry NOP Implied 2 Flat)
  | 0x3A => Some (mkEntry NOP Implied 2 Flat)
  | 0x5A => Some (mkEntry NOP Implied 2 Flat)
  | 0x7A => Some (mkEntry NOP Implied 2 Flat)
  | 0x9A => Some (mkEntry TXS Implied 2 Flat)
  | 0xBA => Some (mkEntry TSX Implied 2 Flat)
  | 0xDA => Some (mkEntry NOP Implied 2 Flat)
  | 0xFA => Some (mkEntry NOP Implied 2 Flat)
  | 0x1C => Some (mkEntry NOP AbsoluteX 4 Star)
  | 0x3C => Some (mkEntry NOP AbsoluteX 4 Star)
  | 0x5C => Some (mkEntry NOP AbsoluteX 4 Star)
  | 0x7C => Some (mkEntry NOP AbsoluteX 4 Star)
  | 0x9C => None (* invalid *)
  | 0xBC => Some (mkEntry LDY AbsoluteX 4 Star)
  | 0xDC => Some (mkEntry NOP AbsoluteX 4 Star)
  | 0xFC => Some (mkEntry NOP AbsoluteX 4 Star)
  | 0x1D => Some (mkEntry ORA AbsoluteX 4 Star)
  | 0x3D => Some (mkEntry AND AbsoluteX 4 Star)
  | 0x5D => Some (mkEntry EOR AbsoluteX 4 Star)
  | 0x7D => Some (mkEntry ADC AbsoluteX 4 Star)
  | 0x9D => Some (mkEntry STA AbsoluteX 5 Flat)
  | 0xBD => Some (mkEntry LDA AbsoluteX 4 Star)
  | 0xDD => Some (mkEntry CMP AbsoluteX 4 Star)
  | 0xFD => Some (mkEntry SBC AbsoluteX 4 Star)
  | 0x1E => Some (mkEntry ASL AbsoluteX 7 Flat)
  | 0x3E => Some (mkEntry ROL AbsoluteX 7 Flat)
  | 0x5E => Some (mkEntry LSR AbsoluteX 7 Flat)
  | 0x7E => Some (mkEntry ROR AbsoluteX 7 Flat)
  | 0x9E => None (* invalid *)
  | 0xBE => Some (mkEntry LDX AbsoluteY 4 Star)
  | 0xDE => Some (mkEntry DEC AbsoluteX 7 Flat)
  | 0xFE => Some (mkEntry INC AbsoluteX 7 Flat)
  | _ => None
  end.

(** ** Vocabulary of the specifications *)

(** A 16-bit address from its [(low, high)] bytes. *)
Definition addr16 (a : Z * Z) : Z := snd a * 256 + fst a.

(** The program counter as a pair, and the address after an address. *)
Definition pc {B} (c : CPU B) : Z * Z := (cpu_pcl c, cpu_pch c).
Definition next (a : Z * Z) : Z * Z := inc (fst a) (snd a).

(** Every register holds a Go [byte]. *)
Definition wf_cpu {B} (c : CPU B) : Prop :=
  is_byte (cpu_a c) /\ is_byte (cpu_x c) /\ is_byte (cpu_y c) /\ is_byte (cpu_s c) /\
  is_byte (cpu_p c) /\ is_byte (cpu_pcl c) /\ is_byte (cpu_pch c).

(** [reads b tr b']: from state [b] the bus answers the reads of [tr]
    (address and value, in this order) without a panic and is left in [b']. *)
Fixpoint reads {B} `{Bus B} (b : B) (tr : list (Z * Z * Z)) (b' : B) : Prop :=
  match tr with
  | [] => b' = b
  | (a, v) :: tr' => exists b1, bus_Read b (fst a) (snd a) = (b1, Val v) /\ reads b1 tr' b'
  end.

(** [n] calls of [Step] in a row. *)
Fixpoint StepN {B} `{Bus B} (n : nat) (c : CPU B) : CPU B :=
  match n with
  | O => c
  | S k => StepN k (fst (Step c))
  end.

(** The HLT rows of the table. *)
Definition HLT_opcodes : list Z :=
  [0x02; 0x12; 0x22; 0x32; 0x42; 0x52; 0x62; 0x72; 0x92; 0xB2; 0xD2; 0xF2].

(** The test harness: memory zeroed, the instruction bytes at [$0400],
    a fresh CPU with its program counter set there. *)
Definition harness (bytes : list Z) : CPU memoryBus :=
  fst (PC 0x00 0x04 (fst (New (W 0x00 0x04 bytes (memoryBus_Reset (mkMemoryBus ∅)))))).

(** The same with the reset vector pointing to [$0400]. *)
Definition boot (bytes : list Z) : CPU memoryBus :=
  fst (New (W 0xFC 0xFF [0x00; 0x04] (W 0x00 0x04 bytes (memoryBus_Reset (mkMemoryBus ∅))))).

(** The signed value of a byte. *)
Definition signed8 (b : Z) : Z := if b <? 128 then b else b - 256.

(** A boolean test over all 256 bytes. *)
Definition all_bytes (f : Z -> bool) : bool := forallb f (seqZ 0 256).

(** The decimal ADC as the specification words it (section 4.4): the
    result and the carry, over unbounded integers. *)
Definition bcd_adc_spec (a m cin : Z) : Z * bool :=
  let lo := Z.land a 0x0F + Z.land m 0x0F + cin in
  let lo := if lo >? 9 then lo + 6 else lo in
  let hi := Z.shiftr a 4 + Z.shiftr m 4 + (if lo >? 0x0F then 1 else 0) in
  let hi := if hi >? 9 then hi + 6 else hi in
  (Z.lor (Z.land lo 0x0F) (Z.land (Z.shiftl hi 4) 0xF0), hi >? 0x0F).

(** The condition of each conditional branch of the table, on a status
    byte: BPL, BMI, BVC, BVS, BCC, BCS, BNE, BEQ. *)
Definition branch_condition (op p : Z) : option bool :=
  match op with
  | 0x10 => Some (negb (flag_has p flagN))
  | 0x30 => Some (flag_has p flagN)
  | 0x50 => Some (negb (flag_has p flagV))
  | 0x70 => Some (flag_has p flagV)
  | 0x90 => Some (negb (flag_has p flagC))
  | 0xB0 => Some (flag_has p flagC)
  | 0xD0 => Some (negb (flag_has p flagZ))
  | 0xF0 => Some (flag_has p flagZ)
  | _ => None
  end.

(** The U and B bits of the live status register are clear. *)
Definition UB_clear {B} (c : CPU B) : Prop := Z.land (cpu_p c) (Z.lor flagU flagB) = 0.

(** The states a caller can bring a CPU into: [New], then any sequence of
    [Reset], [Step], [NMI], [IRQ] and [PC] (its arguments are of type
    [byte]), whether the call returns or panics; the caller owns the bus
    and may change it in between. *)
Inductive reachable {B} `{Bus B} : CPU B -> Prop :=
| reach_New (b : B) (c : CPU B) : New b = (c, Val tt) -> reachable c
| reach_Reset (c : CPU B) : reachable c -> reachable (fst (Reset c))
| reach_Step (c : CPU B) : reachable c -> reachable (fst (Step c))
| reach_NMI (c : CPU B) : reachable c -> reachable (fst (NMI c))
| reach_IRQ (c : CPU B) : reachable c -> reachable (fst (IRQ c))
| reach_PC (c : CPU B) (lo hi : Z) :
    is_byte lo -> is_byte hi -> reachable c -> reachable (fst (PC lo hi c))
| reach_bus (c : CPU B) (b : B) : reachable c -> reachable (with_bus b c).

(** A computation keeps an invariant of the CPU, also when it panics. *)
Definition preserves {B A} (I : CPU B -> Prop) (m : M B A) : Prop :=
  forall c, I c -> I (fst (m c)).

(** The values of the closures that are Go bytes. *)
Class Bytes (A : Type) : Type := bytes : A -> Prop.
#[global] Instance Bytes_Z : Bytes Z := is_byte.
#[global] Instance Bytes_bool : Bytes bool := fun _ => True.
#[global] Instance Bytes_unit : Bytes unit := fun _ => True.
#[global] Instance Bytes_error : Bytes (option error) := fun _ => True.
#[global] Instance Bytes_prod {A C} `{Bytes A} `{Bytes C} : Bytes (A * C) :=
  fun p => bytes (fst p) /\ bytes (snd p).

(** A computation keeps the registers bytes, also when it panics, and
    returns bytes. *)
Definition bytewise {B A} `{Bytes A} (m : M B A) : Prop :=
  forall c, wf_cpu c ->
    wf_cpu (fst (m c)) /\ match snd (m c) with Val v => bytes v | Panic _ => True end.

(** The cycle count the table documents for the instruction at the
    program counter: the row's count, plus 1 on a row marked [*] when the
    index added to the low byte of the base address carries (the page of
    the effective address is not the page of the base), plus on a row
    marked [**] when the branch is taken 1 if the target is on the page of
    the address after the branch and 2 if it is not. The operands are read
    from the bus in instruction order; [None] when the opcode has no row. *)
Definition documented_cycles {B} `{Bus B} : M B (option Z) :=
  a0 <- gets pc ;;
  op <- busRead (fst a0) (snd a0) ;;
  match OPCODES op with
  | None => ret None
  | Some e =>
      match e_penalty e with
      | Flat => ret (Some (e_cycles e))
      | Star =>
          match e_mode e with
          | AbsoluteX =>
              lo <- busRead (fst (next a0)) (snd (next a0)) ;; x <- gets cpu_x ;;
              ret (Some (e_cycles e + (if lo + x >? 0xFF then 1 else 0)))
          | AbsoluteY =>
              lo <- busRead (fst (next a0)) (snd (next a0)) ;; y <- gets cpu_y ;;
              ret (Some (e_cycles e + (if lo + y >? 0xFF then 1 else 0)))
          | IndirectY =>
              zp <- busRead (fst (next a0)) (snd (next a0)) ;;
              lo <- busRead zp 0x00 ;; y <- gets cpu_y ;;
              ret (Some (e_cycles e + (if lo + y >? 0xFF then 1 else 0)))
          | _ => ret (Some (e_cycles e))
          end
      | StarStar =>
          d <- busRead (fst (next a0)) (snd (next a0)) ;; p <- gets cpu_p ;;
          let after := (addr16 a0 + 2) mod 65536 in
          let target := (after + signed8 d) mod 65536 in
          match branch_condition op p with
          | Some true => ret (Some (e_cycles e + (if target / 256 =? after / 256 then 1 else 2)))
          | _ => ret (Some (e_cycles e))
          end
      end
  end.

(** The six absolute,X NOP rows, marked [4*] in the table. *)
Definition NOP_absoluteX : list Z := [0x1C; 0x3C; 0x5C; 0x7C; 0xDC; 0xFC].

(** ** The test table of the repository ([TestCPU])

    Every entry of the table, with the aliases of the test function: the
    setup, the mnemonic, the instruction bytes written at [$0400], the
    expected cycle cost and the checks on the CPU after one [Step]. The
    check [cpu.error == ErrHalted] of the HLT entries reads as: [Step]
    returned [ErrHalted]. *)
Module TestCPU.

Record test : Type := mkTest {
  init : list (CPU memoryBus -> CPU memoryBus);
  mne : string;
  bytes : list Z;
  expected_cost : Z;
  post : CPU memoryBus -> bool -> bool
}.

Definition A (b : Z) (c : CPU memoryBus) : CPU memoryBus := with_a b c.
Definition X (b : Z) (c : CPU memoryBus) : CPU memoryBus := with_x b c.
Definition Y (b : Z) (c : CPU memoryBus) : CPU memoryBus := with_y b c.
Definition F (f : Z) (c : CPU memoryBus) : CPU memoryBus :=
  with_p (flag_set (cpu_p c) true f) c.
Definition Fclear (f : Z) (c : CPU memoryBus) : CPU memoryBus :=
  with_p (flag_set (cpu_p c) false f) c.
Definition Sdec (n : Z) (c : CPU memoryBus) : CPU memoryBus := with_s (sub8 (cpu_s c) n) c.
Definition H (f : Z) (c : CPU memoryBus) : bool := flag_has (cpu_p c) f.
Definition R (l h : Z) (c : CPU memoryBus) : Z := mem_get (bus c) (mem_index l h).
Definition Wr (l h : Z) (a : list Z) (c : CPU memoryBus) : CPU memoryBus :=
  with_bus (W l h a (bus c)) c.
Definition EQ (a b : Z) : bool := a =? b.

Definition tests : list test := [
  mkTest [Wr 0xFE 0xFF [0x12; 0x34]] "BRK" [0x00] 7
    (fun c halted => EQ 0x12 (PCL c) && EQ 0x34 (PCH c));
  mkTest [] "JSR" [0x20; 0x12; 0x34] 6
    (fun c halted => EQ 0x12 (PCL c) && EQ 0x02 (R 0xFE 0x01 c));
  mkTest [Wr 0xFD 0x01 [0xFF; 0x12; 0x34]; Sdec 3] "RTI" [0x40] 7
    (fun c halted => EQ 0x12 (PCL c) && EQ 0x34 (PCH c) && EQ 0xCF (cpu_p c));
  mkTest [Wr 0xFE 0x01 [0x11; 0x34]; Sdec 2] "RTS" [0x60] 6
    (fun c halted => EQ 0x12 (PCL c) && EQ 0x34 (PCH c) && EQ 0xFF (cpu_s c));
  mkTest [] "NOP" [0x80] 2
    (fun c halted => true);
  mkTest [] "LDY" [0xA0; 0x80] 2
    (fun c halted => EQ 0x80 (cpu_y c) && H flagN c);
  mkTest [Y 0x80] "CPY" [0xC0; 0x80] 2
    (fun c halted => negb (H flagN c) && H flagZ c && H flagC c);
  mkTest [Y 0x81] "CPY" [0xC0; 0x80] 2
    (fun c halted => negb (H flagN c) && negb (H flagZ c) && H flagC c);
  mkTest [Y 0x81] "CPY" [0xC0; 0x01] 2
    (fun c halted => H flagN c && negb (H flagZ c) && H flagC c);
  mkTest [Y 0x01] "CPY" [0xC0; 0x80] 2
    (fun c halted => H flagN c && negb (H flagZ c) && negb (H flagC c));
  mkTest [Y 0x01] "CPY" [0xC0; 0x88] 2
    (fun c halted => negb (H flagN c) && negb (H flagZ c) && negb (H flagC c));
  mkTest [X 0x80] "CPX" [0xE0; 0x80] 2
    (fun c halted => negb (H flagN c) && H flagZ c && H flagC c);
  mkTest [X 0x81] "CPX" [0xE0; 0x80] 2
    (fun c halted => negb (H flagN c) && negb (H flagZ c) && H flagC c);
  mkTest [X 0x81] "CPX" [0xE0; 0x01] 2
    (fun c halted => H flagN c && negb (H flagZ c) && H flagC c);
  mkTest [X 0x01] "CPX" [0xE0; 0x80] 2
    (fun c halted => H flagN c && negb (H flagZ c) && negb (H flagC c));
  mkTest [X 0x01] "CPX" [0xE0; 0x88] 2
    (fun c halted => negb (H flagN c) && negb (H flagZ c) && negb (H flagC c));
  mkTest [Wr 0x10 0x00 [0x12; 0x34]; Wr 0x12 0x34 [0x80]; X 0x08; A 0x01] "ORA" [0x01; 0x08] 6
    (fun c halted => EQ 0x81 (cpu_a c) && negb (H flagZ c) && H flagN c);
  mkTest [Wr 0x10 0x00 [0x12; 0x34]; Wr 0x12 0x34 [0x80]; X 0x08; A 0x81] "AND" [0x21; 0x08] 6
    (fun c halted => EQ 0x80 (cpu_a c) && negb (H flagZ c) && H flagN c);
  mkTest [Wr 0x10 0x00 [0x12; 0x34]; Wr 0x12 0x34 [0x80]; X 0x08; A 0x81] "EOR" [0x41; 0x08] 6
    (fun c halted => EQ 0x01 (cpu_a c) && negb (H flagZ c) && negb (H flagN c));
  mkTest [Wr 0x10 0x00 [0x12; 0x34]; Wr 0x12 0x34 [0x80]; X 0x08; A 0x81] "ADC" [0x61; 0x08] 6
    (fun c halted => EQ 0x01 (cpu_a c) && H flagC c && H flagV c);
  mkTest [Wr 0x10 0x00 [0x12; 0x34]; X 0x08; A 0x81] "STA" [0x81; 0x08] 6
    (fun c halted => EQ 0x81 (R 0x12 0x34 c));
  mkTest [Wr 0x10 0x00 [0x12; 0x34]; Wr 0x12 0x34 [0x80]; X 0x08] "LDA" [0xA1; 0x08] 6
    (fun c halted => EQ 0x80 (cpu_a c));
  mkTest [Wr 0x10 0x00 [0x12; 0x34]; Wr 0x12 0x34 [0x80]; X 0x08; A 0x80] "CMP" [0xC1; 0x08] 6
    (fun c halted => negb (H flagN c) && H flagZ c && H flagC c);
  mkTest [Wr 0x10 0x00 [0x12; 0x34]; Wr 0x12 0x34 [0x80]; X 0x08; A 0x81] "CMP" [0xC1; 0x08] 6
    (fun c halted => negb (H flagN c) && negb (H flagZ c) && H flagC c);
  mkTest [Wr 0x10 0x00 [0x12; 0x34]; Wr 0x12 0x34 [0x01]; X 0x08; A 0x81] "CMP" [0xC1; 0x08] 6
    (fun c halted => H flagN c && negb (H flagZ c) && H flagC c);
  mkTest [Wr 0x10 0x00 [0x12; 0x34]; Wr 0x12 0x34 [0x80]; X 0x08; A 0x01] "CMP" [0xC1; 0x08] 6
    (fun c halted => H flagN c && negb (H flagZ c) && negb (H flagC c));
  mkTest [Wr 0x10 0x00 [0x12; 0x34]; Wr 0x12 0x34 [0x88]; X 0x08; A 0x01] "CMP" [0xC1; 0x08] 6
    (fun c halted => negb (H flagN c) && negb (H flagZ c) && negb (H flagC c));
  mkTest [Wr 0x10 0x00 [0x12; 0x34]; Wr 0x12 0x34 [0x80]; A 0x80; X 0x08] "SBC" [0xE1; 0x08] 6
    (fun c halted => EQ 0xFF (cpu_a c) && H flagN c && negb (H flagZ c) && negb (H flagC c));
  mkTest [Wr 0x10 0x00 [0x12; 0x34]; Wr 0x12 0x34 [0x80]; A 0x80; X 0x08; F flagC] "SBC" [0xE1; 0x08] 6
    (fun c halted => EQ 0x00 (cpu_a c) && negb (H flagN c) && H flagZ c && H flagC c);
  mkTest [Wr 0x10 0x00 [0x12; 0x34]; Wr 0x12 0x34 [0x80]; A 0x90; X 0x08; F flagD] "SBC" [0xE1; 0x08] 6
    (fun c halted => EQ 0x09 (cpu_a c) && negb (H flagN c) && negb (H flagZ c) && H flagC c);
  mkTest [Wr 0x10 0x00 [0x12; 0x34]; Wr 0x12 0x34 [0x80]; A 0x90; X 0x08; F (Z.lor flagC flagD)] "SBC" [0xE1; 0x08] 6
    (fun c halted => EQ 0x10 (cpu_a c) && negb (H flagN c) && negb (H flagZ c) && H flagC c);
  mkTest [] "HLT" [0x02] 0
    (fun c halted => halted);
  mkTest [] "HLT" [0x22] 0
    (fun c halted => halted);
  mkTest [] "HLT" [0x42] 0
    (fun c halted => halted);
  mkTest [] "HLT" [0x62] 0
    (fun c halted => halted);
  mkTest [] "NOP" [0x82] 2
    (fun c halted => true);
  mkTest [] "LDX" [0xA2; 0x00] 2
    (fun c halted => EQ 0x00 (cpu_x c) && negb (H flagN c) && H flagZ c);
  mkTest [] "LDX" [0xA2; 0x20] 2
    (fun c halted => EQ 0x20 (cpu_x c) && negb (H flagN c) && negb (H flagZ c));
  mkTest [] "LDX" [0xA2; 0xE0] 2
    (fun c halted => EQ 0xE0 (cpu_x c) && H flagN c && negb (H flagZ c));
  mkTest [] "NOP" [0xC2] 2
    (fun c halted => true);
  mkTest [] "NOP" [0xE2] 2
    (fun c halted => true);
  mkTest [] "NOP" [0x04; 0x00] 3
    (fun c halted => true);
  mkTest [Wr 0x80 0x00 [0xAA]; A 0x40] "BIT" [0x24; 0x80] 3
    (fun c halted => H flagZ c && H flagN c && negb (H flagV c));
  mkTest [Wr 0x80 0x00 [0x40]] "BIT" [0x24; 0x80] 3
    (fun c halted => H flagZ c && negb (H flagN c) && H flagV c);
  mkTest [] "NOP" [0x44; 0x00] 3
    (fun c halted => true);
  mkTest [] "NOP" [0x64; 0x00] 3
    (fun c halted => true);
  mkTest [Y 0x20] "STY" [0x84; 0x80] 3
    (fun c halted => EQ 0x20 (R 0x80 0x00 c));
  mkTest [Wr 0x20 0x00 [0x80]] "LDY" [0xA4; 0x20] 3
    (fun c halted => EQ 0x80 (cpu_y c) && H flagN c && negb (H flagZ c));
  mkTest [Wr 0x80 0x00 [0x80]; Y 0x80] "CPY" [0xC4; 0x80] 3
    (fun c halted => negb (H flagN c) && H flagZ c && H flagC c);
  mkTest [Wr 0x80 0x00 [0x80]; Y 0x81] "CPY" [0xC4; 0x80] 3
    (fun c halted => negb (H flagN c) && negb (H flagZ c) && H flagC c);
  mkTest [Wr 0x80 0x00 [0x01]; Y 0x81] "CPY" [0xC4; 0x80] 3
    (fun c halted => H flagN c && negb (H flagZ c) && H flagC c);
  mkTest [Wr 0x80 0x00 [0x80]; Y 0x01] "CPY" [0xC4; 0x80] 3
    (fun c halted => H flagN c && negb (H flagZ c) && negb (H flagC c));
  mkTest [Wr 0x80 0x00 [0x88]; Y 0x01] "CPY" [0xC4; 0x80] 3
    (fun c halted => negb (H flagN c) && negb (H flagZ c) && negb (H flagC c));
  mkTest [Wr 0x80 0x00 [0x80]; X 0x80] "CPX" [0xE4; 0x80] 3
    (fun c halted => negb (H flagN c) && H flagZ c && H flagC c);
  mkTest [Wr 0x80 0x00 [0x80]; X 0x81] "CPX" [0xE4; 0x80] 3
    (fun c halted => negb (H flagN c) && negb (H flagZ c) && H flagC c);
  mkTest [Wr 0x80 0x00 [0x01]; X 0x81] "CPX" [0xE4; 0x80] 3
    (fun c halted => H flagN c && negb (H flagZ c) && H flagC c);
  mkTest [Wr 0x80 0x00 [0x80]; X 0x01] "CPX" [0xE4; 0x80] 3
    (fun c halted => H flagN c && negb (H flagZ c) && negb (H flagC c));
  mkTest [Wr 0x80 0x00 [0x88]; X 0x01] "CPX" [0xE4; 0x80] 3
    (fun c halted => negb (H flagN c) && negb (H flagZ c) && negb (H flagC c));
  mkTest [Wr 0x80 0x00 [0x80]; A 0x01] "ORA" [0x05; 0x80] 3
    (fun c halted => EQ 0x81 (cpu_a c) && negb (H flagZ c) && H flagN c);
  mkTest [Wr 0x80 0x00 [0xAA]; A 0x0F] "AND" [0x25; 0x80] 3
    (fun c halted => EQ 0x0A (cpu_a c) && negb (H flagZ c) && negb (H flagN c));
  mkTest [Wr 0x80 0x00 [0xAA]; A 0xFF] "EOR" [0x45; 0x80] 3
    (fun c halted => EQ 0x55 (cpu_a c) && negb (H flagN c) && negb (H flagZ c));
  mkTest [Wr 0x80 0x00 [0x80]; A 0x80] "ADC" [0x65; 0x80] 3
    (fun c halted => EQ 0x00 (cpu_a c) && negb (H flagN c) && H flagZ c && H flagC c);
  mkTest [Wr 0x80 0x00 [0x80]; A 0x80; F flagC] "ADC" [0x65; 0x80] 3
    (fun c halted => EQ 0x01 (cpu_a c) && negb (H flagN c) && negb (H flagZ c) && H flagC c);
  mkTest [Wr 0x80 0x00 [0x80]; A 0x90; F flagD] "ADC" [0x65; 0x80] 3
    (fun c halted => EQ 0x70 (cpu_a c) && negb (H flagN c) && negb (H flagZ c) && H flagC c);
  mkTest [Wr 0x80 0x00 [0x80]; A 0x90; F (Z.lor flagC flagD)] "ADC" [0x65; 0x80] 3
    (fun c halted => EQ 0x71 (cpu_a c) && negb (H flagN c) && negb (H flagZ c) && H flagC c);
  mkTest [A 0x20] "STA" [0x85; 0x80] 3
    (fun c halted => EQ 0x20 (R 0x80 0x00 c));
  mkTest [Wr 0x20 0x00 [0x80]] "LDA" [0xA5; 0x20] 3
    (fun c halted => EQ 0x80 (cpu_a c) && H flagN c && negb (H flagZ c));
  mkTest [Wr 0x80 0x00 [0x80]; A 0x80] "CMP" [0xC5; 0x80] 3
    (fun c halted => negb (H flagN c) && H flagZ c && H flagC c);
  mkTest [Wr 0x80 0x00 [0x80]; A 0x81] "CMP" [0xC5; 0x80] 3
    (fun c halted => negb (H flagN c) && negb (H flagZ c) && H flagC c);
  mkTest [Wr 0x80 0x00 [0x01]; A 0x81] "CMP" [0xC5; 0x80] 3
    (fun c halted => H flagN c && negb (H flagZ c) && H flagC c);
  mkTest [Wr 0x80 0x00 [0x80]; A 0x01] "CMP" [0xC5; 0x80] 3
    (fun c halted => H flagN c && negb (H flagZ c) && negb (H flagC c));
  mkTest [Wr 0x80 0x00 [0x88]; A 0x01] "CMP" [0xC5; 0x80] 3
    (fun c halted => negb (H flagN c) && negb (H flagZ c) && negb (H flagC c));
  mkTest [Wr 0x80 0x00 [0x80]; A 0x80] "SBC" [0xE5; 0x80] 3
    (fun c halted => EQ 0xFF (cpu_a c) && H flagN c && negb (H flagZ c) && negb (H flagC c));
  mkTest [Wr 0x80 0x00 [0x80]; A 0x80; F flagC] "SBC" [0xE5; 0x80] 3
    (fun c halted => EQ 0x00 (cpu_a c) && negb (H flagN c) && H flagZ c && H flagC c);
  mkTest [Wr 0x80 0x00 [0x80]; A 0x90; F flagD] "SBC" [0xE5; 0x80] 3
    (fun c halted => EQ 0x09 (cpu_a c) && negb (H flagN c) && negb (H flagZ c) && H flagC c);
  mkTest [Wr 0x80 0x00 [0x80]; A 0x90; F (Z.lor flagC flagD)] "SBC" [0xE5; 0x80] 3
    (fun c halted => EQ 0x10 (cpu_a c) && negb (H flagN c) && negb (H flagZ c) && H flagC c);
  mkTest [Wr 0x80 0x00 [0x55]] "ASL" [0x06; 0x80] 5
    (fun c halted => EQ 0xAA (R 0x80 0x00 c) && H flagN c && negb (H flagC c));
  mkTest [Wr 0x80 0x00 [0xAA]] "ASL" [0x06; 0x80] 5
    (fun c halted => EQ 0x54 (R 0x80 0x00 c) && negb (H flagN c) && H flagC c);
  mkTest [Wr 0x80 0x00 [0x55]] "ROL" [0x26; 0x80] 5
    (fun c halted => EQ 0xAA (R 0x80 0x00 c) && H flagN c && negb (H flagC c));
  mkTest [Wr 0x80 0x00 [0xAA]; F flagC] "ROL" [0x26; 0x80] 5
    (fun c halted => EQ 0x55 (R 0x80 0x00 c) && negb (H flagN c) && H flagC c);
  mkTest [Wr 0x80 0x00 [0x55]] "LSR" [0x46; 0x80] 5
    (fun c halted => EQ 0x2A (R 0x80 0x00 c) && negb (H flagN c) && H flagC c);
  mkTest [Wr 0x80 0x00 [0xAA]] "LSR" [0x46; 0x80] 5
    (fun c halted => EQ 0x55 (R 0x80 0x00 c) && negb (H flagN c) && negb (H flagC c));
  mkTest [Wr 0x80 0x00 [0x55]] "ROR" [0x66; 0x80] 5
    (fun c halted => EQ 0x2A (R 0x80 0x00 c) && negb (H flagN c) && H flagC c);
  mkTest [Wr 0x80 0x00 [0xAA]] "ROR" [0x66; 0x80] 5
    (fun c halted => EQ 0x55 (R 0x80 0x00 c) && negb (H flagN c) && negb (H flagC c));
  mkTest [X 0xAA] "STX" [0x86; 0x80] 3
    (fun c halted => EQ 0xAA (R 0x80 0x00 c));
  mkTest [Wr 0x20 0x00 [0x80]] "LDX" [0xA6; 0x20] 3
    (fun c halted => EQ 0x80 (cpu_x c) && H flagN c && negb (H flagZ c));
  mkTest [Wr 0x80 0x00 [0x80]] "DEC" [0xC6; 0x80] 5
    (fun c halted => EQ 0x7F (R 0x80 0x00 c) && negb (H flagN c));
  mkTest [Wr 0x80 0x00 [0x80]] "INC" [0xE6; 0x80] 5
    (fun c halted => EQ 0x81 (R 0x80 0x00 c) && H flagN c);
  mkTest [] "PHP" [0x08] 3
    (fun c halted => EQ (Z.lor flagU flagB) (R 0xFF 0x01 c));
  mkTest [Wr 0xFF 0x01 [0xFF]; with_s 0xFE] "PLP" [0x28] 4
    (fun c halted => H flagN c && negb (H flagB c) && negb (H flagU c));
  mkTest [A 0x80] "PHA" [0x48] 3
    (fun c halted => EQ 0x80 (R 0xFF 0x01 c));
  mkTest [Wr 0xFF 0x01 [0x80]; with_s 0xFE] "PLA" [0x68] 4
    (fun c halted => EQ 0x80 (cpu_a c) && H flagN c);
  mkTest [Y 0x00] "DEY" [0x88] 2
    (fun c halted => EQ 0xFF (cpu_y c) && H flagN c);
  mkTest [A 0x80] "TAY" [0xA8] 2
    (fun c halted => EQ 0x80 (cpu_y c) && H flagN c);
  mkTest [Y 0x80] "INY" [0xC8] 2
    (fun c halted => EQ 0x81 (cpu_y c) && H flagN c && negb (H flagZ c));
  mkTest [X 0x80] "INX" [0xE8] 2
    (fun c halted => EQ 0x81 (cpu_x c) && H flagN c && negb (H flagZ c));
  mkTest [A 0x01] "ORA" [0x09; 0x80] 2
    (fun c halted => EQ 0x81 (cpu_a c) && negb (H flagZ c) && H flagN c);
  mkTest [A 0x0F] "AND" [0x29; 0xAA] 2
    (fun c halted => EQ 0x0A (cpu_a c) && negb (H flagZ c) && negb (H flagN c));
  mkTest [A 0xFF] "EOR" [0x49; 0xAA] 2
    (fun c halted => EQ 0x55 (cpu_a c) && negb (H flagN c) && negb (H flagZ c));
  mkTest [A 0x80] "ADC" [0x69; 0x80] 2
    (fun c halted => EQ 0x00 (cpu_a c) && negb (H flagN c) && H flagZ c && H flagC c);
  mkTest [A 0x80; F flagC] "ADC" [0x69; 0x80] 2
    (fun c halted => EQ 0x01 (cpu_a c) && negb (H flagN c) && negb (H flagZ c) && H flagC c);
  mkTest [A 0x90; F flagD] "ADC" [0x69; 0x80] 2
    (fun c halted => EQ 0x70 (cpu_a c) && negb (H flagN c) && negb (H flagZ c) && H flagC c);
  mkTest [A 0x90; F (Z.lor flagC flagD)] "ADC" [0x69; 0x80] 2
    (fun c halted => EQ 0x71 (cpu_a c) && negb (H flagN c) && negb (H flagZ c) && H flagC c);
  mkTest [] "NOP" [0x89] 2
    (fun c halted => true);
  mkTest [] "LDA" [0xA9; 0x20] 2
    (fun c halted => EQ 0x20 (cpu_a c) && negb (H flagN c) && negb (H flagZ c));
  mkTest [] "LDA" [0xA9; 0xE0] 2
    (fun c halted => EQ 0xE0 (cpu_a c) && H flagN c && negb (H flagZ c));
  mkTest [A 0x80] "CMP" [0xC9; 0x80] 2
    (fun c halted => negb (H flagN c) && H flagZ c && H flagC c);
  mkTest [A 0x81] "CMP" [0xC9; 0x80] 2
    (fun c halted => negb (H flagN c) && negb (H flagZ c) && H flagC c);
  mkTest [A 0x81] "CMP" [0xC9; 0x01] 2
    (fun c halted => H flagN c && negb (H flagZ c) && H flagC c);
  mkTest [A 0x01] "CMP" [0xC9; 0x80] 2
    (fun c halted => H flagN c && negb (H flagZ c) && negb (H flagC c));
  mkTest [A 0x01] "CMP" [0xC9; 0x88] 2
    (fun c halted => negb (H flagN c) && negb (H flagZ c) && negb (H flagC c));
  mkTest [A 0x80] "SBC" [0xE9; 0x80] 2
    (fun c halted => EQ 0xFF (cpu_a c) && H flagN c && negb (H flagZ c) && negb (H flagC c));
  mkTest [A 0x80; F flagC] "SBC" [0xE9; 0x80] 2
    (fun c halted => EQ 0x00 (cpu_a c) && negb (H flagN c) && H flagZ c && H flagC c);
  mkTest [A 0x90; F flagD] "SBC" [0xE9; 0x80] 2
    (fun c halted => EQ 0x09 (cpu_a c) && negb (H flagN c) && negb (H flagZ c) && H flagC c);
  mkTest [A 0x90; F (Z.lor flagC flagD)] "SBC" [0xE9; 0x80] 2
    (fun c halted => EQ 0x10 (cpu_a c) && negb (H flagN c) && negb (H flagZ c) && H flagC c);
  mkTest [A 0xAA] "ASL" [0x0A] 2
    (fun c halted => EQ 0x54 (cpu_a c) && negb (H flagZ c) && H flagC c);
  mkTest [A 0x07] "ASL" [0x0A] 2
    (fun c halted => EQ 0x0E (cpu_a c) && negb (H flagZ c) && negb (H flagC c));
  mkTest [A 0xAA; F flagC] "ROL" [0x2A] 2
    (fun c halted => EQ 0x55 (cpu_a c) && negb (H flagN c) && H flagC c);
  mkTest [A 0xAA; Fclear flagC] "ROL" [0x2A] 2
    (fun c halted => EQ 0x54 (cpu_a c) && negb (H flagN c) && H flagC c);
  mkTest [A 0x07] "ROL" [0x2A] 2
    (fun c halted => EQ 0x0E (cpu_a c) && negb (H flagN c) && negb (H flagC c));
  mkTest [A 0xAA] "LSR" [0x4A] 2
    (fun c halted => EQ 0x55 (cpu_a c) && negb (H flagN c) && negb (H flagC c));
  mkTest [A 0x07] "LSR" [0x4A] 2
    (fun c halted => EQ 0x03 (cpu_a c) && negb (H flagZ c) && H flagC c);
  mkTest [A 0x55] "ROR" [0x6A] 2
    (fun c halted => EQ 0x2A (cpu_a c) && negb (H flagN c) && H flagC c);
  mkTest [A 0xAA] "ROR" [0x6A] 2
    (fun c halted => EQ 0x55 (cpu_a c) && negb (H flagN c) && negb (H flagC c));
  mkTest [X 0x80] "TXA" [0x8A] 2
    (fun c halted => EQ 0x80 (cpu_a c) && H flagN c && negb (H flagZ c));
  mkTest [X 0x20] "TXA" [0x8A] 2
    (fun c halted => EQ 0x20 (cpu_a c) && negb (H flagN c) && negb (H flagZ c));
  mkTest [A 0x80] "TAX" [0xAA] 2
    (fun c halted => EQ 0x80 (cpu_x c) && H flagN c && negb (H flagZ c));
  mkTest [A 0x20] "TAX" [0xAA] 2
    (fun c halted => EQ 0x20 (cpu_x c) && negb (H flagN c) && negb (H flagZ c));
  mkTest [X 0x00] "DEX" [0xCA] 2
    (fun c halted => EQ 0xFF (cpu_x c) && H flagN c && negb (H flagZ c));
  mkTest [] "NOP" [0xEA] 2
    (fun c halted => true);
  mkTest [] "NOP" [0x0C; 0x00; 0x00] 4
    (fun c halted => true);
  mkTest [Wr 0x12 0x34 [0xAA]; A 0x40] "BIT" [0x2C; 0x12; 0x34] 4
    (fun c halted => H flagZ c && H flagN c && negb (H flagV c));
  mkTest [Wr 0x12 0x34 [0x40]] "BIT" [0x2C; 0x12; 0x34] 4
    (fun c halted => H flagZ c && negb (H flagN c) && H flagV c);
  mkTest [] "JMP" [0x4C; 0x12; 0x34] 3
    (fun c halted => EQ 0x12 (PCL c) && EQ 0x34 (PCH c));
  mkTest [Wr 0xFF 0x80 [0xAA]; Wr 0x00 0x80 [0x55]] "JMP" [0x6C; 0xFF; 0x80] 5
    (fun c halted => EQ 0xAA (PCL c) && EQ 0x55 (PCH c));
  mkTest [Y 0x80] "STY" [0x8C; 0x12; 0x34] 4
    (fun c halted => EQ 0x80 (R 0x12 0x34 c));
  mkTest [Wr 0x12 0x34 [0x80]] "LDY" [0xAC; 0x12; 0x34] 4
    (fun c halted => EQ 0x80 (cpu_y c) && H flagN c && negb (H flagZ c));
  mkTest [Wr 0x12 0x34 [0x20]] "LDY" [0xAC; 0x12; 0x34] 4
    (fun c halted => EQ 0x20 (cpu_y c) && negb (H flagN c) && negb (H flagZ c));
  mkTest [Wr 0x12 0x34 [0x80]; Y 0x80] "CPY" [0xCC; 0x12; 0x34] 4
    (fun c halted => negb (H flagN c) && H flagZ c && H flagC c);
  mkTest [Wr 0x12 0x34 [0x80]; Y 0x81] "CPY" [0xCC; 0x12; 0x34] 4
    (fun c halted => negb (H flagN c) && negb (H flagZ c) && H flagC c);
  mkTest [Wr 0x12 0x34 [0x01]; Y 0x81] "CPY" [0xCC; 0x12; 0x34] 4
    (fun c halted => H flagN c && negb (H flagZ c) && H flagC c);
  mkTest [Wr 0x12 0x34 [0x80]; Y 0x01] "CPY" [0xCC; 0x12; 0x34] 4
    (fun c halted => H flagN c && negb (H flagZ c) && negb (H flagC c));
  mkTest [Wr 0x12 0x34 [0x88]; Y 0x01] "CPY" [0xCC; 0x12; 0x34] 4
    (fun c halted => negb (H flagN c) && negb (H flagZ c) && negb (H flagC c));
  mkTest [Wr 0x12 0x34 [0x80]; X 0x80] "CPX" [0xEC; 0x12; 0x34] 4
    (fun c halted => negb (H flagN c) && H flagZ c && H flagC c);
  mkTest [Wr 0x12 0x34 [0x80]; X 0x81] "CPX" [0xEC; 0x12; 0x34] 4
    (fun c halted => negb (H flagN c) && negb (H flagZ c) && H flagC c);
  mkTest [Wr 0x12 0x34 [0x01]; X 0x81] "CPX" [0xEC; 0x12; 0x34] 4
    (fun c halted => H flagN c && negb (H flagZ c) && H flagC c);
  mkTest [Wr 0x12 0x34 [0x80]; X 0x01] "CPX" [0xEC; 0x12; 0x34] 4
    (fun c halted => H flagN c && negb (H flagZ c) && negb (H flagC c));
  mkTest [Wr 0x12 0x34 [0x88]; X 0x01] "CPX" [0xEC; 0x12; 0x34] 4
    (fun c halted => negb (H flagN c) && negb (H flagZ c) && negb (H flagC c));
  mkTest [Wr 0x12 0x34 [0x80]; A 0x01] "ORA" [0x0D; 0x12; 0x34] 4
    (fun c halted => EQ 0x81 (cpu_a c) && negb (H flagZ c) && H flagN c);
  mkTest [Wr 0x12 0x34 [0xAA]; A 0x0F] "AND" [0x2D; 0x12; 0x34] 4
    (fun c halted => EQ 0x0A (cpu_a c) && negb (H flagZ c) && negb (H flagN c));
  mkTest [Wr 0x12 0x34 [0xAA]; A 0x0F] "EOR" [0x4D; 0x12; 0x34] 4
    (fun c halted => EQ 0xA5 (cpu_a c) && negb (H flagZ c) && H flagN c);
  mkTest [Wr 0x12 0x34 [0x80]; A 0x80] "ADC" [0x6D; 0x12; 0x34] 4
    (fun c halted => EQ 0x00 (cpu_a c) && negb (H flagN c) && H flagZ c && H flagC c);
  mkTest [Wr 0x12 0x34 [0x80]; A 0x80; F flagC] "ADC" [0x6D; 0x12; 0x34] 4
    (fun c halted => EQ 0x01 (cpu_a c) && negb (H flagN c) && negb (H flagZ c) && H flagC c);
  mkTest [Wr 0x12 0x34 [0x80]; A 0x90; F flagD] "ADC" [0x6D; 0x12; 0x34] 4
    (fun c halted => EQ 0x70 (cpu_a c) && negb (H flagN c) && negb (H flagZ c) && H flagC c);
  mkTest [Wr 0x12 0x34 [0x80]; A 0x90; F (Z.lor flagC flagD)] "ADC" [0x6D; 0x12; 0x34] 4
    (fun c halted => EQ 0x71 (cpu_a c) && negb (H flagN c) && negb (H flagZ c) && H flagC c);
  mkTest [A 0x80] "STA" [0x8D; 0x12; 0x34] 4
    (fun c halted => EQ 0x80 (R 0x12 0x34 c));
  mkTest [Wr 0x12 0x34 [0x20]] "LDA" [0xAD; 0x12; 0x34] 4
    (fun c halted => EQ 0x20 (cpu_a c));
  mkTest [Wr 0x12 0x34 [0x80]; A 0x80] "CMP" [0xCD; 0x12; 0x34] 4
    (fun c halted => negb (H flagN c) && H flagZ c && H flagC c);
  mkTest [Wr 0x12 0x34 [0x80]; A 0x81] "CMP" [0xCD; 0x12; 0x34] 4
    (fun c halted => negb (H flagN c) && negb (H flagZ c) && H flagC c);
  mkTest [Wr 0x12 0x34 [0x01]; A 0x81] "CMP" [0xCD; 0x12; 0x34] 4
    (fun c halted => H flagN c && negb (H flagZ c) && H flagC c);
  mkTest [Wr 0x12 0x34 [0x80]; A 0x01] "CMP" [0xCD; 0x12; 0x34] 4
    (fun c halted => H flagN c && negb (H flagZ c) && negb (H flagC c));
  mkTest [Wr 0x12 0x34 [0x88]; A 0x01] "CMP" [0xCD; 0x12; 0x34] 4
    (fun c halted => negb (H flagN c) && negb (H flagZ c) && negb (H flagC c));
  mkTest [Wr 0x12 0x34 [0x80]; A 0x80] "SBC" [0xED; 0x12; 0x34] 4
    (fun c halted => EQ 0xFF (cpu_a c) && H flagN c && negb (H flagZ c) && negb (H flagC c));
  mkTest [Wr 0x12 0x34 [0x80]; A 0x80; F flagC] "SBC" [0xED; 0x12; 0x34] 4
    (fun c halted => EQ 0x00 (cpu_a c) && negb (H flagN c) && H flagZ c && H flagC c);
  mkTest [Wr 0x12 0x34 [0x80]; A 0x90; F flagD] "SBC" [0xED; 0x12; 0x34] 4
    (fun c halted => EQ 0x09 (cpu_a c) && negb (H flagN c) && negb (H flagZ c) && H flagC c);
  mkTest [Wr 0x12 0x34 [0x80]; A 0x90; F (Z.lor flagC flagD)] "SBC" [0xED; 0x12; 0x34] 4
    (fun c halted => EQ 0x10 (cpu_a c) && negb (H flagN c) && negb (H flagZ c) && H flagC c);
  mkTest [Wr 0x12 0x34 [0x55]] "ASL" [0x0E; 0x12; 0x34] 6
    (fun c halted => EQ 0xAA (R 0x12 0x34 c) && H flagN c && negb (H flagC c));
  mkTest [Wr 0x12 0x34 [0xAA]] "ASL" [0x0E; 0x12; 0x34] 6
    (fun c halted => EQ 0x54 (R 0x12 0x34 c) && negb (H flagN c) && H flagC c);
  mkTest [Wr 0x12 0x34 [0x55]] "ROL" [0x2E; 0x12; 0x34] 6
    (fun c halted => EQ 0xAA (R 0x12 0x34 c) && H flagN c && negb (H flagC c));
  mkTest [Wr 0x12 0x34 [0xAA]; F flagC] "ROL" [0x2E; 0x12; 0x34] 6
    (fun c halted => EQ 0x55 (R 0x12 0x34 c) && negb (H flagN c) && H flagC c);
  mkTest [Wr 0x12 0x34 [0x55]] "LSR" [0x4E; 0x12; 0x34] 6
    (fun c halted => EQ 0x2A (R 0x12 0x34 c) && negb (H flagN c) && H flagC c);
  mkTest [Wr 0x12 0x34 [0xAA]] "LSR" [0x4E; 0x12; 0x34] 6
    (fun c halted => EQ 0x55 (R 0x12 0x34 c) && negb (H flagN c) && negb (H flagC c));
  mkTest [Wr 0x12 0x34 [0x55]] "ROR" [0x6E; 0x12; 0x34] 6
    (fun c halted => EQ 0x2A (R 0x12 0x34 c) && negb (H flagN c) && H flagC c);
  mkTest [Wr 0x12 0x34 [0xAA]] "ROR" [0x6E; 0x12; 0x34] 6
    (fun c halted => EQ 0x55 (R 0x12 0x34 c) && negb (H flagN c) && negb (H flagC c));
  mkTest [X 0x80] "STX" [0x8E; 0x12; 0x34] 4
    (fun c halted => EQ 0x80 (R 0x12 0x34 c));
  mkTest [Wr 0x12 0x34 [0x80]] "LDX" [0xAE; 0x12; 0x34] 4
    (fun c halted => EQ 0x80 (cpu_x c) && H flagN c && negb (H flagZ c));
  mkTest [Wr 0x12 0x34 [0x80]] "DEC" [0xCE; 0x12; 0x34] 6
    (fun c halted => EQ 0x7F (R 0x12 0x34 c) && negb (H flagN c));
  mkTest [Wr 0x12 0x34 [0x80]] "INC" [0xEE; 0x12; 0x34] 6
    (fun c halted => EQ 0x81 (R 0x12 0x34 c) && H flagN c);
  mkTest [F flagN] "BPL" [0x10; 0x10] 2
    (fun c halted => EQ 0x02 (PCL c));
  mkTest [] "BPL" [0x10; 0x10] 3
    (fun c halted => EQ 0x12 (PCL c) && EQ 0x04 (PCH c));
  mkTest [] "BPL" [0x10; 0xE0] 4
    (fun c halted => EQ 0xE2 (PCL c) && EQ 0x03 (PCH c));
  mkTest [] "BMI" [0x30; 0x10] 2
    (fun c halted => EQ 0x02 (PCL c));
  mkTest [F flagN] "BMI" [0x30; 0x10] 3
    (fun c halted => EQ 0x12 (PCL c) && EQ 0x04 (PCH c));
  mkTest [F flagN] "BMI" [0x30; 0xE0] 4
    (fun c halted => EQ 0xE2 (PCL c) && EQ 0x03 (PCH c));
  mkTest [F flagV] "BVC" [0x50; 0x10] 2
    (fun c halted => EQ 0x02 (PCL c));
  mkTest [] "BVC" [0x50; 0x10] 3
    (fun c halted => EQ 0x12 (PCL c) && EQ 0x04 (PCH c));
  mkTest [] "BVC" [0x50; 0xE0] 4
    (fun c halted => EQ 0xE2 (PCL c) && EQ 0x03 (PCH c));
  mkTest [] "BVS" [0x70; 0x10] 2
    (fun c halted => EQ 0x02 (PCL c));
  mkTest [F flagV] "BVS" [0x70; 0x10] 3
    (fun c halted => EQ 0x12 (PCL c) && EQ 0x04 (PCH c));
  mkTest [F flagV] "BVS" [0x70; 0xE0] 4
    (fun c halted => EQ 0xE2 (PCL c) && EQ 0x03 (PCH c));
  mkTest [F flagC] "BCC" [0x90; 0x10] 2
    (fun c halted => EQ 0x02 (PCL c));
  mkTest [] "BCC" [0x90; 0x10] 3
    (fun c halted => EQ 0x12 (PCL c) && EQ 0x04 (PCH c));
  mkTest [] "BCC" [0x90; 0xE0] 4
    (fun c halted => EQ 0xE2 (PCL c) && EQ 0x03 (PCH c));
  mkTest [] "BCS" [0xB0; 0x10] 2
    (fun c halted => EQ 0x02 (PCL c));
  mkTest [F flagC] "BCS" [0xB0; 0x10] 3
    (fun c halted => EQ 0x12 (PCL c) && EQ 0x04 (PCH c));
  mkTest [F flagC] "BCS" [0xB0; 0xE0] 4
    (fun c halted => EQ 0xE2 (PCL c) && EQ 0x03 (PCH c));
  mkTest [F flagZ] "BNE" [0xD0; 0x10] 2
    (fun c halted => EQ 0x02 (PCL c));
  mkTest [] "BNE" [0xD0; 0x10] 3
    (fun c halted => EQ 0x12 (PCL c) && EQ 0x04 (PCH c));
  mkTest [] "BNE" [0xD0; 0xE0] 4
    (fun c halted => EQ 0xE2 (PCL c) && EQ 0x03 (PCH c));
  mkTest [] "BEQ" [0xF0; 0x10] 2
    (fun c halted => EQ 0x02 (PCL c));
  mkTest [F flagZ] "BEQ" [0xF0; 0x10] 3
    (fun c halted => EQ 0x12 (PCL c) && EQ 0x04 (PCH c));
  mkTest [F flagZ] "BEQ" [0xF0; 0xE0] 4
    (fun c halted => EQ 0xE2 (PCL c) && EQ 0x03 (PCH c));
  mkTest [Wr 0x80 0x00 [0xFE; 0xFF]; Wr 0xFF 0xFF [0xAA]; A 0x0F; Y 0x01] "ORA" [0x11; 0x80] 5
    (fun c halted => EQ 0xAF (cpu_a c) && negb (H flagZ c) && H flagN c);
  mkTest [Wr 0x80 0x00 [0xFE; 0xFF]; Wr 0x00 0x00 [0xAA]; A 0x0F; Y 0x02] "ORA" [0x11; 0x80] 6
    (fun c halted => EQ 0xAF (cpu_a c) && negb (H flagZ c) && H flagN c);
  mkTest [Wr 0x80 0x00 [0xFE; 0xFF]; Wr 0xFF 0xFF [0xAA]; A 0x0F; Y 0x01] "AND" [0x31; 0x80] 5
    (fun c halted => EQ 0x0A (cpu_a c) && negb (H flagZ c) && negb (H flagN c));
  mkTest [Wr 0x80 0x00 [0xFE; 0xFF]; Wr 0x00 0x00 [0xAA]; A 0x0F; Y 0x02] "AND" [0x31; 0x80] 6
    (fun c halted => EQ 0x0A (cpu_a c) && negb (H flagZ c) && negb (H flagN c));
  mkTest [Wr 0x80 0x00 [0xFE; 0xFF]; Wr 0xFF 0xFF [0xAA]; A 0x0F; Y 0x01] "EOR" [0x51; 0x80] 5
    (fun c halted => EQ 0xA5 (cpu_a c) && negb (H flagZ c) && H flagN c);
  mkTest [Wr 0x80 0x00 [0xFE; 0xFF]; Wr 0x00 0x00 [0xAA]; A 0x0F; Y 0x02] "EOR" [0x51; 0x80] 6
    (fun c halted => EQ 0xA5 (cpu_a c) && negb (H flagZ c) && H flagN c);
  mkTest [Wr 0x80 0x00 [0xFE; 0xFF]; Wr 0xFF 0xFF [0x80]; A 0x80; Y 0x01] "ADC" [0x71; 0x80] 5
    (fun c halted => EQ 0x00 (cpu_a c) && negb (H flagN c) && H flagZ c && H flagC c);
  mkTest [Wr 0x80 0x00 [0xFE; 0xFF]; Wr 0xFF 0xFF [0x80]; A 0x80; Y 0x01; F flagC] "ADC" [0x71; 0x80] 5
    (fun c halted => EQ 0x01 (cpu_a c) && negb (H flagN c) && negb (H flagZ c) && H flagC c);
  mkTest [Wr 0x80 0x00 [0xFE; 0xFF]; Wr 0xFF 0xFF [0x80]; A 0x80; Y 0x01; F flagC] "ADC" [0x71; 0x80] 5
    (fun c halted => EQ 0x01 (cpu_a c) && negb (H flagN c) && negb (H flagZ c) && H flagC c);
  mkTest [Wr 0x80 0x00 [0xFE; 0xFF]; Wr 0xFF 0xFF [0x80]; A 0x90; Y 0x01; F flagD] "ADC" [0x71; 0x80] 5
    (fun c halted => EQ 0x70 (cpu_a c) && negb (H flagN c) && negb (H flagZ c) && H flagC c);
  mkTest [Wr 0x80 0x00 [0xFE; 0xFF]; Wr 0x00 0x00 [0x80]; A 0x90; Y 0x02; F (Z.lor flagD flagC)] "ADC" [0x71; 0x80] 6
    (fun c halted => EQ 0x71 (cpu_a c) && negb (H flagN c) && negb (H flagZ c) && H flagC c);
  mkTest [Wr 0x80 0x00 [0xFE; 0xFF]; A 0xAA; Y 0x01] "STA" [0x91; 0x80] 6
    (fun c halted => EQ 0xAA (R 0xFF 0xFF c));
  mkTest [Wr 0x80 0x00 [0xFE; 0xFF]; Wr 0xFF 0xFF [0xAA]; Y 0x01] "LDA" [0xB1; 0x80] 5
    (fun c halted => EQ 0xAA (cpu_a c) && H flagN c);
  mkTest [Wr 0x80 0x00 [0xFE; 0xFF]; Wr 0x00 0x00 [0xAA]; Y 0x02] "LDA" [0xB1; 0x80] 6
    (fun c halted => EQ 0xAA (cpu_a c) && H flagN c);
  mkTest [Wr 0x80 0x00 [0xFE; 0xFF]; Wr 0xFF 0xFF [0x80]; A 0x80; Y 0x01] "CMP" [0xD1; 0x80] 5
    (fun c halted => negb (H flagN c) && H flagZ c && H flagC c);
  mkTest [Wr 0x80 0x00 [0xFE; 0xFF]; Wr 0xFF 0xFF [0x80]; A 0x81; Y 0x01] "CMP" [0xD1; 0x80] 5
    (fun c halted => negb (H flagN c) && negb (H flagZ c) && H flagC c);
  mkTest [Wr 0x80 0x00 [0xFE; 0xFF]; A 0x81; Y 0x81] "CMP" [0xD1; 0x80] 6
    (fun c halted => H flagN c && negb (H flagZ c) && H flagC c);
  mkTest [Wr 0x80 0x00 [0xFE; 0xFF]; Wr 0x00 0x00 [0x80]; A 0x01; Y 0x02] "CMP" [0xD1; 0x80] 6
    (fun c halted => H flagN c && negb (H flagZ c) && negb (H flagC c));
  mkTest [Wr 0x80 0x00 [0xFE; 0xFF]; Wr 0x00 0x00 [0x88]; A 0x01; Y 0x02] "CMP" [0xD1; 0x80] 6
    (fun c halted => negb (H flagN c) && negb (H flagZ c) && negb (H flagC c));
  mkTest [Wr 0x80 0x00 [0xFE; 0xFF]; Wr 0xFF 0xFF [0x80]; A 0x80; Y 0x01] "SBC" [0xF1; 0x80] 5
    (fun c halted => EQ 0xFF (cpu_a c) && H flagN c && negb (H flagZ c) && negb (H flagC c));
  mkTest [Wr 0x80 0x00 [0xFE; 0xFF]; Wr 0xFF 0xFF [0x80]; A 0x80; Y 0x01; F flagC] "SBC" [0xF1; 0x80] 5
    (fun c halted => EQ 0x00 (cpu_a c) && negb (H flagN c) && H flagZ c && H flagC c);
  mkTest [Wr 0x80 0x00 [0xFE; 0xFF]; Wr 0x00 0x00 [0x80]; A 0x80; Y 0x02] "SBC" [0xF1; 0x80] 6
    (fun c halted => EQ 0xFF (cpu_a c));
  mkTest [Wr 0x80 0x00 [0xFE; 0xFF]; Wr 0xFF 0xFF [0x80]; A 0x90; Y 0x01; F flagD] "SBC" [0xF1; 0x80] 5
    (fun c halted => EQ 0x09 (cpu_a c) && negb (H flagN c) && negb (H flagZ c) && H flagC c);
  mkTest [Wr 0x80 0x00 [0xFE; 0xFF]; Wr 0xFF 0xFF [0x80]; A 0x90; Y 0x01; F (Z.lor flagC flagD)] "SBC" [0xF1; 0x80] 5
    (fun c halted => EQ 0x10 (cpu_a c) && negb (H flagN c) && negb (H flagZ c) && H flagC c);
  mkTest [] "HLT" [0x12] 0
    (fun c halted => halted);
  mkTest [] "HLT" [0x32] 0
    (fun c halted => halted);
  mkTest [] "HLT" [0x52] 0
    (fun c halted => halted);
  mkTest [] "HLT" [0x72] 0
    (fun c halted => halted);
  mkTest [] "HLT" [0x92] 0
    (fun c halted => halted);
  mkTest [] "HLT" [0xB2] 0
    (fun c halted => halted);
  mkTest [] "HLT" [0xD2] 0
    (fun c halted => halted);
  mkTest [] "HLT" [0xF2] 0
    (fun c halted => halted);
  mkTest [] "NOP" [0x14; 0x00] 4
    (fun c halted => true);
  mkTest [] "NOP" [0x34; 0x00] 4
    (fun c halted => true);
  mkTest [] "NOP" [0x54; 0x00] 4
    (fun c halted => true);
  mkTest [] "NOP" [0x74; 0x00] 4
    (fun c halted => true);
  mkTest [X 0x70; Y 0x80] "STY" [0x94; 0x10] 4
    (fun c halted => EQ 0x80 (R 0x80 0x00 c));
  mkTest [Wr 0x80 0x00 [0x80]; X 0x70] "LDY" [0xB4; 0x10] 4
    (fun c halted => EQ 0x80 (cpu_y c));
  mkTest [] "NOP" [0xD4; 0x00] 4
    (fun c halted => true);
  mkTest [] "NOP" [0xF4; 0x00] 4
    (fun c halted => true);
  mkTest [Wr 0x80 0x00 [0x80]; A 0x01; X 0x70] "ORA" [0x15; 0x10] 4
    (fun c halted => EQ 0x81 (cpu_a c) && negb (H flagZ c) && H flagN c);
  mkTest [Wr 0x80 0x00 [0x0A]; A 0xFF; X 0x70] "AND" [0x35; 0x10] 4
    (fun c halted => EQ 0x0A (cpu_a c) && negb (H flagZ c) && negb (H flagN c));
  mkTest [Wr 0x80 0x00 [0xAA]; A 0xFF; X 0x70] "EOR" [0x55; 0x10] 4
    (fun c halted => EQ 0x55 (cpu_a c) && negb (H flagZ c) && negb (H flagN c));
  mkTest [Wr 0x80 0x00 [0x80]; A 0x80; X 0x70] "ADC" [0x75; 0x10] 4
    (fun c halted => EQ 0x00 (cpu_a c) && negb (H flagN c) && H flagZ c && H flagC c);
  mkTest [Wr 0x80 0x00 [0x80]; A 0x80; X 0x70; F flagC] "ADC" [0x75; 0x10] 4
    (fun c halted => EQ 0x01 (cpu_a c) && negb (H flagN c) && negb (H flagZ c) && H flagC c);
  mkTest [Wr 0x80 0x00 [0x80]; A 0x90; X 0x70; F flagD] "ADC" [0x75; 0x10] 4
    (fun c halted => EQ 0x70 (cpu_a c) && negb (H flagN c) && negb (H flagZ c) && H flagC c);
  mkTest [Wr 0x80 0x00 [0x80]; A 0x90; X 0x70; F (Z.lor flagC flagD)] "ADC" [0x75; 0x10] 4
    (fun c halted => EQ 0x71 (cpu_a c) && negb (H flagN c) && negb (H flagZ c) && H flagC c);
  mkTest [X 0x70; A 0x80] "STA" [0x95; 0x10] 4
    (fun c halted => EQ 0x80 (R 0x80 0x00 c));
  mkTest [Wr 0x80 0x00 [0x80]; X 0x70] "LDA" [0xB5; 0x10] 4
    (fun c halted => EQ 0x80 (cpu_a c));
  mkTest [Wr 0x80 0x00 [0x80]; A 0x80; X 0x70] "CMP" [0xD5; 0x10] 4
    (fun c halted => negb (H flagN c) && H flagZ c && H flagC c);
  mkTest [Wr 0x80 0x00 [0x80]; A 0x81; X 0x70] "CMP" [0xD5; 0x10] 4
    (fun c halted => negb (H flagN c) && negb (H flagZ c) && H flagC c);
  mkTest [Wr 0x80 0x00 [0x01]; A 0x81; X 0x70] "CMP" [0xD5; 0x10] 4
    (fun c halted => H flagN c && negb (H flagZ c) && H flagC c);
  mkTest [Wr 0x80 0x00 [0x80]; A 0x01; X 0x70] "CMP" [0xD5; 0x10] 4
    (fun c halted => H flagN c && negb (H flagZ c) && negb (H flagC c));
  mkTest [Wr 0x80 0x00 [0x88]; A 0x01; X 0x70] "CMP" [0xD5; 0x10] 4
    (fun c halted => negb (H flagN c) && negb (H flagZ c) && negb (H flagC c));
  mkTest [Wr 0x80 0x00 [0x80]; A 0x80; X 0x70] "SBC" [0xF5; 0x10] 4
    (fun c halted => EQ 0xFF (cpu_a c) && H flagN c && negb (H flagZ c) && negb (H flagC c));
  mkTest [Wr 0x80 0x00 [0x80]; A 0x80; X 0x70; F flagC] "SBC" [0xF5; 0x10] 4
    (fun c halted => EQ 0x00 (cpu_a c) && negb (H flagN c) && H flagZ c && H flagC c);
  mkTest [Wr 0x80 0x00 [0x80]; A 0x90; X 0x70; F flagD] "SBC" [0xF5; 0x10] 4
    (fun c halted => EQ 0x09 (cpu_a c) && negb (H flagN c) && negb (H flagZ c) && H flagC c);
  mkTest [Wr 0x80 0x00 [0x80]; A 0x90; X 0x70; F (Z.lor flagC flagD)] "SBC" [0xF5; 0x10] 4
    (fun c halted => EQ 0x10 (cpu_a c) && negb (H flagN c) && negb (H flagZ c) && H flagC c);
  mkTest [Wr 0x80 0x00 [0x55]; X 0x70] "ASL" [0x16; 0x10] 6
    (fun c halted => EQ 0xAA (R 0x80 0x00 c) && H flagN c && negb (H flagC c));
  mkTest [Wr 0x80 0x00 [0xAA]; X 0x70] "ASL" [0x16; 0x10] 6
    (fun c halted => EQ 0x54 (R 0x80 0x00 c) && negb (H flagN c) && H flagC c);
  mkTest [Wr 0x80 0x00 [0x55]; X 0x70] "ROL" [0x36; 0x10] 6
    (fun c halted => EQ 0xAA (R 0x80 0x00 c) && H flagN c && negb (H flagC c));
  mkTest [Wr 0x80 0x00 [0xAA]; F flagC; X 0x70] "ROL" [0x36; 0x10] 6
    (fun c halted => EQ 0x55 (R 0x80 0x00 c) && negb (H flagN c) && H flagC c);
  mkTest [Wr 0x80 0x00 [0x55]; X 0x70] "LSR" [0x56; 0x10] 6
    (fun c halted => EQ 0x2A (R 0x80 0x00 c) && negb (H flagN c) && H flagC c);
  mkTest [Wr 0x80 0x00 [0xAA]; X 0x70] "LSR" [0x56; 0x10] 6
    (fun c halted => EQ 0x55 (R 0x80 0x00 c) && negb (H flagN c) && negb (H flagC c));
  mkTest [Wr 0x80 0x00 [0x55]; X 0x70] "ROR" [0x76; 0x10] 6
    (fun c halted => EQ 0x2A (R 0x80 0x00 c) && negb (H flagN c) && H flagC c);
  mkTest [Wr 0x80 0x00 [0xAA]; X 0x70] "ROR" [0x76; 0x10] 6
    (fun c halted => EQ 0x55 (R 0x80 0x00 c) && negb (H flagN c) && negb (H flagC c));
  mkTest [X 0x80; Y 0x70] "STX" [0x96; 0x10] 4
    (fun c halted => EQ 0x80 (R 0x80 0x00 c));
  mkTest [Wr 0x80 0x00 [0x80]; Y 0x70] "LDX" [0xB6; 0x10] 4
    (fun c halted => EQ 0x80 (cpu_x c));
  mkTest [Wr 0x80 0x00 [0x80]; X 0x70] "DEC" [0xD6; 0x10] 6
    (fun c halted => EQ 0x7F (R 0x80 0x00 c) && negb (H flagN c));
  mkTest [Wr 0x80 0x00 [0x80]; X 0x70] "INC" [0xF6; 0x10] 6
    (fun c halted => EQ 0x81 (R 0x80 0x00 c) && H flagN c);
  mkTest [F flagC] "CLC" [0x18] 2
    (fun c halted => negb (H flagC c));
  mkTest [Fclear flagC] "SEC" [0x38] 2
    (fun c halted => H flagC c);
  mkTest [F flagI] "CLI" [0x58] 2
    (fun c halted => negb (H flagI c));
  mkTest [Fclear flagI] "SEI" [0x78] 2
    (fun c halted => H flagI c);
  mkTest [Y 0x80] "TYA" [0x98] 2
    (fun c halted => EQ 0x80 (cpu_a c) && H flagN c);
  mkTest [F flagV] "CLV" [0xB8] 2
    (fun c halted => negb (H flagV c));
  mkTest [F flagD] "CLD" [0xD8] 2
    (fun c halted => negb (H flagD c));
  mkTest [] "SED" [0xF8] 2
    (fun c halted => H flagD c);
  mkTest [Wr 0x12 0x34 [0x80]; Y 0x02; A 0x01] "ORA" [0x19; 0x10; 0x34] 4
    (fun c halted => EQ 0x81 (cpu_a c) && negb (H flagZ c) && H flagN c);
  mkTest [Y 0x02; A 0x01] "ORA" [0x19; 0xFF; 0xFF] 5
    (fun c halted => EQ 0x01 (cpu_a c) && negb (H flagZ c) && negb (H flagN c));
  mkTest [Wr 0x12 0x34 [0xAA]; Y 0x02; A 0xFF] "AND" [0x39; 0x10; 0x34] 4
    (fun c halted => EQ 0xAA (cpu_a c) && negb (H flagZ c) && H flagN c);
  mkTest [Y 0x02; A 0xFF] "AND" [0x39; 0xFF; 0xFF] 5
    (fun c halted => EQ 0x00 (cpu_a c));
  mkTest [Wr 0x12 0x34 [0xAA]; Y 0x02; A 0xFF] "EOR" [0x59; 0x10; 0x34] 4
    (fun c halted => EQ 0x55 (cpu_a c) && negb (H flagZ c) && negb (H flagN c));
  mkTest [Y 0x02; A 0xFF] "EOR" [0x59; 0xFF; 0xFF] 5
    (fun c halted => EQ 0xFF (cpu_a c) && negb (H flagZ c) && H flagN c);
  mkTest [Wr 0x12 0x34 [0x80]; Y 0x02; A 0x80] "ADC" [0x79; 0x10; 0x34] 4
    (fun c halted => EQ 0x00 (cpu_a c) && negb (H flagN c) && H flagZ c && H flagC c);
  mkTest [Wr 0x12 0x34 [0x80]; Y 0x02; A 0x80; F flagC] "ADC" [0x79; 0x10; 0x34] 4
    (fun c halted => EQ 0x01 (cpu_a c) && negb (H flagN c) && negb (H flagZ c) && H flagC c);
  mkTest [Wr 0x12 0x34 [0x80]; Y 0x02; A 0x90; F flagD] "ADC" [0x79; 0x10; 0x34] 4
    (fun c halted => EQ 0x70 (cpu_a c) && negb (H flagN c) && negb (H flagZ c) && H flagC c);
  mkTest [Wr 0x00 0x00 [0x80]; Y 0x02; A 0x90; F (Z.lor flagC flagD)] "ADC" [0x79; 0xFE; 0xFF] 5
    (fun c halted => EQ 0x71 (cpu_a c) && negb (H flagN c) && negb (H flagZ c) && H flagC c);
  mkTest [A 0x80; Y 0xFF] "STA" [0x99; 0x12; 0x34] 5
    (fun c halted => EQ 0x80 (R 0x11 0x35 c));
  mkTest [Wr 0x12 0x34 [0x80]; Y 0x01] "LDA" [0xB9; 0x11; 0x34] 4
    (fun c halted => EQ 0x80 (cpu_a c) && H flagN c);
  mkTest [Wr 0x11 0x35 [0x80]; Y 0xFF] "LDA" [0xB9; 0x12; 0x34] 5
    (fun c halted => EQ 0x80 (cpu_a c) && negb (H flagZ c));
  mkTest [Wr 0x12 0x34 [0x80]; A 0x80; Y 0x01] "CMP" [0xD9; 0x11; 0x34] 4
    (fun c halted => negb (H flagN c) && H flagZ c && H flagC c);
  mkTest [Wr 0x12 0x34 [0x80]; A 0x81; Y 0x01] "CMP" [0xD9; 0x11; 0x34] 4
    (fun c halted => negb (H flagN c) && negb (H flagZ c) && H flagC c);
  mkTest [Wr 0x12 0x34 [0x01]; A 0x81; Y 0x01] "CMP" [0xD9; 0x11; 0x34] 4
    (fun c halted => H flagN c && negb (H flagZ c) && H flagC c);
  mkTest [Wr 0x12 0x34 [0x80]; A 0x01; Y 0x01] "CMP" [0xD9; 0x11; 0x34] 4
    (fun c halted => H flagN c && negb (H flagZ c) && negb (H flagC c));
  mkTest [Wr 0x12 0x34 [0x88]; A 0x01; Y 0x01] "CMP" [0xD9; 0x11; 0x34] 4
    (fun c halted => negb (H flagN c) && negb (H flagZ c) && negb (H flagC c));
  mkTest [Wr 0x12 0x34 [0x80]; A 0x80; Y 0x01] "SBC" [0xF9; 0x11; 0x34] 4
    (fun c halted => EQ 0xFF (cpu_a c) && H flagN c && negb (H flagZ c) && negb (H flagC c));
  mkTest [Wr 0x12 0x34 [0x80]; A 0x80; Y 0x01; F flagC] "SBC" [0xF9; 0x11; 0x34] 4
    (fun c halted => EQ 0x00 (cpu_a c) && negb (H flagN c) && H flagZ c && H flagC c);
  mkTest [Wr 0x00 0x00 [0x80]; A 0x80; Y 0x01] "SBC" [0xF9; 0xFF; 0xFF] 5
    (fun c halted => EQ 0xFF (cpu_a c));
  mkTest [Wr 0x12 0x34 [0x80]; A 0x90; Y 0x01; F flagD] "SBC" [0xF9; 0x11; 0x34] 4
    (fun c halted => EQ 0x09 (cpu_a c) && negb (H flagN c) && negb (H flagZ c) && H flagC c);
  mkTest [Wr 0x12 0x34 [0x80]; A 0x90; Y 0x01; F (Z.lor flagC flagD)] "SBC" [0xF9; 0x11; 0x34] 4
    (fun c halted => EQ 0x10 (cpu_a c) && negb (H flagN c) && negb (H flagZ c) && H flagC c);
  mkTest [] "NOP" [0x1A] 2
    (fun c halted => true);
  mkTest [] "NOP" [0x3A] 2
    (fun c halted => true);
  mkTest [] "NOP" [0x5A] 2
    (fun c halted => true);
  mkTest [] "NOP" [0x7A] 2
    (fun c halted => true);
  mkTest [X 0x80] "TXS" [0x9A] 2
    (fun c halted => EQ 0x80 (cpu_s c));
  mkTest [with_s 0x80] "TSX" [0xBA] 2
    (fun c halted => EQ 0x80 (cpu_x c) && H flagN c);
  mkTest [] "NOP" [0xDA] 2
    (fun c halted => true);
  mkTest [] "NOP" [0xFA] 2
    (fun c halted => true);
  mkTest [] "NOP" [0x1C] 4
    (fun c halted => true);
  mkTest [] "NOP" [0x3C] 4
    (fun c halted => true);
  mkTest [] "NOP" [0x5C] 4
    (fun c halted => true);
  mkTest [] "NOP" [0x7C] 4
    (fun c halted => true);
  mkTest [Wr 0x12 0x34 [0x80]; X 0x1] "LDY" [0xBC; 0x11; 0x34] 4
    (fun c halted => EQ 0x80 (cpu_y c) && H flagN c);
  mkTest [Wr 0x00 0x00 [0x80]; X 0x1] "LDY" [0xBC; 0xFF; 0xFF] 5
    (fun c halted => EQ 0x80 (cpu_y c) && H flagN c);
  mkTest [] "NOP" [0xDC] 4
    (fun c halted => true);
  mkTest [] "NOP" [0xFC] 4
    (fun c halted => true);
  mkTest [Wr 0x12 0x34 [0x80]; X 0x02; A 0x01] "ORA" [0x1D; 0x10; 0x34] 4
    (fun c halted => EQ 0x81 (cpu_a c) && negb (H flagZ c) && H flagN c);
  mkTest [X 0x02; A 0x01] "ORA" [0x1D; 0xFF; 0xFF] 5
    (fun c halted => EQ 0x01 (cpu_a c) && negb (H flagZ c) && negb (H flagN c));
  mkTest [Wr 0x12 0x34 [0xAA]; X 0x02; A 0xFF] "AND" [0x3D; 0x10; 0x34] 4
    (fun c halted => EQ 0xAA (cpu_a c) && negb (H flagZ c) && H flagN c);
  mkTest [X 0x02; A 0xFF] "AND" [0x3D; 0xFF; 0xFF] 5
    (fun c halted => EQ 0x00 (cpu_a c));
  mkTest [Wr 0x12 0x34 [0xAA]; X 0x02; A 0xFF] "EOR" [0x5D; 0x10; 0x34] 4
    (fun c halted => EQ 0x55 (cpu_a c) && negb (H flagZ c) && negb (H flagN c));
  mkTest [X 0x02; A 0xFF] "EOR" [0x5D; 0xFF; 0xFF] 5
    (fun c halted => EQ 0xFF (cpu_a c) && negb (H flagZ c) && H flagN c);
  mkTest [Wr 0x12 0x34 [0x80]; X 0x02; A 0x80] "ADC" [0x7D; 0x10; 0x34] 4
    (fun c halted => EQ 0x00 (cpu_a c) && negb (H flagN c) && H flagZ c && H flagC c);
  mkTest [Wr 0x12 0x34 [0x80]; X 0x02; A 0x80; F flagC] "ADC" [0x7D; 0x10; 0x34] 4
    (fun c halted => EQ 0x01 (cpu_a c) && negb (H flagN c) && negb (H flagZ c) && H flagC c);
  mkTest [Wr 0x12 0x34 [0x80]; X 0x02; A 0x90; F flagD] "ADC" [0x7D; 0x10; 0x34] 4
    (fun c halted => EQ 0x70 (cpu_a c) && negb (H flagN c) && negb (H flagZ c) && H flagC c);
  mkTest [Wr 0x00 0x00 [0x80]; X 0x02; A 0x90; F (Z.lor flagC flagD)] "ADC" [0x7D; 0xFE; 0xFF] 5
    (fun c halted => EQ 0x71 (cpu_a c) && negb (H flagN c) && negb (H flagZ c) && H flagC c);
  mkTest [A 0x80] "STA" [0x9D; 0x12; 0x34] 5
    (fun c halted => EQ 0x80 (R 0x12 0x34 c));
  mkTest [Wr 0x12 0x34 [0x80]; X 0x01] "LDA" [0xBD; 0x11; 0x34] 4
    (fun c halted => EQ 0x80 (cpu_a c) && H flagN c);
  mkTest [Wr 0x11 0x35 [0x80]; X 0xFF] "LDA" [0xBD; 0x12; 0x34] 5
    (fun c halted => EQ 0x80 (cpu_a c) && negb (H flagZ c));
  mkTest [Wr 0x12 0x34 [0x80]; A 0x80; X 0x01] "CMP" [0xDD; 0x11; 0x34] 4
    (fun c halted => negb (H flagN c) && H flagZ c && H flagC c);
  mkTest [Wr 0x12 0x34 [0x80]; A 0x81; X 0x01] "CMP" [0xDD; 0x11; 0x34] 4
    (fun c halted => negb (H flagN c) && negb (H flagZ c) && H flagC c);
  mkTest [Wr 0x12 0x34 [0x01]; A 0x81; X 0x01] "CMP" [0xDD; 0x11; 0x34] 4
    (fun c halted => H flagN c && negb (H flagZ c) && H flagC c);
  mkTest [Wr 0x12 0x34 [0x80]; A 0x01; X 0x01] "CMP" [0xDD; 0x11; 0x34] 4
    (fun c halted => H flagN c && negb (H flagZ c) && negb (H flagC c));
  mkTest [Wr 0x12 0x34 [0x88]; A 0x01; X 0x01] "CMP" [0xDD; 0x11; 0x34] 4
    (fun c halted => negb (H flagN c) && negb (H flagZ c) && negb (H flagC c));
  mkTest [Wr 0x12 0x34 [0x80]; A 0x80; X 0x01] "SBC" [0xFD; 0x11; 0x34] 4
    (fun c halted => EQ 0xFF (cpu_a c) && H flagN c && negb (H flagZ c) && negb (H flagC c));
  mkTest [Wr 0x12 0x34 [0x80]; A 0x80; X 0x01; F flagC] "SBC" [0xFD; 0x11; 0x34] 4
    (fun c halted => EQ 0x00 (cpu_a c) && negb (H flagN c) && H flagZ c && H flagC c);
  mkTest [Wr 0x00 0x00 [0x80]; A 0x80; X 0x01] "SBC" [0xFD; 0xFF; 0xFF] 5
    (fun c halted => EQ 0xFF (cpu_a c) && H flagN c && negb (H flagZ c) && negb (H flagC c));
  mkTest [Wr 0x12 0x34 [0x80]; A 0x90; X 0x01; F flagD] "SBC" [0xFD; 0x11; 0x34] 4
    (fun c halted => EQ 0x09 (cpu_a c) && negb (H flagN c) && negb (H flagZ c) && H flagC c);
  mkTest [Wr 0x12 0x34 [0x80]; A 0x90; X 0x01; F (Z.lor flagC flagD)] "SBC" [0xFD; 0x11; 0x34] 4
    (fun c halted => EQ 0x10 (cpu_a c) && negb (H flagN c) && negb (H flagZ c) && H flagC c);
  mkTest [Wr 0x12 0x34 [0x55]; X 0x01] "ASL" [0x1E; 0x11; 0x34] 7
    (fun c halted => EQ 0xAA (R 0x12 0x34 c) && H flagN c && negb (H flagC c));
  mkTest [Wr 0x12 0x34 [0xAA]; X 0x01] "ASL" [0x1E; 0x11; 0x34] 7
    (fun c halted => EQ 0x54 (R 0x12 0x34 c) && negb (H flagN c) && H flagC c);
  mkTest [Wr 0x12 0x34 [0x55]; X 0x01] "ROL" [0x3E; 0x11; 0x34] 7
    (fun c halted => EQ 0xAA (R 0x12 0x34 c) && H flagN c && negb (H flagC c));
  mkTest [Wr 0x12 0x34 [0xAA]; F flagC; X 0x01] "ROL" [0x3E; 0x11; 0x34] 7
    (fun c halted => EQ 0x55 (R 0x12 0x34 c) && negb (H flagN c) && H flagC c);
  mkTest [Wr 0x12 0x34 [0x55]; X 0x01] "LSR" [0x5E; 0x11; 0x34] 7
    (fun c halted => EQ 0x2A (R 0x12 0x34 c) && negb (H flagN c) && H flagC c);
  mkTest [Wr 0x12 0x34 [0xAA]; X 0x01] "LSR" [0x5E; 0x11; 0x34] 7
    (fun c halted => EQ 0x55 (R 0x12 0x34 c) && negb (H flagN c) && negb (H flagC c));
  mkTest [Wr 0x12 0x34 [0x55]; X 0x01] "ROR" [0x7E; 0x11; 0x34] 7
    (fun c halted => EQ 0x2A (R 0x12 0x34 c) && negb (H flagN c) && H flagC c);
  mkTest [Wr 0x12 0x34 [0xAA]; X 0x01] "ROR" [0x7E; 0x11; 0x34] 7
    (fun c halted => EQ 0x55 (R 0x12 0x34 c) && negb (H flagN c) && negb (H flagC c));
  mkTest [Wr 0x12 0x34 [0x80]; Y 0x01] "LDX" [0xBE; 0x11; 0x34] 4
    (fun c halted => EQ 0x80 (cpu_x c) && H flagN c && negb (H flagZ c));
  mkTest [Wr 0x00 0x00 [0x80]; Y 0x01] "LDX" [0xBE; 0xFF; 0xFF] 5
    (fun c halted => EQ 0x80 (cpu_x c) && H flagN c && negb (H flagZ c));
  mkTest [Wr 0x12 0x34 [0x80]; X 0x01] "DEC" [0xDE; 0x11; 0x34] 7
    (fun c halted => EQ 0x7F (R 0x12 0x34 c) && negb (H flagN c));
  mkTest [Wr 0x12 0x34 [0x80]; X 0x01] "INC" [0xFE; 0x11; 0x34] 7
    (fun c halted => EQ 0x81 (R 0x12 0x34 c) && H flagN c)
]%string.

(** The loop of the test function on one entry: the cost [Step] returns
    and the checks; an error other than [ErrHalted] fails the test. *)
Definition run (t : test) : bool :=
  let c := fold_left (fun c f => f c) (init t) (harness (bytes t)) in
  match Step c with
  | (c', Returned n None) => (n =? expected_cost t) && post t c' false
  | (c', Returned n (Some ErrHalted)) => (n =? expected_cost t) && post t c' true
  | _ => false
  end.

End TestCPU.

(** ** Vocabulary of the further properties *)

(** What the panics of a bus are: every value it panics with satisfies
    [P]. With [P] false everywhere the bus never panics; with [P] true
    of the strings only, it panics with strings only. *)
Definition bus_panics_within (B : Type) `{Bus B} (P : panicval -> Prop) : Prop :=
  (forall b l h b' r, bus_Read b l h = (b', Panic r) -> P r)
  /\ (forall b l h v b' r, bus_Write b l h v = (b', Panic r) -> P r).

(** A computation that leaves a running CPU running, and whose panics
    satisfy [P]. *)
Definition disciplined {B A} (P : panicval -> Prop) (m : M B A) : Prop :=
  forall c, cpu_halted c = false ->
    cpu_halted (fst (m c)) = false /\ forall r, snd (m c) = Panic r -> P r.

(** The register an immediate compare instruction compares with memory:
    CMP, CPX, CPY. *)
Definition compare_register {B} (op : Z) (c : CPU B) : option Z :=
  match op with
  | 0xC9 => Some (cpu_a c)
  | 0xE0 => Some (cpu_x c)
  | 0xC0 => Some (cpu_y c)
  | _ => None
  end.

(** The flag a flag instruction writes, and the value it writes: CLC, SEC,
    CLI, SEI, CLV, CLD, SED. *)
Definition flag_instruction (op : Z) : option (Z * bool) :=
  match op with
  | 0x18 => Some (flagC, false)
  | 0x38 => Some (flagC, true)
  | 0x58 => Some (flagI, false)
  | 0x78 => Some (flagI, true)
  | 0xB8 => Some (flagV, false)
  | 0xD8 => Some (flagD, false)
  | 0xF8 => Some (flagD, true)
  | _ => None
  end.

(** Packed BCD: a byte whose two nibbles are decimal digits, and the
    number from 0 to 99 it stands for. *)
Definition is_bcd (b : Z) : Prop := 0 <= b /\ b / 16 <= 9 /\ b mod 16 <= 9.
Definition bcd_value (b : Z) : Z := 10 * (b / 16) + b mod 16.
Definition bcd_encode (n : Z) : Z := 16 * (n / 10) + n mod 10.

(** The hundred packed BCD bytes. *)
Definition bcd_bytes : list Z := map bcd_encode (seqZ 0 100).

(** What a shift or rotate of the accumulator computes, in arithmetic:
    the result and the bit that leaves, from the accumulator and the carry
    that enters (0 or 1). ASL, LSR, ROL, ROR. *)
Definition shift_result (op a cin : Z) : option (Z * bool) :=
  match op with
  | 0x0A => Some ((2 * a) mod 256, 128 <=? a)
  | 0x4A => Some (a / 2, Z.odd a)
  | 0x2A => Some ((2 * a + cin) mod 256, 128 <=? a)
  | 0x6A => Some (a / 2 + 128 * cin, Z.odd a)
  | _ => None
  end.

(** The [(low, high)] bytes of a 16-bit address. *)
Definition split16 (n : Z) : Z * Z := (n mod 256, n / 256 mod 256).

(** [func (f *flag) String()]: one character per flag N, V, D, I, Z, C,
    a dash for a flag that is clear. *)
Definition flag_String (f : Z) : string :=
  let isset (fl : Z) (char : ascii) : ascii := if negb (fl =? 0) then char else "-"%char in
  String (isset (Z.land f flagN) "N"%char)
    (String (isset (Z.land f flagV) "V"%char)
       (String (isset (Z.land f flagD) "D"%char)
          (String (isset (Z.land f flagI) "I"%char)
             (String (isset (Z.land f flagZ) "Z"%char)
                (String (isset (Z.land f flagC) "C"%char) EmptyString))))).

(** [func (cpu *CPU) String()]:
    [Sprintf("m6502: PC=%02X%02X A=%02X X=%02X Y=%02X [%s] S=%02X", ...)]. *)
Definition CPU_String {B} (c : CPU B) : string :=
  String.concat EmptyString
    ["m6502: PC="; hex02 (cpu_pch c); hex02 (cpu_pcl c);
     " A="; hex02 (cpu_a c); " X="; hex02 (cpu_x c); " Y="; hex02 (cpu_y c);
     " ["; flag_String (cpu_p c); "] S="; hex02 (cpu_s c)]%string.

(** A bus with nothing mapped, the case the comments of [Bus] and [New]
    describe: every access panics. *)
Inductive unmappedBus : Type := mkUnmappedBus.

#[export] Instance unmappedBus_Bus : Bus unmappedBus := {|
  bus_Read b l h := (b, Panic (PanicString "unmapped"));
  bus_Write b l h data := (b, Panic (PanicString "unmapped"))
|}.

(** The bitwise operation of an immediate logic instruction: ORA, AND,
    EOR. *)
Definition logic_operation (op : Z) : option (Z -> Z -> Z) :=
  match op with
  | 0x09 => Some Z.lor
  | 0x29 => Some Z.land
  | 0x49 => Some Z.lxor
  | _ => None
  end.

(** What a zero page INC or DEC adds to its operand. *)
Definition increment_of (op : Z) : option Z :=
  match op with
  | 0xE6 => Some 1
  | 0xC6 => Some (-1)
  | _ => None
  end.

(** ** Tactics *)

(** Symbolic execution of the interpreter: unfold the closures, keep the
    opcode switch folded until the opcode is known. *)
Ltac m6502_cbv :=
  cbv beta iota zeta delta
    [Step tick fall invalid fetch read zread vread write zwrite incPC setPC cost
     busRead busWrite bind ret gets modify setF hasF setC setI setN setNZ setA setX setY
     setS setHalted push pop pushPC popPC php plp cmp bit asl lsr rol ror abs absN relN
     indY indX adc sbc branch inc uadd next pc fst snd
     Reset New PC PCL PCH NMI IRQ interrupt
     with_bus with_a with_x with_y with_s with_p with_pc with_cycles with_halted
     bus cpu_a cpu_x cpu_y cpu_s cpu_p cpu_pcl cpu_pch cpu_cycles cpu_halted].

Ltac m6502_cbv_in H :=
  cbv beta iota zeta delta
    [Step tick fall invalid fetch read zread vread write zwrite incPC setPC cost
     busRead busWrite bind ret gets modify setF hasF setC setI setN setNZ setA setX setY
     setS setHalted push pop pushPC popPC php plp cmp bit asl lsr rol ror abs absN relN
     indY indX adc sbc branch inc uadd next pc fst snd
     Reset New PC PCL PCH NMI IRQ interrupt
     with_bus with_a with_x with_y with_s with_p with_pc with_cycles with_halted
     bus cpu_a cpu_x cpu_y cpu_s cpu_p cpu_pcl cpu_pch cpu_cycles cpu_halted] in H.

(** Project a field out of an updated CPU. *)
Ltac m6502_proj :=
  cbv beta iota delta
    [pc with_bus with_a with_x with_y with_s with_p with_pc with_cycles with_halted
     bus cpu_a cpu_x cpu_y cpu_s cpu_p cpu_pcl cpu_pch cpu_cycles cpu_halted].

Ltac m6502_switch := cbv beta iota zeta delta [switch]; m6502_cbv.

(** Use the recorded answers of the bus. *)
Ltac m6502_bus :=
  repeat match goal with
    | E : bus_Read ?b ?l ?h = _ |- context [bus_Read ?b ?l ?h] =>
        rewrite E; cbv beta iota zeta
    | E : bus_Write ?b ?l ?h ?v = _ |- context [bus_Write ?b ?l ?h ?v] =>
        rewrite E; cbv beta iota zeta
    end.

(** Open a [reads] hypothesis into the answers it records. *)
Ltac m6502_reads H :=
  cbn [reads fst snd] in H;
  repeat match type of H with
    | exists _, _ /\ _ => let b := fresh "b" in let E := fresh "E" in destruct H as (b & E & H)
    end;
  try subst.

(** All the cases of an opcode: the constructors of [Z] down to eight bits. *)
Ltac opcode_tree op :=
  destruct op as [|op|op];
  [ | do 8 (try destruct op as [op|op|]) | ].

(** Solve [is_byte k] for a closed [k]. *)
Ltac byte_closed := vm_compute; split; [ discriminate | reflexivity ].

(** Solve a closed [reads] over [memoryBus]. *)
Ltac reads_closed :=
  vm_compute; repeat (eexists; split; [ reflexivity | ]); reflexivity.

(** * Properties *)

(** ** Bytes and flags *)

Lemma byte_is_byte (z : Z) : is_byte (byte z).
Proof. unfold is_byte, byte. apply Z.mod_pos_bound. lia. Qed.

Lemma byte_id (z : Z) : is_byte z -> byte z = z.
Proof. unfold is_byte, byte. intros Hz. apply Z.mod_small. exact Hz. Qed.

(** A property of all 256 bytes holds of every byte. *)
Lemma byte_cases (P : Z -> Prop) : Forall P (seqZ 0 256) -> forall z, is_byte z -> P z.
Proof.
  intros HF z Hz. rewrite Forall_forall in HF. apply HF.
  apply elem_of_seqZ. unfold is_byte in Hz. lia.
Qed.

Lemma flag_has_testbit (p j : Z) : 0 <= j -> flag_has p (Z.shiftl 1 j) = Z.testbit p j.
Proof.
  intros Hj. unfold flag_has. rewrite Z.shiftl_1_l.
  destruct (Z.testbit p j) eqn:E.
  - apply negb_true_iff, Z.eqb_neq. intros H0.
    assert (Hb : Z.testbit (Z.land p (2 ^ j)) j = true)
      by (rewrite Z.land_spec, E, Z.pow2_bits_true by exact Hj; reflexivity).
    rewrite H0, Z.bits_0 in Hb. discriminate Hb.
  - apply negb_false_iff, Z.eqb_eq. apply Z.bits_inj'. intros n Hn.
    rewrite Z.land_spec, Z.bits_0. destruct (Z.eq_dec j n) as [<- | Hne].
    + rewrite E. reflexivity.
    + rewrite Z.pow2_bits_false by exact Hne. apply andb_false_r.
Qed.

Lemma testbit_255 (j : Z) : 0 <= j < 8 -> Z.testbit 255 j = true.
Proof.
  intros Hj.
  assert (Hc : j = 0 \/ j = 1 \/ j = 2 \/ j = 3 \/ j = 4 \/ j = 5 \/ j = 6 \/ j = 7) by lia.
  repeat (destruct Hc as [-> | Hc]; [ reflexivity | ]). subst j. reflexivity.
Qed.

Lemma testbit_flag_set (p : Z) (c : bool) (j k : Z) :
  0 <= j < 8 -> 0 <= k < 8 ->
  Z.testbit (flag_set p c (Z.shiftl 1 k)) j = if j =? k then c else Z.testbit p j.
Proof.
  intros Hj Hk. unfold flag_set, not8. rewrite Z.shiftl_1_l.
  destruct c.
  - rewrite Z.lor_spec. destruct (Z.eqb_spec j k) as [-> | Hne].
    + rewrite Z.pow2_bits_true by lia. apply orb_true_r.
    + rewrite Z.pow2_bits_false by lia. apply orb_false_r.
  - rewrite Z.land_spec, Z.lxor_spec, testbit_255 by exact Hj.
    destruct (Z.eqb_spec j k) as [-> | Hne].
    + rewrite Z.pow2_bits_true by lia. apply andb_false_r.
    + rewrite Z.pow2_bits_false by lia. apply andb_true_r.
Qed.

(** Setting a flag sets it, and leaves the other seven alone. *)
Lemma flag_has_set (p : Z) (c : bool) (j k : Z) :
  0 <= j < 8 -> 0 <= k < 8 ->
  flag_has (flag_set p c (Z.shiftl 1 k)) (Z.shiftl 1 j)
  = if j =? k then c else flag_has p (Z.shiftl 1 j).
Proof.
  intros Hj Hk. rewrite !flag_has_testbit by lia. apply testbit_flag_set; assumption.
Qed.

Lemma flag_has_set_same (p : Z) (c : bool) (k : Z) :
  0 <= k < 8 -> flag_has (flag_set p c (Z.shiftl 1 k)) (Z.shiftl 1 k) = c.
Proof. intros Hk. rewrite flag_has_set by lia. rewrite Z.eqb_refl. reflexivity. Qed.

Lemma flag_has_set_other (p : Z) (c : bool) (j k : Z) :
  0 <= j < 8 -> 0 <= k < 8 -> j <> k ->
  flag_has (flag_set p c (Z.shiftl 1 k)) (Z.shiftl 1 j) = flag_has p (Z.shiftl 1 j).
Proof.
  intros Hj Hk Hne. rewrite flag_has_set by lia.
  destruct (Z.eqb_spec j k); [ contradiction | reflexivity ].
Qed.

(** Read a flag through the updates of the other flags. *)
Ltac flag_simpl :=
  unfold flagN, flagV, flagU, flagB, flagD, flagI, flagZ, flagC in *;
  repeat first [ rewrite flag_has_set_same by lia | rewrite flag_has_set_other by lia ].

Lemma flag_set_is_byte (p : Z) (c : bool) (k : Z) :
  is_byte p -> 0 <= k < 8 -> is_byte (flag_set p c (Z.shiftl 1 k)).
Proof.
  intros Hp Hk. unfold is_byte in *.
  assert (Hnn : 0 <= flag_set p c (Z.shiftl 1 k)).
  { unfold flag_set, not8. destruct c.
    - apply Z.lor_nonneg. split; [ lia | ]. apply Z.shiftl_nonneg. lia.
    - apply Z.land_nonneg. left. lia. }
  split; [ exact Hnn | ].
  change 256 with (2 ^ 8).
  destruct (Z.eq_dec (flag_set p c (Z.shiftl 1 k)) 0) as [-> | Hne]; [ reflexivity | ].
  apply Z.log2_lt_pow2; [ lia | ].
  assert (Hlt : ~ 8 <= Z.log2 (flag_set p c (Z.shiftl 1 k))); [ | lia ].
  intros Hge.
  assert (Hb : Z.testbit (flag_set p c (Z.shiftl 1 k)) (Z.log2 (flag_set p c (Z.shiftl 1 k))) = true)
    by (apply Z.bit_log2; lia).
  revert Hb. generalize (Z.log2 (flag_set p c (Z.shiftl 1 k))) Hge. intros n Hn.
  unfold flag_set, not8. rewrite Z.shiftl_1_l.
  assert (Hpn : Z.testbit p n = false).
  { destruct (Z.eq_dec p 0) as [-> | Hp0]; [ apply Z.bits_0 | ].
    apply Z.bits_above_log2; [ lia | ].
    assert (Z.log2 p < 8); [ | lia ]. apply Z.log2_lt_pow2; lia. }
  destruct c.
  - rewrite Z.lor_spec, Hpn, Z.pow2_bits_false by lia. discriminate.
  - rewrite Z.land_spec, Hpn. discriminate.
Qed.

(** Addresses: [inc] is the 16-bit increment. *)
Lemma inc_addr16 (l h : Z) :
  is_byte l -> is_byte h ->
  is_byte (fst (inc l h)) /\ is_byte (snd (inc l h)) /\
  addr16 (inc l h) = (addr16 (l, h) + 1) mod 65536.
Proof.
  unfold is_byte, inc, uadd, add8, byte, addr16, when. intros Hl Hh. cbn [fst snd].
  destruct (Z.eq_dec l 255) as [-> | Hne].
  - change ((255 + 1) mod 256) with 0. change (0 <? 1) with true. cbv iota.
    destruct (Z.eq_dec h 255) as [-> | Hne'].
    + change ((255 + 1) mod 256) with 0. change ((255 * 256 + 255 + 1) mod 65536) with 0. lia.
    + rewrite (Z.mod_small (h + 1)) by lia. rewrite (Z.mod_small (h * 256 + 255 + 1)) by lia. lia.
  - rewrite (Z.mod_small (l + 1)) by lia.
    destruct (Z.ltb_spec (l + 1) 1) as [Hlt | Hge]; [ lia | ].
    rewrite Z.add_0_r, (Z.mod_small h) by lia. rewrite (Z.mod_small (h * 256 + l + 1)) by lia. lia.
Qed.

Lemma next_is_byte (a : Z * Z) :
  is_byte (fst a) -> is_byte (snd a) -> is_byte (fst (next a)) /\ is_byte (snd (next a)).
Proof.
  intros Hl Hh. destruct (inc_addr16 (fst a) (snd a) Hl Hh) as (H1 & H2 & _). split; assumption.
Qed.

Lemma next_addr16 (a : Z * Z) :
  is_byte (fst a) -> is_byte (snd a) -> addr16 (next a) = (addr16 a + 1) mod 65536.
Proof.
  intros Hl Hh. destruct a as [l h]. apply (inc_addr16 l h Hl Hh).
Qed.

Lemma addr16_range (a : Z * Z) : is_byte (fst a) -> is_byte (snd a) -> 0 <= addr16 a < 65536.
Proof. unfold is_byte, addr16. lia. Qed.

#[export] Instance memoryBus_BusBytes : BusBytes memoryBus.
Proof. intros b l h b' v [= _ <-]. apply byte_is_byte. Qed.

#[export] Instance panicBus_BusBytes : BusBytes panicBus.
Proof.
  intros b l h b' v. cbn. destruct (l =? 0); intros [= _ <-]. unfold is_byte. lia.
Qed.

(** ** The opcode switch *)

Section Switch.
Context {B : Type} `{Bus B}.

(** An opcode without a row in the table has no case in the switch. *)
Lemma switch_default (pcl pch op : Z) :
  OPCODES op = None -> switch (B:=B) pcl pch op = invalid pcl pch.
Proof.
  intros Hop.
  opcode_tree op; first [ reflexivity | discriminate Hop ].
Qed.

Lemma OPCODES_byte (op : Z) (e : entry) : OPCODES op = Some e -> is_byte op.
Proof.
  intros Hop. unfold is_byte.
  opcode_tree op; first [ discriminate Hop | lia ].
Qed.

(** A halted CPU: [Step] returns at once and nothing moves. *)
Lemma Step_halted (c : CPU B) :
  cpu_halted c = true -> Step c = (c, Returned 0 (Some ErrHalted)).
Proof. intros Hh. unfold Step. rewrite Hh. reflexivity. Qed.

Lemma StepN_halted (n : nat) (c : CPU B) :
  cpu_halted c = true -> StepN n c = c.
Proof.
  intros Hh. induction n as [|n IH]; [reflexivity|].
  cbn [StepN]. rewrite (Step_halted c Hh). exact IH.
Qed.

(** A running CPU: the state [Step] leaves is the state [tick] leaves. *)
Lemma Step_running (c : CPU B) :
  cpu_halted c = false -> fst (Step c) = fst (tick c).
Proof.
  intros Hh. unfold Step. rewrite Hh.
  destruct (tick c) as [c1 [[e|]|[msg|]]]; reflexivity.
Qed.

(** C10. Whenever [Step] returns a non-nil error, whatever its kind (the
    halted latch, an error from [tick], a recovered panic of the bus), the
    cycle count it returns is 0. *)
Theorem Step_error_returns_zero_cycles (c c' : CPU B) (n : Z) (e : error) :
  Step c = (c', Returned n (Some e)) -> n = 0.
Proof.
  unfold Step. destruct (cpu_halted c).
  - intros [= _ <- _]. reflexivity.
  - destruct (tick c) as [c1 [[e1|]|[msg|]]]; intros Hs;
      first [ discriminate Hs | injection Hs as _ <- _; reflexivity ].
Qed.

End Switch.

(** Opcode [0x9E] at [$0400]: [tick] charged two cycles (the fetch and the
    read for the message) before it failed, and [Step] returns 0. *)
Lemma Step_error_returns_zero_cycles_witness :
  exists c' n e,
    Step (harness [0x9E]) = (c', Returned n (Some e)) /\ cpu_cycles c' = 2 /\ n = 0.
Proof.
  eexists _, _, _. split; [ vm_compute; reflexivity | ].
  split; [ reflexivity | ].
  eapply (Step_error_returns_zero_cycles (harness [0x9E])). vm_compute. reflexivity.
Defined.

Section HaltAndInvalid.
Context {B : Type} `{Bus B}.

Lemma Step_HLT (c : CPU B) (op : Z) (b1 : B) :
  cpu_halted c = false -> In op HLT_opcodes ->
  reads (bus c) [(pc c, op)] b1 ->
  Step c = (with_halted true
              (with_pc (fst (next (pc c))) (snd (next (pc c))) (with_cycles 1 (with_bus b1 c))),
            Returned 0 (Some ErrHalted)).
Proof.
  intros Hh Hop Hr. destruct c as [b a x y s p pcl pch cyc hl].
  cbn [cpu_halted] in Hh. subst hl.
  m6502_cbv_in Hr. m6502_reads Hr.
  cbn [In HLT_opcodes] in Hop.
  repeat (destruct Hop as [<- | Hop];
          [ m6502_cbv; m6502_bus; m6502_switch; reflexivity | ]).
  destruct Hop.
Qed.

Lemma halted_Reset (c c' : CPU B) : Reset c = (c', Val tt) -> cpu_halted c' = false.
Proof.
  destruct c as [b a x y s p pcl pch cyc hl]. m6502_cbv.
  destruct (bus_Read b 252 255) as [b1 [l|r]]; [ | discriminate ].
  destruct (bus_Read b1 253 255) as [b2 [h|r]]; [ | discriminate ].
  intros [= <-]. reflexivity.
Qed.

Lemma halted_NMI (c : CPU B) : cpu_halted (fst (NMI c)) = cpu_halted c.
Proof.
  destruct c as [b a x y s p pcl pch cyc hl]. m6502_cbv.
  destruct (bus_Read b 250 255) as [b1 [l|r]]; [ | reflexivity ].
  destruct (bus_Read b1 251 255) as [b2 [h|r]]; [ | reflexivity ].
  destruct (bus_Write b2 s 1 pch) as [b3 [[]|r]]; [ | reflexivity ].
  destruct (bus_Write b3 (sub8 s 1) 1 pcl) as [b4 [[]|r]]; [ | reflexivity ].
  destruct (bus_Write b4 (sub8 (sub8 s 1) 1) 1 (Z.lor p flagU)) as [b5 [[]|r]]; reflexivity.
Qed.

Lemma halted_IRQ (c : CPU B) : cpu_halted (fst (IRQ c)) = cpu_halted c.
Proof.
  destruct c as [b a x y s p pcl pch cyc hl]. m6502_cbv.
  destruct (flag_has p flagI); [ reflexivity | ]. cbv beta iota zeta delta [negb].
  destruct (bus_Read b 254 255) as [b1 [l|r]]; [ | reflexivity ].
  destruct (bus_Read b1 255 255) as [b2 [h|r]]; [ | reflexivity ].
  destruct (bus_Write b2 s 1 pch) as [b3 [[]|r]]; [ | reflexivity ].
  destruct (bus_Write b3 (sub8 s 1) 1 pcl) as [b4 [[]|r]]; [ | reflexivity ].
  destruct (bus_Write b4 (sub8 (sub8 s 1) 1) 1 (Z.lor p flagU)) as [b5 [[]|r]]; reflexivity.
Qed.

Lemma Step_NOP_EA (c : CPU B) (b1 : B) :
  cpu_halted c = false -> reads (bus c) [(pc c, 0xEA)] b1 ->
  Step c = (with_pc (fst (next (pc c))) (snd (next (pc c))) (with_cycles 2 (with_bus b1 c)),
            Returned 2 None).
Proof.
  intros Hh Hr. destruct c as [b a x y s p pcl pch cyc hl].
  cbn [cpu_halted] in Hh. subst hl.
  m6502_cbv_in Hr. m6502_reads Hr.
  m6502_cbv; m6502_bus; m6502_switch; reflexivity.
Qed.

(** C4. Executing a HLT opcode makes [Step] return 0 cycles and
    [ErrHalted]; from then on every [Step] returns [(0, ErrHalted)] and
    leaves the registers, the flags, the counter and the bus as they are;
    neither an interrupt nor setting the program counter clears the latch;
    a completed [Reset] clears it, and then [Step] runs [tick] again (an
    [0xEA] at the program counter costs its 2 cycles). *)
Theorem HLT_latches_until_Reset :
  (forall (c : CPU B) (op : Z) (b1 : B),
      cpu_halted c = false -> In op HLT_opcodes -> reads (bus c) [(pc c, op)] b1 ->
      Step c = (with_halted true
                  (with_pc (fst (next (pc c))) (snd (next (pc c)))
                     (with_cycles 1 (with_bus b1 c))),
                Returned 0 (Some ErrHalted)))
  /\ (forall c : CPU B, cpu_halted c = true ->
      Step c = (c, Returned 0 (Some ErrHalted)) /\ forall n, StepN n c = c)
  /\ (forall (c : CPU B) (lo hi : Z),
      cpu_halted (fst (NMI c)) = cpu_halted c /\ cpu_halted (fst (IRQ c)) = cpu_halted c /\
      cpu_halted (fst (PC lo hi c)) = cpu_halted c)
  /\ (forall c c' : CPU B, Reset c = (c', Val tt) ->
      cpu_halted c' = false /\ fst (Step c') = fst (tick c') /\
      forall b1, reads (bus c') [(pc c', 0xEA)] b1 ->
        Step c' = (with_pc (fst (next (pc c'))) (snd (next (pc c')))
                     (with_cycles 2 (with_bus b1 c')),
                   Returned 2 None)).
Proof.
  split; [ exact Step_HLT | ].
  split; [ intros c Hh; split; [ exact (Step_halted c Hh) | intros n; exact (StepN_halted n c Hh) ] | ].
  split; [ intros c lo hi; split; [ apply halted_NMI | split; [ apply halted_IRQ | reflexivity ] ] | ].
  intros c c' Hr. pose proof (halted_Reset c c' Hr) as Hh.
  split; [ exact Hh | ]. split; [ exact (Step_running c' Hh) | ].
  intros b1. exact (Step_NOP_EA c' b1 Hh).
Qed.

(** C5. An opcode without a handler ([0x9C], [0x9E], and every opcode the
    table does not list) makes [Step] return the error "m6502: invalid op
    code: HHLL: OP" with the address the opcode was fetched at and the
    opcode byte as the bus gives it again; only the program counter (and
    the internal counter) moved, the CPU is not halted, and the next [Step]
    runs [tick]. *)
Theorem invalid_opcode_error (c : CPU B) (op : Z) (b2 : B) :
  cpu_halted c = false -> OPCODES op = None ->
  reads (bus c) [(pc c, op); (pc c, op)] b2 ->
  let c' := with_pc (fst (next (pc c))) (snd (next (pc c))) (with_cycles 2 (with_bus b2 c)) in
  Step c = (c', Returned 0 (Some (invalid_op_code (cpu_pch c) (cpu_pcl c) op)))
  /\ error_message (invalid_op_code (cpu_pch c) (cpu_pcl c) op)
     = String.append "m6502: invalid op code: "
         (String.append (hex02 (cpu_pch c))
            (String.append (hex02 (cpu_pcl c)) (String.append ": " (hex02 op))))
  /\ cpu_a c' = cpu_a c /\ cpu_x c' = cpu_x c /\ cpu_y c' = cpu_y c
  /\ cpu_s c' = cpu_s c /\ cpu_p c' = cpu_p c
  /\ cpu_halted c' = false /\ fst (Step c') = fst (tick c').
Proof.
  intros Hh Hop Hr c'.
  assert (Hh' : cpu_halted c' = false) by exact Hh.
  split; [ | split; [ reflexivity | repeat (split; [ reflexivity | ]); split;
                                    [ exact Hh' | exact (Step_running c' Hh') ] ] ].
  subst c'. destruct c as [b a x y s p pcl pch cyc hl].
  cbn [cpu_halted] in Hh. subst hl.
  m6502_cbv_in Hr. m6502_reads Hr.
  m6502_cbv. m6502_bus. rewrite (switch_default pcl pch op Hop).
  m6502_cbv. m6502_bus. reflexivity.
Qed.

End HaltAndInvalid.

(** Opcode [0x02] at [$0400]: halted, still halted, and running again
    after [Reset] (the reset vector leads back to the HLT, which is
    fetched and executed anew). *)
Lemma HLT_latches_until_Reset_witness :
  let c0 := boot [0x02] in
  let c1 := fst (Step c0) in
  let c2 := fst (Reset c1) in
  snd (Step c0) = Returned 0 (Some ErrHalted)
  /\ Step c1 = (c1, Returned 0 (Some ErrHalted))
  /\ StepN 5 c1 = c1
  /\ cpu_halted c2 = false
  /\ fst (Step c2) = fst (tick c2).
Proof.
  intros c0 c1 c2.
  pose proof (@HLT_latches_until_Reset memoryBus _) as (H1 & H2 & _ & H4).
  assert (Hh1 : cpu_halted c1 = true) by (vm_compute; reflexivity).
  assert (Hr : Reset c1 = (c2, Val tt)) by (vm_compute; reflexivity).
  split; [ | split; [ | split; [ | split ] ] ].
  - rewrite (H1 c0 0x02 (bus c0)); [ reflexivity | reflexivity | vm_compute; tauto | ].
    vm_compute. eexists; split; reflexivity.
  - exact (proj1 (H2 c1 Hh1)).
  - exact (proj2 (H2 c1 Hh1) 5%nat).
  - exact (proj1 (H4 c1 c2 Hr)).
  - exact (proj1 (proj2 (H4 c1 c2 Hr))).
Defined.

(** Opcode [0x9E] at [$0400]: the error names [0400] and [9E]. *)
Lemma invalid_opcode_error_witness :
  exists c',
    Step (harness [0x9E]) = (c', Returned 0 (Some (Errorf "m6502: invalid op code: 0400: 9E")))
    /\ pc c' = (0x01, 0x04) /\ cpu_halted c' = false.
Proof.
  pose proof (invalid_opcode_error (harness [0x9E]) 0x9E (bus (harness [0x9E]))) as Hw.
  cbv zeta in Hw.
  destruct Hw as (Hs & _ & _ & _ & _ & _ & _ & Hh & _).
  - reflexivity.
  - reflexivity.
  - vm_compute. eexists; split; [ reflexivity | ]. eexists; split; reflexivity.
  - eexists. split; [ | split ].
    + rewrite Hs. reflexivity.
    + vm_compute. reflexivity.
    + exact Hh.
Defined.

(** ** ADC *)

Lemma all_bytes_spec (f : Z -> bool) :
  all_bytes f = true -> forall z, is_byte z -> f z = true.
Proof.
  unfold all_bytes. intros Hall z Hz. rewrite forallb_forall in Hall. apply Hall.
  apply list_elem_of_In, elem_of_seqZ. unfold is_byte in Hz. lia.
Qed.

Lemma uint16_small (z : Z) : 0 <= z < 65536 -> uint16 z = z.
Proof. intros Hz. unfold uint16. apply Z.mod_small. exact Hz. Qed.

(** The 16-bit sum of [adc] does not wrap. *)
Lemma adc_sum16 (a m c : Z) :
  is_byte a -> is_byte m -> 0 <= c <= 1 ->
  uint16 (uint16 (uint16 a + uint16 m) + uint16 c) = a + m + c.
Proof.
  unfold is_byte. intros Ha Hm Hc.
  rewrite (uint16_small a), (uint16_small m), (uint16_small c) by lia.
  rewrite (uint16_small (a + m)) by lia. apply uint16_small. lia.
Qed.

(** Bit 7 of a byte is its sign. *)
Lemma byte_testbit7 (b : Z) : is_byte b -> Z.testbit b 7 = (128 <=? b).
Proof.
  unfold is_byte. intros Hb. rewrite Z.testbit_eqb by lia. change (2 ^ 7) with 128.
  destruct (Z.leb_spec 128 b); [ apply Z.eqb_eq | apply Z.eqb_neq ];
    Z.div_mod_to_equations; lia.
Qed.

Lemma land_128 (x : Z) : negb (Z.land x 0x80 =? 0) = Z.testbit x 7.
Proof. exact (flag_has_testbit x 7 ltac:(lia)). Qed.

(** The overflow flag of [adc] is the overflow of the signed sum. *)
Lemma adc_overflow_signed (a m : Z) (cin : bool) :
  is_byte a -> is_byte m ->
  let c := if cin then 1 else 0 in
  let r := (a + m + c) mod 256 in
  negb (Z.land (Z.land (Z.lxor a r) (Z.lxor m r)) 0x80 =? 0)
  = negb ((-128 <=? signed8 a + signed8 m + c) && (signed8 a + signed8 m + c <=? 127)).
Proof.
  intros Ha Hm c r.
  assert (Hc : 0 <= c <= 1) by (subst c; destruct cin; lia).
  assert (Hr : is_byte r) by apply byte_is_byte.
  rewrite land_128, Z.land_spec, !Z.lxor_spec.
  rewrite (byte_testbit7 a Ha), (byte_testbit7 m Hm), (byte_testbit7 r Hr).
  unfold signed8, is_byte in *. subst r. clearbody c.
  destruct (Z.leb_spec 128 a), (Z.leb_spec 128 m), (Z.leb_spec 128 ((a + m + c) mod 256)),
    (Z.ltb_spec a 128), (Z.ltb_spec m 128); try lia; cbn [xorb andb negb];
    symmetry; rewrite ?negb_true_iff, ?negb_false_iff, ?andb_true_iff, ?andb_false_iff,
      ?Z.leb_le, ?Z.leb_gt; Z.div_mod_to_equations; lia.
Qed.

Lemma add8_small (x y : Z) : 0 <= x + y < 256 -> add8 x y = x + y.
Proof. intros Hxy. unfold add8, byte. apply Z.mod_small. exact Hxy. Qed.

Lemma land_255 (x : Z) : Z.land x 0xFF = x mod 256.
Proof. exact (Z.land_ones x 8 ltac:(lia)). Qed.

Lemma land_15 (x : Z) : Z.land x 0x0F = x mod 16.
Proof. exact (Z.land_ones x 4 ltac:(lia)). Qed.

Lemma shiftr_4 (x : Z) : Z.shiftr x 4 = x / 16.
Proof. exact (Z.shiftr_div_pow2 x 4 ltac:(lia)). Qed.

Lemma land_shl8_240 (h : Z) : Z.land (shl8 h 4) 0xF0 = Z.land (Z.shiftl h 4) 0xF0.
Proof.
  unfold shl8, byte. rewrite <- land_255, <- Z.land_assoc. reflexivity.
Qed.

(** The decimal branch of [adc] computes the nibble algorithm of the
    specification: no intermediate byte wraps. *)
Lemma adc_decimal_refines (a m : Z) (cin : bool) :
  is_byte a -> is_byte m ->
  let l := add8 (add8 (Z.land a 0x0F) (Z.land m 0x0F)) (when cin 0x01 0x00) in
  let l := add8 l (when (Z.land l 0xFF >? 9) 6 0) in
  let h := add8 (add8 (Z.shiftr a 4) (Z.shiftr m 4)) (when (l >? 0x0F) 1 0) in
  let h := add8 h (when (Z.land h 0xFF >? 9) 6 0) in
  (Z.lor (Z.land l 0x0F) (Z.land (shl8 h 4) 0xF0), h >? 0x0F)
  = bcd_adc_spec a m (if cin then 1 else 0).
Proof.
  unfold is_byte. intros Ha Hm. cbv zeta. unfold bcd_adc_spec, when.
  rewrite land_shl8_240.
  set (c := if cin then 1 else 0).
  assert (Hc : 0 <= c <= 1) by (subst c; destruct cin; lia).
  assert (Hla : 0 <= Z.land a 15 <= 15) by (rewrite land_15; Z.div_mod_to_equations; lia).
  assert (Hlm : 0 <= Z.land m 15 <= 15) by (rewrite land_15; Z.div_mod_to_equations; lia).
  assert (Hha : 0 <= Z.shiftr a 4 <= 15) by (rewrite shiftr_4; Z.div_mod_to_equations; lia).
  assert (Hhm : 0 <= Z.shiftr m 4 <= 15) by (rewrite shiftr_4; Z.div_mod_to_equations; lia).
  revert Hla Hlm Hha Hhm.
  generalize (Z.land a 15) (Z.land m 15) (Z.shiftr a 4) (Z.shiftr m 4).
  intros la lm ha hm Hla Hlm Hha Hhm. clearbody c.
  rewrite (add8_small la lm), (add8_small (la + lm) c) by lia.
  set (lo := la + lm + c). assert (Hlo : 0 <= lo <= 31) by (subst lo; lia). clearbody lo.
  rewrite (land_255 lo), (Z.mod_small lo 256) by lia.
  assert (Hlo' : add8 lo (if lo >? 9 then 6 else 0) = (if lo >? 9 then lo + 6 else lo)).
  { destruct (lo >? 9); rewrite add8_small by lia; lia. }
  rewrite Hlo'.
  set (lo' := if lo >? 9 then lo + 6 else lo).
  assert (Hlo2 : 0 <= lo' <= 37) by (subst lo'; destruct (lo >? 9); lia). clearbody lo'.
  assert (Hcar : 0 <= (if lo' >? 15 then 1 else 0) <= 1) by (destruct (lo' >? 15); lia).
  rewrite (add8_small ha hm), (add8_small (ha + hm) _) by lia.
  set (hi := ha + hm + (if lo' >? 15 then 1 else 0)).
  assert (Hhi : 0 <= hi <= 31) by (subst hi; lia). clearbody hi.
  rewrite (land_255 hi), (Z.mod_small hi 256) by lia.
  assert (Hhi' : add8 hi (if hi >? 9 then 6 else 0) = (if hi >? 9 then hi + 6 else hi)).
  { destruct (hi >? 9); rewrite add8_small by lia; lia. }
  rewrite Hhi'. reflexivity.
Qed.

Section ADC.
Context {B : Type} `{Bus B}.

Lemma carry_in_range (cin : bool) : 0 <= when cin 1 0 <= 1.
Proof. destruct cin; cbn; lia. Qed.

(** C2. With the D flag clear, ADC (here as the immediate instruction
    [0x69]) stores [(A + m + C) mod 256] in A, sets C iff the unsigned sum
    exceeds [0xFF], sets V iff [(A xor r) and (m xor r) and 0x80] is not
    zero, which is the overflow of the signed sum, and sets N and Z from
    the result; D and I, X, Y and S are left alone, and the instruction
    costs 2 cycles. *)
Theorem ADC_binary (c : CPU B) (m : Z) (b2 : B) :
  cpu_halted c = false -> is_byte (cpu_a c) -> is_byte m ->
  flag_has (cpu_p c) flagD = false ->
  reads (bus c) [(pc c, 0x69); (next (pc c), m)] b2 ->
  let cin := if flag_has (cpu_p c) flagC then 1 else 0 in
  let sum := cpu_a c + m + cin in
  let r := sum mod 256 in
  exists c',
    Step c = (c', Returned 2 None)
    /\ cpu_a c' = r
    /\ flag_has (cpu_p c') flagC = (sum >? 0xFF)
    /\ flag_has (cpu_p c') flagV
       = negb (Z.land (Z.land (Z.lxor (cpu_a c) r) (Z.lxor m r)) 0x80 =? 0)
    /\ flag_has (cpu_p c') flagV
       = negb ((-128 <=? signed8 (cpu_a c) + signed8 m + cin)
               && (signed8 (cpu_a c) + signed8 m + cin <=? 127))
    /\ flag_has (cpu_p c') flagN = negb (Z.land r 0x80 =? 0)
    /\ flag_has (cpu_p c') flagZ = (r =? 0)
    /\ flag_has (cpu_p c') flagD = false
    /\ flag_has (cpu_p c') flagI = flag_has (cpu_p c) flagI
    /\ cpu_x c' = cpu_x c /\ cpu_y c' = cpu_y c /\ cpu_s c' = cpu_s c
    /\ pc c' = next (next (pc c)) /\ bus c' = b2.
Proof.
  intros Hh Ha Hm Hd Hr cin sum r.
  destruct c as [b a x y s p pcl pch cyc hl].
  cbn [cpu_halted cpu_a cpu_p] in *. subst hl.
  m6502_cbv_in Hr. m6502_reads Hr.
  eexists. split.
  { m6502_cbv. m6502_bus. m6502_switch. m6502_bus. rewrite Hd. cbv beta iota zeta.
    rewrite (adc_sum16 a m _ Ha Hm (carry_in_range _)). reflexivity. }
  cbn [cpu_a cpu_p cpu_x cpu_y cpu_s bus pc cpu_pcl cpu_pch].
  unfold when, byte. fold cin. fold sum. fold r.
  repeat split; try reflexivity; flag_simpl; try reflexivity.
  - apply (adc_overflow_signed a m (flag_has p (Z.shiftl 1 0)) Ha Hm).
  - exact Hd.
Qed.

(** [adc] in binary mode, whatever the addressing mode that supplied the
    operand: every ADC case of the switch is [setA(adc(operand))]. *)
Lemma adc_setA_binary (c : CPU B) (m : Z) :
  is_byte (cpu_a c) -> is_byte m -> flag_has (cpu_p c) flagD = false ->
  let cin := if flag_has (cpu_p c) flagC then 1 else 0 in
  let sum := cpu_a c + m + cin in
  let r := sum mod 256 in
  exists c',
    bind (adc m) setA c = (c', Val tt)
    /\ cpu_a c' = r
    /\ flag_has (cpu_p c') flagC = (sum >? 0xFF)
    /\ flag_has (cpu_p c') flagV
       = negb (Z.land (Z.land (Z.lxor (cpu_a c) r) (Z.lxor m r)) 0x80 =? 0)
    /\ flag_has (cpu_p c') flagN = negb (Z.land r 0x80 =? 0)
    /\ flag_has (cpu_p c') flagZ = (r =? 0).
Proof.
  intros Ha Hm Hd cin sum r.
  destruct c as [b a x y s p pcl pch cyc hl]. cbn [cpu_a cpu_p] in *.
  eexists. split.
  { m6502_cbv. rewrite Hd. cbv beta iota zeta.
    rewrite (adc_sum16 a m _ Ha Hm (carry_in_range _)). reflexivity. }
  cbn [cpu_a cpu_p]. unfold when, byte. fold cin. fold sum. fold r.
  repeat split; try reflexivity; flag_simpl; reflexivity.
Qed.

End ADC.

(** [CLC; ADC #$01] with [A = 0x7F]: [A = 0x80], N and V set, C and Z clear. *)
Lemma ADC_binary_witness :
  let c1 := fst (Step (with_a 0x7F (harness [0x18; 0x69; 0x01]))) in
  exists c',
    Step c1 = (c', Returned 2 None)
    /\ cpu_a c' = 0x80
    /\ flag_has (cpu_p c') flagN = true /\ flag_has (cpu_p c') flagV = true
    /\ flag_has (cpu_p c') flagC = false /\ flag_has (cpu_p c') flagZ = false.
Proof.
  intros c1.
  destruct (ADC_binary c1 0x01 (bus c1)) as (c' & Hs & Ha & Hc & Hv & _ & Hn & Hz & _).
  - reflexivity.
  - vm_compute. split; [ discriminate | reflexivity ].
  - vm_compute. split; [ discriminate | reflexivity ].
  - reflexivity.
  - vm_compute. eexists; split; [ reflexivity | ]. eexists; split; reflexivity.
  - exists c'. split; [ exact Hs | ].
    split; [ rewrite Ha; reflexivity | ].
    split; [ rewrite Hn; reflexivity | ].
    split; [ rewrite Hv; reflexivity | ].
    split; [ rewrite Hc; reflexivity | rewrite Hz; reflexivity ].
Defined.

Section ADCDecimal.
Context {B : Type} `{Bus B}.

(** [adc] in decimal mode, for every addressing mode: the result and the
    carry are those of the nibble algorithm; no other flag is touched
    before [setA] sets N and Z from the result. *)
Lemma adc_decimal (c : CPU B) (m : Z) :
  is_byte (cpu_a c) -> is_byte m -> flag_has (cpu_p c) flagD = true ->
  let spec := bcd_adc_spec (cpu_a c) m (if flag_has (cpu_p c) flagC then 1 else 0) in
  adc m c = (with_p (flag_set (cpu_p c) (snd spec) flagC) c, Val (fst spec)).
Proof.
  intros Ha Hm Hd spec.
  destruct c as [b a x y s p pcl pch cyc hl]. cbn [cpu_a cpu_p] in *.
  m6502_cbv. rewrite Hd. cbv beta iota zeta.
  pose proof (adc_decimal_refines a m (flag_has p flagC) Ha Hm) as Href.
  cbv zeta in Href. fold spec in Href.
  rewrite (surjective_pairing spec) in Href. injection Href as Hres Hcar.
  rewrite Hres, Hcar. reflexivity.
Qed.

(** C3. With the D flag set, ADC (here as the immediate instruction
    [0x69]) leaves in A the result of the BCD nibble algorithm of the
    specification and sets C iff the adjusted high nibble exceeds [0x0F]. *)
Theorem ADC_decimal (c : CPU B) (m : Z) (b2 : B) :
  cpu_halted c = false -> is_byte (cpu_a c) -> is_byte m ->
  flag_has (cpu_p c) flagD = true ->
  reads (bus c) [(pc c, 0x69); (next (pc c), m)] b2 ->
  let cin := if flag_has (cpu_p c) flagC then 1 else 0 in
  let lo := Z.land (cpu_a c) 0x0F + Z.land m 0x0F + cin in
  let lo := if lo >? 9 then lo + 6 else lo in
  let hi := Z.shiftr (cpu_a c) 4 + Z.shiftr m 4 + (if lo >? 0x0F then 1 else 0) in
  let hi := if hi >? 9 then hi + 6 else hi in
  exists c',
    Step c = (c', Returned 2 None)
    /\ cpu_a c' = Z.lor (Z.land lo 0x0F) (Z.land (Z.shiftl hi 4) 0xF0)
    /\ flag_has (cpu_p c') flagC = (hi >? 0x0F)
    /\ (cpu_a c', flag_has (cpu_p c') flagC) = bcd_adc_spec (cpu_a c) m cin
    /\ flag_has (cpu_p c') flagD = true
    /\ pc c' = next (next (pc c)) /\ bus c' = b2.
Proof.
  intros Hh Ha Hm Hd Hr cin lo lo' hi hi'.
  destruct c as [b a x y s p pcl pch cyc hl].
  cbn [cpu_halted cpu_a cpu_p] in *. subst hl.
  m6502_cbv_in Hr. m6502_reads Hr.
  pose proof (adc_decimal_refines a m (flag_has p flagC) Ha Hm) as Href.
  cbv zeta in Href. fold cin in Href.
  assert (Hspec : bcd_adc_spec a m cin
                  = (Z.lor (Z.land lo' 0x0F) (Z.land (Z.shiftl hi' 4) 0xF0), hi' >? 0x0F))
    by reflexivity.
  rewrite Hspec in Href. injection Href as Hres Hcar.
  eexists. split.
  { m6502_cbv. m6502_bus. m6502_switch. m6502_bus. rewrite Hd. cbv beta iota zeta.
    rewrite Hres, Hcar. reflexivity. }
  cbn [cpu_a cpu_p bus pc cpu_pcl cpu_pch].
  assert (Hc : flag_has
                 (flag_set
                    (flag_set (flag_set p (hi' >? 15) flagC)
                       (negb (Z.land (Z.lor (Z.land lo' 15) (Z.land (Z.shiftl hi' 4) 240)) 128 =? 0))
                       flagN)
                    (Z.lor (Z.land lo' 15) (Z.land (Z.shiftl hi' 4) 240) =? 0) flagZ) flagC
               = (hi' >? 15)).
  { flag_simpl. reflexivity. }
  repeat split; try reflexivity.
  - exact Hc.
  - rewrite Hspec, Hc. reflexivity.
  - flag_simpl. exact Hd.
Qed.

End ADCDecimal.

(** [SED; CLC; LDA #$09; ADC #$01] leaves [A = 0x10] and C clear. *)
Lemma ADC_decimal_witness :
  let c3 := StepN 3 (harness [0xF8; 0x18; 0xA9; 0x09; 0x69; 0x01]) in
  exists c',
    Step c3 = (c', Returned 2 None)
    /\ cpu_a c' = 0x10 /\ flag_has (cpu_p c') flagC = false.
Proof.
  intros c3.
  destruct (ADC_decimal c3 0x01 (bus c3)) as (c' & Hs & Ha & Hc & _).
  - reflexivity.
  - vm_compute. split; [ discriminate | reflexivity ].
  - vm_compute. split; [ discriminate | reflexivity ].
  - reflexivity.
  - vm_compute. eexists; split; [ reflexivity | ]. eexists; split; reflexivity.
  - exists c'. split; [ exact Hs | ].
    split; [ rewrite Ha; reflexivity | rewrite Hc; reflexivity ].
Defined.

(** ** Jumps, branches and returns *)

Lemma int8_signed8 (d : Z) : is_byte d -> int8 d = signed8 d.
Proof.
  unfold is_byte, int8, signed8. intros Hd.
  destruct (Z.ltb_spec d 128); Z.div_mod_to_equations; lia.
Qed.

Lemma signed8_range (d : Z) : is_byte d -> -128 <= signed8 d <= 127.
Proof. unfold is_byte, signed8. intros Hd. destruct (Z.ltb_spec d 128); lia. Qed.

Lemma int16_small (z : Z) : -32768 <= z < 32768 -> int16 z = z.
Proof. unfold int16. intros Hz. Z.div_mod_to_equations. lia. Qed.

(** [relN]: the low byte, the page adjustment and the target of a branch
    from address [(l, h)] with displacement byte [d]. *)
Lemma sadd_target (l h d : Z) :
  is_byte l -> is_byte h -> is_byte d ->
  let l' := fst (sadd l (int8 d)) in
  let o := snd (sadd l (int8 d)) in
  let h' := add8 h o in
  let target := (addr16 (l, h) + signed8 d) mod 65536 in
  is_byte l' /\ is_byte h' /\ addr16 (l', h') = target
  /\ (o =? 0) = (target / 256 =? addr16 (l, h) / 256)
  /\ add8 1 (when (o =? 0) 0 1) = (if o =? 0 then 1 else 2).
Proof.
  intros Hl Hh Hd. cbv zeta.
  rewrite (int8_signed8 d Hd). pose proof (signed8_range d Hd) as Hs.
  revert Hs. generalize (signed8 d). clear d Hd. intros d Hd.
  unfold is_byte in *. unfold sadd, ovfl, when, add8, byte, addr16. cbn [fst snd].
  rewrite (int16_small l), (int16_small d) by lia. rewrite (int16_small (l + d)) by lia.
  rewrite Z.shiftr_div_pow2 by lia. change (2 ^ 8) with 256.
  destruct (Z.gtb_spec ((l + d) / 256) 0) as [Hhi | Hhi].
  - assert (Hld : 256 <= l + d < 512) by (Z.div_mod_to_equations; lia).
    change (1 =? 0) with false. cbv iota.
    repeat split; Z.div_mod_to_equations; lia.
  - destruct (Z.ltb_spec (l + d) 0) as [Hlo | Hlo].
    + change (255 =? 0) with false. cbv iota.
      repeat split; Z.div_mod_to_equations; lia.
      + assert (Hld : 0 <= l + d < 256) by (Z.div_mod_to_equations; lia).
      change (0 =? 0) with true. cbv iota.
      repeat split; Z.div_mod_to_equations; lia.
Qed.

Lemma next_next_addr16 (a : Z * Z) :
  is_byte (fst a) -> is_byte (snd a) ->
  is_byte (fst (next (next a))) /\ is_byte (snd (next (next a)))
  /\ addr16 (next (next a)) = (addr16 a + 2) mod 65536.
Proof.
  intros Hl Hh. destruct (next_is_byte a Hl Hh) as [Hl1 Hh1].
  destruct (next_is_byte (next a) Hl1 Hh1) as [Hl2 Hh2].
  split; [ exact Hl2 | ]. split; [ exact Hh2 | ].
  rewrite (next_addr16 (next a) Hl1 Hh1), (next_addr16 a Hl Hh).
  pose proof (addr16_range a Hl Hh). Z.div_mod_to_equations. lia.
Qed.

Section Control.
Context {B : Type} `{Bus B}.

(** C6. JMP (indirect) reads the low byte of its target at the pointer
    [(l, h)] and the high byte at [(l + 1 mod 256, h)]: the pointer's low
    byte wraps within the page and nothing carries into [h]. For a pointer
    at the end of a page ([l = 0xFF]) the high byte comes from the start of
    the same page, [(0x00, h)]. The instruction costs 5 cycles. *)
Theorem JMP_indirect_wraps_in_page :
  (forall (c : CPU B) (l h lo hi : Z) (b5 : B),
      cpu_halted c = false ->
      reads (bus c) [(pc c, 0x6C); (next (pc c), l); (next (next (pc c)), h);
                     ((l, h), lo); ((add8 l 1, h), hi)] b5 ->
      Step c = (with_pc lo hi (with_cycles 5 (with_bus b5 c)), Returned 5 None))
  /\ (forall (c : CPU B) (h lo hi : Z) (b5 : B),
      cpu_halted c = false ->
      reads (bus c) [(pc c, 0x6C); (next (pc c), 0xFF); (next (next (pc c)), h);
                     ((0xFF, h), lo); ((0x00, h), hi)] b5 ->
      Step c = (with_pc lo hi (with_cycles 5 (with_bus b5 c)), Returned 5 None)).
Proof.
  assert (Hgen : forall (c : CPU B) (l h lo hi : Z) (b5 : B),
      cpu_halted c = false ->
      reads (bus c) [(pc c, 0x6C); (next (pc c), l); (next (next (pc c)), h);
                     ((l, h), lo); ((add8 l 1, h), hi)] b5 ->
      Step c = (with_pc lo hi (with_cycles 5 (with_bus b5 c)), Returned 5 None)).
  { intros c l h lo hi b5 Hh Hr. destruct c as [b a x y s p pcl pch cyc hl].
    cbn [cpu_halted] in Hh. subst hl.
    m6502_cbv_in Hr. m6502_reads Hr.
    m6502_cbv. m6502_bus. m6502_switch. m6502_bus. reflexivity. }
  split; [ exact Hgen | ].
  intros c h lo hi b5 Hh Hr. exact (Hgen c 0xFF h lo hi b5 Hh Hr).
Qed.

(** A conditional branch, as the interpreter runs it. *)
Lemma Step_branch_exec (c : CPU B) (op d : Z) (taken : bool) (b2 : B) :
  cpu_halted c = false ->
  branch_condition op (cpu_p c) = Some taken ->
  reads (bus c) [(pc c, op); (next (pc c), d)] b2 ->
  let a2 := next (next (pc c)) in
  let l' := fst (sadd (fst a2) (int8 d)) in
  let o := snd (sadd (fst a2) (int8 d)) in
  let h' := add8 (snd a2) o in
  let n := if taken then 2 + add8 1 (when (o =? 0) 0 1) else 2 in
  Step c = (if taken then with_pc l' h' (with_cycles n (with_bus b2 c))
            else with_pc (fst a2) (snd a2) (with_cycles n (with_bus b2 c)),
            Returned n None).
Proof.
  intros Hh Hcond Hr. cbv zeta.
  destruct c as [b a x y s p pcl pch cyc hl].
  cbn [cpu_halted cpu_p] in *. subst hl.
  m6502_cbv_in Hr. m6502_reads Hr.
  opcode_tree op; try discriminate Hcond;
    cbn [branch_condition] in Hcond; injection Hcond as <-;
    m6502_cbv; m6502_bus; m6502_switch; m6502_bus;
    match goal with |- context [flag_has ?p ?f] => destruct (flag_has p f) end;
    cbv beta iota zeta delta [negb]; m6502_bus;
    cbv beta iota zeta delta [sadd fst snd]; reflexivity.
Qed.

(** A branch whose operand fetch panics does not complete. *)
Lemma Step_branch_panic (c : CPU B) (op : Z) (taken : bool) (b1 b2 : B) (r : panicval) :
  cpu_halted c = false ->
  branch_condition op (cpu_p c) = Some taken ->
  bus_Read (bus c) (cpu_pcl c) (cpu_pch c) = (b1, Val op) ->
  bus_Read b1 (fst (next (pc c))) (snd (next (pc c))) = (b2, Panic r) ->
  forall c' n, Step c <> (c', Returned n None).
Proof.
  intros Hh Hcond E1 E2 c' n.
  destruct c as [b a x y s p pcl pch cyc hl].
  cbn [cpu_halted cpu_p bus cpu_pcl cpu_pch] in *. subst hl.
  m6502_cbv_in E2.
  opcode_tree op; try discriminate Hcond;
    m6502_cbv; m6502_bus; m6502_switch; m6502_bus;
    destruct r; discriminate.
Qed.

Lemma branch_condition_row (op p : Z) (taken : bool) :
  branch_condition op p = Some taken ->
  exists mn, OPCODES op = Some (mkEntry mn Relative 2 StarStar).
Proof.
  intros Hcond. opcode_tree op; try discriminate Hcond; eexists; reflexivity.
Qed.

(** C7. A conditional branch whose condition is false leaves the program
    counter two bytes further and costs 2 cycles; one whose condition is
    true sets the program counter to the address after the branch plus the
    signed displacement, and costs 3 cycles when that target is on the page
    of the address after the branch and 4 cycles when it is on another. *)
Theorem branch_cycles (c : CPU B) (op d : Z) (taken : bool) (b2 : B) :
  cpu_halted c = false -> is_byte (cpu_pcl c) -> is_byte (cpu_pch c) -> is_byte d ->
  branch_condition op (cpu_p c) = Some taken ->
  reads (bus c) [(pc c, op); (next (pc c), d)] b2 ->
  let after := (addr16 (pc c) + 2) mod 65536 in
  let target := (after + signed8 d) mod 65536 in
  exists c' n,
    Step c = (c', Returned n None)
    /\ addr16 (pc c') = (if taken then target else after)
    /\ n = (if taken then (if target / 256 =? after / 256 then 3 else 4) else 2)
    /\ is_byte (cpu_pcl c') /\ is_byte (cpu_pch c')
    /\ cpu_a c' = cpu_a c /\ cpu_x c' = cpu_x c /\ cpu_y c' = cpu_y c
    /\ cpu_s c' = cpu_s c /\ cpu_p c' = cpu_p c /\ bus c' = b2.
Proof.
  intros Hh Hl Hhi Hd Hcond Hr after target.
  destruct (next_next_addr16 (pc c) Hl Hhi) as (Hl2 & Hh2 & Ha2).
  fold after in Ha2.
  pose proof (sadd_target (fst (next (next (pc c)))) (snd (next (next (pc c)))) d Hl2 Hh2 Hd)
    as Hrel.
  cbv zeta in Hrel. rewrite <- surjective_pairing, Ha2 in Hrel. fold target in Hrel.
  destruct Hrel as (Hl' & Hh' & Ht & Ho & Hcost).
  pose proof (Step_branch_exec c op d taken b2 Hh Hcond Hr) as Hs. cbv zeta in Hs.
  eexists _, _. split; [ exact Hs | ].
  destruct c as [b a x y s p pcl pch cyc hl].
  destruct taken; unfold pc, with_pc, with_cycles, with_bus in *;
    cbn [bus cpu_a cpu_x cpu_y cpu_s cpu_p cpu_pcl cpu_pch] in *.
  - split; [ exact Ht | ]. split.
    { rewrite Hcost, <- Ho. destruct (_ =? 0); reflexivity. }
    repeat split; assumption || reflexivity || apply Hl' || apply Hh'.
  - split; [ exact Ha2 | ]. split; [ reflexivity | ].
    repeat split; assumption || reflexivity || apply Hl2 || apply Hh2.
Qed.

(** C9. RTS pops a 16-bit value and sets the program counter to that value
    plus 1, the carry going from the low into the high byte; RTI pulls the
    status (U and B masked off) and then sets the program counter to the
    popped value itself. On the same popped value the two differ by this
    increment. *)
Theorem RTS_increments_RTI_does_not :
  (forall (c : CPU B) (l h : Z) (b3 : B),
      cpu_halted c = false -> is_byte l -> is_byte h ->
      reads (bus c) [(pc c, 0x60); ((add8 (cpu_s c) 1, 0x01), l);
                     ((add8 (add8 (cpu_s c) 1) 1, 0x01), h)] b3 ->
      exists c',
        Step c = (c', Returned 6 None)
        /\ addr16 (pc c') = (addr16 (l, h) + 1) mod 65536
        /\ is_byte (cpu_pcl c') /\ is_byte (cpu_pch c')
        /\ cpu_s c' = add8 (add8 (cpu_s c) 1) 1 /\ cpu_p c' = cpu_p c /\ bus c' = b3)
  /\ (forall (c : CPU B) (f l h : Z) (b4 : B),
      cpu_halted c = false ->
      reads (bus c) [(pc c, 0x40); ((add8 (cpu_s c) 1, 0x01), f);
                     ((add8 (add8 (cpu_s c) 1) 1, 0x01), l);
                     ((add8 (add8 (add8 (cpu_s c) 1) 1) 1, 0x01), h)] b4 ->
      exists c',
        Step c = (c', Returned 7 None)
        /\ pc c' = (l, h)
        /\ cpu_p c' = Z.land f (not8 (Z.lor flagU flagB))
        /\ cpu_s c' = add8 (add8 (add8 (cpu_s c) 1) 1) 1 /\ bus c' = b4)
  /\ (forall l h : Z, is_byte l -> is_byte h ->
      addr16 (inc l h) = (addr16 (l, h) + 1) mod 65536).
Proof.
  split; [ | split ].
  - intros c l h b3 Hh Hl Hhi Hr.
    destruct (inc_addr16 l h Hl Hhi) as (Hl' & Hh' & Ha).
    exists (with_pc (fst (inc l h)) (snd (inc l h))
              (with_s (add8 (add8 (cpu_s c) 1) 1) (with_cycles 6 (with_bus b3 c)))).
    split.
    { clear - Hh Hr. destruct c as [b a x y s p pcl pch cyc hl].
      cbn [cpu_halted cpu_s] in *. subst hl.
      m6502_cbv_in Hr. m6502_reads Hr.
      m6502_cbv. m6502_bus. m6502_switch. m6502_bus. reflexivity. }
    m6502_proj.
    rewrite <- surjective_pairing.
    split; [ exact Ha | ]. split; [ exact Hl' | ]. split; [ exact Hh' | ].
    repeat split; reflexivity.
  - intros c f l h b4 Hh Hr.
    exists (with_pc l h (with_p (Z.land f (not8 (Z.lor flagU flagB)))
              (with_s (add8 (add8 (add8 (cpu_s c) 1) 1) 1) (with_cycles 7 (with_bus b4 c))))).
    split.
    { destruct c as [b a x y s p pcl pch cyc hl].
      cbn [cpu_halted cpu_s] in *. subst hl.
      m6502_cbv_in Hr. m6502_reads Hr.
      m6502_cbv. m6502_bus. m6502_switch. m6502_bus. reflexivity. }
    repeat split; reflexivity.
  - intros l h Hl Hh. apply (inc_addr16 l h Hl Hh).
Qed.

End Control.

(** ** The jumps, branches and returns of the scenarios *)

(** [JMP ($80FF)] with [$80FF = 0xAA], [$8000 = 0x55], [$8100 = 0xCC]:
    the program counter becomes [$55AA], in 5 cycles. *)
Lemma JMP_indirect_wraps_in_page_witness :
  let c := harness [0x6C; 0xFF; 0x80] in
  let m := W 0x00 0x81 [0xCC] (W 0x00 0x80 [0x55] (W 0xFF 0x80 [0xAA] (bus c))) in
  exists c',
    Step (with_bus m c) = (c', Returned 5 None) /\ pc c' = (0xAA, 0x55).
Proof.
  intros c m.
  pose proof (proj2 (@JMP_indirect_wraps_in_page memoryBus _)
                (with_bus m c) 0x80 0xAA 0x55 m eq_refl) as Hj.
  eexists. split.
  - apply Hj. reads_closed.
  - reflexivity.
Defined.

(** At [$0400], [D0 FE] (BNE to [$0400]): taken with Z clear, 3 cycles;
    not taken with Z set, the program counter at [$0402], 2 cycles; and
    [D0 80] with Z clear goes to [$0382] on another page, 4 cycles. *)
Lemma branch_cycles_witness :
  (exists c', Step (harness [0xD0; 0xFE]) = (c', Returned 3 None) /\ addr16 (pc c') = 0x0400)
  /\ (exists c', Step (with_p flagZ (harness [0xD0; 0xFE])) = (c', Returned 2 None)
                 /\ addr16 (pc c') = 0x0402)
  /\ (exists c', Step (harness [0xD0; 0x80]) = (c', Returned 4 None) /\ addr16 (pc c') = 0x0382).
Proof.
  split; [ | split ].
  - destruct (branch_cycles (harness [0xD0; 0xFE]) 0xD0 0xFE true (bus (harness [0xD0; 0xFE])))
      as (c' & n & Hs & Hpc & Hn & _);
      [ reflexivity | byte_closed | byte_closed | byte_closed | reflexivity | reads_closed | ].
    exists c'. split; [ rewrite Hs, Hn; reflexivity | rewrite Hpc; reflexivity ].
  - destruct (branch_cycles (with_p flagZ (harness [0xD0; 0xFE])) 0xD0 0xFE false
                (bus (harness [0xD0; 0xFE])))
      as (c' & n & Hs & Hpc & Hn & _);
      [ reflexivity | byte_closed | byte_closed | byte_closed | reflexivity | reads_closed | ].
    exists c'. split; [ rewrite Hs, Hn; reflexivity | rewrite Hpc; reflexivity ].
  - destruct (branch_cycles (harness [0xD0; 0x80]) 0xD0 0x80 true (bus (harness [0xD0; 0x80])))
      as (c' & n & Hs & Hpc & Hn & _);
      [ reflexivity | byte_closed | byte_closed | byte_closed | reflexivity | reads_closed | ].
    exists c'. split; [ rewrite Hs, Hn; reflexivity | rewrite Hpc; reflexivity ].
Defined.

(** The return tests of the suite: with [$11 $34] on the stack RTS goes
    to [$3412]; with [$FF $12 $34] on the stack RTI loads the status
    [0xCF] and goes to [$3412]. *)
Lemma RTS_increments_RTI_does_not_witness :
  (let c := with_s 0xFD (harness [0x60]) in
   let m := W 0xFE 0x01 [0x11; 0x34] (bus c) in
   exists c', Step (with_bus m c) = (c', Returned 6 None)
              /\ addr16 (pc c') = 0x3412 /\ cpu_s c' = 0xFF)
  /\ (let c := with_s 0xFC (harness [0x40]) in
      let m := W 0xFD 0x01 [0xFF; 0x12; 0x34] (bus c) in
      exists c', Step (with_bus m c) = (c', Returned 7 None)
                 /\ pc c' = (0x12, 0x34) /\ cpu_p c' = 0xCF).
Proof.
  pose proof (@RTS_increments_RTI_does_not memoryBus _) as (Hrts & Hrti & _).
  split.
  - intros c m.
    destruct (Hrts (with_bus m c) 0x11 0x34 m) as (c' & Hs & Hpc & _ & _ & Hsp & _);
      [ reflexivity | byte_closed | byte_closed | reads_closed | ].
    exists c'. split; [ exact Hs | ].
    split; [ rewrite Hpc; reflexivity | rewrite Hsp; reflexivity ].
  - intros c m.
    destruct (Hrti (with_bus m c) 0xFF 0x12 0x34 m) as (c' & Hs & Hpc & Hp & _);
      [ reflexivity | reads_closed | ].
    exists c'. split; [ exact Hs | ].
    split; [ exact Hpc | rewrite Hp; reflexivity ].
Defined.

(** ** The U and B bits *)

Lemma testbit_48 (n : Z) : 0 <= n -> Z.testbit 48 n = ((n =? 4) || (n =? 5)).
Proof.
  intros Hn.
  destruct (Z.ltb_spec n 8) as [Hlt | Hge].
  - assert (Hc : n = 0 \/ n = 1 \/ n = 2 \/ n = 3 \/ n = 4 \/ n = 5 \/ n = 6 \/ n = 7) by lia.
    repeat (destruct Hc as [-> | Hc]; [ reflexivity | ]). subst n. reflexivity.
  - rewrite (Z.bits_above_log2 48 n) by (change (Z.log2 48) with 5; lia).
    symmetry. apply orb_false_iff. split; apply Z.eqb_neq; lia.
Qed.

Lemma land_48_bits (p : Z) :
  Z.land p 48 = 0 <-> Z.testbit p 4 = false /\ Z.testbit p 5 = false.
Proof.
  split.
  - intros H0. split.
    + assert (Hb : Z.testbit (Z.land p 48) 4 = false) by (rewrite H0; apply Z.bits_0).
      rewrite Z.land_spec in Hb. change (Z.testbit 48 4) with true in Hb.
      rewrite andb_true_r in Hb. exact Hb.
    + assert (Hb : Z.testbit (Z.land p 48) 5 = false) by (rewrite H0; apply Z.bits_0).
      rewrite Z.land_spec in Hb. change (Z.testbit 48 5) with true in Hb.
      rewrite andb_true_r in Hb. exact Hb.
  - intros [H4 H5]. apply Z.bits_inj'. intros n Hn.
    rewrite Z.land_spec, Z.bits_0, testbit_48 by exact Hn.
    destruct (Z.eqb_spec n 4) as [-> | N4]; [ rewrite H4; reflexivity | ].
    destruct (Z.eqb_spec n 5) as [-> | N5]; [ rewrite H5; reflexivity | ].
    apply andb_false_r.
Qed.

(** Setting or clearing one of N, V, D, I, Z, C leaves U and B alone. *)
Lemma flag_set_UB (p : Z) (c : bool) (k : Z) :
  0 <= k < 8 -> k <> 4 -> k <> 5 ->
  Z.land p 48 = 0 -> Z.land (flag_set p c (Z.shiftl 1 k)) 48 = 0.
Proof.
  intros Hk H4 H5 Hp. apply land_48_bits in Hp. destruct Hp as [P4 P5].
  apply land_48_bits. rewrite !testbit_flag_set by lia.
  destruct (Z.eqb_spec 4 k); [ lia | ]. destruct (Z.eqb_spec 5 k); [ lia | ].
  split; assumption.
Qed.

Lemma plp_mask_UB (b : Z) : Z.land (Z.land b (not8 (Z.lor flagU flagB))) 48 = 0.
Proof.
  rewrite <- Z.land_assoc. change (Z.land (not8 (Z.lor flagU flagB)) 48) with 0.
  apply Z.land_0_r.
Qed.

Section Invariant.
Context {B : Type} `{Bus B}.

Local Abbreviation keeps := (preserves (B:=B) UB_clear).

Lemma keeps_ret {A} (v : A) : keeps (ret v).
Proof. intros c Hc. exact Hc. Qed.

Lemma keeps_gets {A} (f : CPU B -> A) : keeps (gets f).
Proof. intros c Hc. exact Hc. Qed.

Lemma keeps_bind {A C} (m : M B A) (f : A -> M B C) :
  keeps m -> (forall v, keeps (f v)) -> keeps (bind m f).
Proof.
  intros Hm Hf c Hc. unfold bind. specialize (Hm c Hc).
  destruct (m c) as [c1 [v|r]]; cbn [fst] in *; [ apply Hf; exact Hm | exact Hm ].
Qed.

(** An update that does not write the status register. *)
Lemma keeps_modify (f : CPU B -> CPU B) :
  (forall c, cpu_p (f c) = cpu_p c) -> keeps (modify f).
Proof. intros Hf c Hc. unfold UB_clear, modify in *. cbn [fst]. rewrite Hf. exact Hc. Qed.

Lemma keeps_busRead (l h : Z) : keeps (busRead l h).
Proof.
  intros c Hc. unfold busRead. destruct (bus_Read (bus c) l h) as [b' r]. exact Hc.
Qed.

Lemma keeps_busWrite (l h v : Z) : keeps (busWrite l h v).
Proof.
  intros c Hc. unfold busWrite. destruct (bus_Write (bus c) l h v) as [b' r]. exact Hc.
Qed.

Lemma keeps_setF (c : bool) (k : Z) :
  0 <= k < 8 -> k <> 4 -> k <> 5 -> keeps (setF c (Z.shiftl 1 k)).
Proof.
  intros Hk H4 H5 s Hs. unfold UB_clear, setF, modify in *. cbn [fst].
  destruct s as [b a x y sp p pcl pch cyc hl]. cbn [cpu_p with_p] in *.
  apply flag_set_UB; assumption.
Qed.

Lemma keeps_with_p_masked (b : Z) : keeps (modify (with_p (Z.land b (not8 (Z.lor flagU flagB))))).
Proof.
  intros c Hc. unfold UB_clear, modify. cbn [fst]. destruct c as [b0 a x y s p pcl pch cyc hl]. cbn [cpu_p with_p].
  apply plp_mask_UB.
Qed.

End Invariant.

Create HintDb m6502_keeps.

Ltac head_of t := lazymatch t with ?f _ => head_of f | _ => t end.

(** One step of the syntax-directed proof that a computation keeps
    [UB_clear]. *)
Ltac keeps_step :=
  lazymatch goal with
  | |- preserves _ (bind _ _) => apply keeps_bind; [ | intros ? ]
  | |- preserves _ (ret _) => apply keeps_ret
  | |- preserves _ (gets _) => apply keeps_gets
  | |- preserves _ (busRead _ _) => apply keeps_busRead
  | |- preserves _ (busWrite _ _ _) => apply keeps_busWrite
  | |- preserves _ (modify (with_p (Z.land _ (not8 (Z.lor flagU flagB))))) =>
      apply keeps_with_p_masked
  | |- preserves _ (modify _) => apply keeps_modify; intros []; reflexivity
  | |- preserves _ (setF _ _) =>
      first [ apply (keeps_setF _ 7) | apply (keeps_setF _ 6) | apply (keeps_setF _ 3)
            | apply (keeps_setF _ 2) | apply (keeps_setF _ 1) | apply (keeps_setF _ 0) ]; lia
  | |- preserves _ (match ?x with (_, _) => _ end) => destruct x
  | |- preserves _ (if ?b then _ else _) => destruct b
  | |- preserves _ (let _ := _ in _) => cbv zeta
  | |- preserves _ ?m =>
      first [ solve [ auto 1 with m6502_keeps nocore ]
            | let h := head_of m in unfold h ]
  end.

Ltac keeps_auto := repeat keeps_step.

Section InvariantOps.
Context {B : Type} `{Bus B}.

Local Abbreviation keeps := (preserves (B:=B) UB_clear).

Lemma keeps_cost (n : Z) : keeps (cost n).
Proof. unfold cost. keeps_auto. Qed.
#[local] Hint Resolve keeps_cost : m6502_keeps.

Lemma keeps_setPC (l h : Z) : keeps (setPC l h).
Proof. unfold setPC. keeps_auto. Qed.
#[local] Hint Resolve keeps_setPC : m6502_keeps.

Lemma keeps_incPC : keeps (incPC).
Proof. unfold incPC. keeps_auto. Qed.
#[local] Hint Resolve keeps_incPC : m6502_keeps.

Lemma keeps_read (l h : Z) : keeps (read l h).
Proof. unfold read. keeps_auto. Qed.
#[local] Hint Resolve keeps_read : m6502_keeps.

Lemma keeps_zread (l : Z) : keeps (zread l).
Proof. unfold zread. keeps_auto. Qed.
#[local] Hint Resolve keeps_zread : m6502_keeps.

Lemma keeps_vread (l : Z) : keeps (vread l).
Proof. unfold vread. keeps_auto. Qed.
#[local] Hint Resolve keeps_vread : m6502_keeps.

Lemma keeps_write (l h b : Z) : keeps (write l h b).
Proof. unfold write. keeps_auto. Qed.
#[local] Hint Resolve keeps_write : m6502_keeps.

Lemma keeps_zwrite (l b : Z) : keeps (zwrite l b).
Proof. unfold zwrite. keeps_auto. Qed.
#[local] Hint Resolve keeps_zwrite : m6502_keeps.

Lemma keeps_fetch : keeps (fetch).
Proof. unfold fetch. keeps_auto. Qed.
#[local] Hint Resolve keeps_fetch : m6502_keeps.

Lemma keeps_setC (c : bool) : keeps (setC c).
Proof. unfold setC. keeps_auto. Qed.
#[local] Hint Resolve keeps_setC : m6502_keeps.

Lemma keeps_setI (c : bool) : keeps (setI c).
Proof. unfold setI. keeps_auto. Qed.
#[local] Hint Resolve keeps_setI : m6502_keeps.

Lemma keeps_setN (b : Z) : keeps (setN b).
Proof. unfold setN. keeps_auto. Qed.
#[local] Hint Resolve keeps_setN : m6502_keeps.

Lemma keeps_setNZ (b : Z) : keeps (setNZ b).
Proof. unfold setNZ. keeps_auto. Qed.
#[local] Hint Resolve keeps_setNZ : m6502_keeps.

Lemma keeps_setA (b : Z) : keeps (setA b).
Proof. unfold setA. keeps_auto. Qed.
#[local] Hint Resolve keeps_setA : m6502_keeps.

Lemma keeps_setX (b : Z) : keeps (setX b).
Proof. unfold setX. keeps_auto. Qed.
#[local] Hint Resolve keeps_setX : m6502_keeps.

Lemma keeps_setY (b : Z) : keeps (setY b).
Proof. unfold setY. keeps_auto. Qed.
#[local] Hint Resolve keeps_setY : m6502_keeps.

Lemma keeps_setS (b : Z) : keeps (setS b).
Proof. unfold setS. keeps_auto. Qed.
#[local] Hint Resolve keeps_setS : m6502_keeps.

Lemma keeps_setHalted (h : bool) : keeps (setHalted h).
Proof. unfold setHalted. keeps_auto. Qed.
#[local] Hint Resolve keeps_setHalted : m6502_keeps.

Lemma keeps_push (b : Z) : keeps (push b).
Proof. unfold push. keeps_auto. Qed.
#[local] Hint Resolve keeps_push : m6502_keeps.

Lemma keeps_pop : keeps (pop).
Proof. unfold pop. keeps_auto. Qed.
#[local] Hint Resolve keeps_pop : m6502_keeps.

Lemma keeps_pushPC : keeps (pushPC).
Proof. unfold pushPC. keeps_auto. Qed.
#[local] Hint Resolve keeps_pushPC : m6502_keeps.

Lemma keeps_popPC : keeps (popPC).
Proof. unfold popPC. keeps_auto. Qed.
#[local] Hint Resolve keeps_popPC : m6502_keeps.

Lemma keeps_php : keeps (php).
Proof. unfold php. keeps_auto. Qed.
#[local] Hint Resolve keeps_php : m6502_keeps.

Lemma keeps_plp : keeps (plp).
Proof. unfold plp. keeps_auto. Qed.
#[local] Hint Resolve keeps_plp : m6502_keeps.

Lemma keeps_cmp (a b : Z) : keeps (cmp a b).
Proof. unfold cmp. keeps_auto. Qed.
#[local] Hint Resolve keeps_cmp : m6502_keeps.

Lemma keeps_bit (b : Z) : keeps (bit b).
Proof. unfold bit. keeps_auto. Qed.
#[local] Hint Resolve keeps_bit : m6502_keeps.

Lemma keeps_asl (b : Z) : keeps (asl b).
Proof. unfold asl. keeps_auto. Qed.
#[local] Hint Resolve keeps_asl : m6502_keeps.

Lemma keeps_lsr (b : Z) : keeps (lsr b).
Proof. unfold lsr. keeps_auto. Qed.
#[local] Hint Resolve keeps_lsr : m6502_keeps.

Lemma keeps_rol (b : Z) : keeps (rol b).
Proof. unfold rol. keeps_auto. Qed.
#[local] Hint Resolve keeps_rol : m6502_keeps.

Lemma keeps_ror (b : Z) : keeps (ror b).
Proof. unfold ror. keeps_auto. Qed.
#[local] Hint Resolve keeps_ror : m6502_keeps.

Lemma keeps_abs : keeps (abs).
Proof. unfold abs. keeps_auto. Qed.
#[local] Hint Resolve keeps_abs : m6502_keeps.

Lemma keeps_absN (n : Z) : keeps (absN n).
Proof. unfold absN. keeps_auto. Qed.
#[local] Hint Resolve keeps_absN : m6502_keeps.

Lemma keeps_relN (n : Z) : keeps (relN n).
Proof. unfold relN. keeps_auto. Qed.
#[local] Hint Resolve keeps_relN : m6502_keeps.

Lemma keeps_indY : keeps (indY).
Proof. unfold indY. keeps_auto. Qed.
#[local] Hint Resolve keeps_indY : m6502_keeps.

Lemma keeps_indX : keeps (indX).
Proof. unfold indX. keeps_auto. Qed.
#[local] Hint Resolve keeps_indX : m6502_keeps.

Lemma keeps_adc (b : Z) : keeps (adc b).
Proof. unfold adc. keeps_auto. Qed.
#[local] Hint Resolve keeps_adc : m6502_keeps.

Lemma keeps_sbc (b : Z) : keeps (sbc b).
Proof. unfold sbc. keeps_auto. Qed.
#[local] Hint Resolve keeps_sbc : m6502_keeps.

Lemma keeps_branch (c : bool) : keeps (branch c).
Proof. unfold branch. keeps_auto. Qed.
#[local] Hint Resolve keeps_branch : m6502_keeps.

Lemma keeps_invalid (pcl pch : Z) : keeps (invalid pcl pch).
Proof. unfold invalid. keeps_auto. Qed.
#[local] Hint Resolve keeps_invalid : m6502_keeps.

Lemma keeps_switch (pcl pch op : Z) : keeps (switch pcl pch op).
Proof.
  opcode_tree op; cbv beta iota delta [switch]; keeps_auto.
Qed.

Lemma keeps_tick : keeps tick.
Proof.
  unfold tick.
  apply keeps_bind; [ keeps_auto | intros _ ].
  apply keeps_bind; [ keeps_auto | intros pcl ].
  apply keeps_bind; [ keeps_auto | intros pch ].
  apply keeps_bind; [ keeps_auto | intros op ].
  apply keeps_bind; [ apply keeps_switch | intros [e | ] ]; keeps_auto.
Qed.

Lemma keeps_Step (c : CPU B) : UB_clear c -> UB_clear (fst (Step c)).
Proof.
  intros Hc. unfold Step. destruct (cpu_halted c); [ exact Hc | ].
  pose proof (keeps_tick c Hc) as Ht.
  destruct (tick c) as [c1 [[e|]|[msg|]]]; exact Ht.
Qed.

Lemma keeps_Reset : keeps Reset.
Proof.
  unfold Reset. keeps_step; [ keeps_auto | ]. keeps_step; [ keeps_auto | ].
  keeps_step; [ keeps_auto | ]. keeps_step; [ keeps_auto | ].
  keeps_step; [ keeps_auto | ]. keeps_step; [ | keeps_auto ].
  intros c Hc. destruct c as [b0 a x y s p pcl pch cyc hl]. reflexivity.
Qed.

Lemma keeps_interrupt (l h : Z) : keeps (interrupt l h).
Proof.
  unfold interrupt. do 11 (keeps_step; [ keeps_auto | ]). keeps_step; [ keeps_auto | ].
  intros c Hc. unfold UB_clear, modify in *. cbn [fst]. destruct c as [b0 a x y s p pcl pch cyc hl]. cbn [cpu_p with_p] in *.
  exact (flag_set_UB _ true 2 ltac:(lia) ltac:(lia) ltac:(lia) Hc).
Qed.

Lemma keeps_NMI : keeps NMI.
Proof. unfold NMI. keeps_step; [ keeps_auto | ]. keeps_step; [ keeps_auto | ]. apply keeps_interrupt. Qed.

Lemma keeps_IRQ : keeps IRQ.
Proof.
  unfold IRQ. keeps_step; [ keeps_auto | ]. destruct (negb v); [ | keeps_auto ].
  keeps_step; [ keeps_auto | ]. keeps_step; [ keeps_auto | ]. apply keeps_interrupt.
Qed.

Lemma reachable_UB_clear (c : CPU B) : reachable c -> UB_clear c.
Proof.
  induction 1 as [b c Hn | c _ IH | c _ IH | c _ IH | c _ IH | c lo hi _ _ _ IH | c b _ IH].
  - unfold New in Hn.
    assert (H0 : UB_clear (mkCPU b 0 0 0 0 0 0 0 0 false)) by reflexivity.
    pose proof (keeps_Reset _ H0) as Hk. rewrite Hn in Hk. exact Hk.
  - apply keeps_Reset. exact IH.
  - apply keeps_Step. exact IH.
  - apply keeps_NMI. exact IH.
  - apply keeps_IRQ. exact IH.
  - destruct c as [b0 a x y s p pcl pch cyc hl]. exact IH.
  - destruct c as [b0 a x y s p pcl pch cyc hl]. exact IH.
Qed.

End InvariantOps.

(** ** Every register stays a byte *)

Lemma is_byte_land_255 (z : Z) : is_byte z <-> Z.land z 0xFF = z.
Proof.
  rewrite land_255. unfold is_byte. split.
  - intros Hz. apply Z.mod_small. exact Hz.
  - intros <-. apply Z.mod_pos_bound. lia.
Qed.

Lemma lor_is_byte (a b : Z) : is_byte a -> is_byte b -> is_byte (Z.lor a b).
Proof.
  rewrite !is_byte_land_255. intros Ha Hb. rewrite Z.land_lor_distr_l, Ha, Hb. reflexivity.
Qed.

Lemma lxor_is_byte (a b : Z) : is_byte a -> is_byte b -> is_byte (Z.lxor a b).
Proof.
  rewrite !is_byte_land_255. intros Ha Hb. apply Z.bits_inj'. intros n _.
  rewrite Z.land_spec, Z.lxor_spec.
  rewrite <- Ha, <- Hb at 1 2. rewrite !Z.land_spec.
  destruct (Z.testbit a n), (Z.testbit b n), (Z.testbit 255 n); reflexivity.
Qed.

Lemma land_is_byte_l (a b : Z) : is_byte a -> is_byte (Z.land a b).
Proof.
  rewrite !is_byte_land_255. intros Ha.
  rewrite <- Z.land_assoc, (Z.land_comm b), Z.land_assoc, Ha. reflexivity.
Qed.

Lemma land_is_byte_r (a b : Z) : is_byte b -> is_byte (Z.land a b).
Proof. intros Hb. rewrite Z.land_comm. apply land_is_byte_l. exact Hb. Qed.

Lemma shiftr_is_byte (a n : Z) : is_byte a -> 0 <= n -> is_byte (Z.shiftr a n).
Proof.
  unfold is_byte. intros Ha Hn. rewrite Z.shiftr_div_pow2 by exact Hn.
  assert (Hp : 0 < 2 ^ n) by (apply Z.pow_pos_nonneg; lia).
  split; [ apply Z.div_pos; lia | ].
  apply Z.div_lt_upper_bound; [ exact Hp | nia ].
Qed.

Lemma add8_is_byte (a b : Z) : is_byte (add8 a b).
Proof. apply byte_is_byte. Qed.

Lemma sub8_is_byte (a b : Z) : is_byte (sub8 a b).
Proof. apply byte_is_byte. Qed.

Lemma shl8_is_byte (a n : Z) : is_byte (shl8 a n).
Proof. apply byte_is_byte. Qed.

Lemma when_is_byte (d : bool) (a b : Z) : is_byte a -> is_byte b -> is_byte (when d a b).
Proof. destruct d; intros Ha Hb; assumption. Qed.

Lemma closed_is_byte (k : Z) : (0 <=? k) && (k <? 256) = true -> is_byte k.
Proof. unfold is_byte. lia. Qed.

Create HintDb m6502_bytes discriminated.
#[global] Hint Resolve byte_is_byte add8_is_byte sub8_is_byte shl8_is_byte lor_is_byte
  lxor_is_byte land_is_byte_l land_is_byte_r when_is_byte : m6502_bytes.
#[global] Hint Extern 1 (is_byte (Z.shiftr _ _)) => (apply shiftr_is_byte; [ | lia ]) : m6502_bytes.
#[global] Hint Extern 5 (is_byte _) => (apply closed_is_byte; reflexivity) : m6502_bytes.
#[global] Hint Extern 1 (bytes _) => progress (unfold bytes, Bytes_Z, Bytes_bool, Bytes_unit, Bytes_error, Bytes_prod; cbn [fst snd]) : m6502_bytes.
#[global] Hint Extern 1 (_ /\ _) => split : m6502_bytes.
#[global] Hint Extern 1 True => exact I : m6502_bytes.

Ltac bytes_solve := solve [ auto 8 with m6502_bytes nocore ].

Section Bytewise.
Context {B : Type} `{BusBytes B}.

Lemma bytewise_ret {A} `{Bytes A} (v : A) : bytes v -> bytewise (B:=B) (ret v).
Proof. intros Hv c Hc. split; assumption. Qed.

Lemma bytewise_bind {A C} `{Bytes A} `{Bytes C} (m : M B A) (k : A -> M B C) :
  bytewise m -> (forall v, bytes v -> bytewise (k v)) -> bytewise (bind m k).
Proof.
  intros Hm Hk c Hc. unfold bind. specialize (Hm c Hc).
  destruct (m c) as [c1 [v | r]]; cbn [fst snd] in *.
  - apply Hk; tauto.
  - tauto.
Qed.

Lemma bytewise_busRead (l h : Z) : bytewise (busRead (B:=B) l h).
Proof.
  intros c Hc. unfold busRead.
  destruct (bus_Read (bus c) l h) as [b' r] eqn:Hr. cbn [fst snd].
  split.
  - destruct c as [b0 a x y s p pcl pch cyc hl]. exact Hc.
  - destruct r as [v | r]; [ | exact I ]. exact (bus_Read_byte _ _ _ _ _ Hr).
Qed.

Lemma bytewise_busWrite (l h v : Z) : bytewise (busWrite (B:=B) l h v).
Proof.
  intros c Hc. unfold busWrite.
  destruct (bus_Write (bus c) l h v) as [b' r]. cbn [fst snd].
  split.
  - destruct c as [b0 a x y s p pcl pch cyc hl]. exact Hc.
  - destruct r; exact I.
Qed.

Lemma bytewise_modify (f : CPU B -> CPU B) :
  (forall c, wf_cpu c -> wf_cpu (f c)) -> bytewise (modify f).
Proof. intros Hf c Hc. split; [ apply Hf; exact Hc | exact I ]. Qed.

Lemma bytewise_gets {A} `{Bytes A} (f : CPU B -> A) :
  (forall c, wf_cpu c -> bytes (f c)) -> bytewise (gets f).
Proof. intros Hf c Hc. split; [ exact Hc | apply Hf; exact Hc ]. Qed.

End Bytewise.

Lemma uadd_bytes (a b : Z) : bytes (uadd a b).
Proof. unfold uadd. cbv zeta. bytes_solve. Qed.

Lemma inc_bytes (l h : Z) : bytes (inc l h).
Proof. unfold inc, uadd. cbv zeta. bytes_solve. Qed.

Lemma sadd_bytes (a b : Z) : bytes (sadd a b).
Proof. unfold sadd, ovfl. cbv zeta. bytes_solve. Qed.

#[global] Hint Resolve uadd_bytes inc_bytes sadd_bytes : m6502_bytes.

(** One step through a closure: the rule of its head, with the bytes
    bound so far among the hypotheses. *)
Ltac bytes_hyp Hv :=
  unfold bytes, Bytes_Z, Bytes_bool, Bytes_unit, Bytes_error, Bytes_prod in Hv;
  cbn [fst snd] in Hv;
  repeat match type of Hv with
         | _ /\ _ => let H1 := fresh "Hb" in destruct Hv as [H1 Hv]; bytes_hyp H1
         end.

Ltac wf_fields :=
  let c := fresh "c" in let Hc := fresh "Hc" in
  intros c Hc;
  destruct c as [rb ra rx ry rs rp rl rh rc rt];
  unfold wf_cpu, with_bus, with_a, with_x, with_y, with_s, with_p, with_pc,
    with_cycles, with_halted, flag_set in *;
  cbn [bus cpu_a cpu_x cpu_y cpu_s cpu_p cpu_pcl cpu_pch cpu_cycles cpu_halted] in *;
  repeat match goal with H : _ /\ _ |- _ => destruct H end;
  repeat match goal with |- context [if ?b then _ else _] => destruct b end;
  bytes_solve.

Create HintDb m6502_bytewise discriminated.
#[global] Hint Resolve bytewise_busRead bytewise_busWrite : m6502_bytewise.

Ltac bytewise_step :=
  lazymatch goal with
  | |- bytewise (bind _ _) =>
      apply bytewise_bind;
      [ | let v := fresh "v" in let Hv := fresh "Hv" in
          intros v Hv;
          repeat match goal with x : (_ * _)%type |- _ => destruct x end;
          bytes_hyp Hv ]
  | |- bytewise (ret _) => apply bytewise_ret; bytes_solve
  | |- bytewise (modify _) => apply bytewise_modify; wf_fields
  | |- bytewise (gets _) => apply bytewise_gets; wf_fields
  | |- bytewise (if ?b then _ else _) => destruct b
  | |- bytewise (let _ := _ in _) => cbv zeta
  | |- bytewise ?m =>
      first [ solve [ auto 8 with m6502_bytewise m6502_bytes nocore ]
            | let h := head_of m in unfold h ]
  end.

Ltac bytewise_auto := repeat bytewise_step.

Section BytewiseOps.
Context {B : Type} `{BusBytes B}.

Local Abbreviation bw := (bytewise (B:=B)).

Lemma bytewise_cost (n : Z) : bw (cost n).
Proof. unfold cost. bytewise_auto. Qed.
#[local] Hint Resolve bytewise_cost : m6502_bytewise.

Lemma bytewise_setPC (l h : Z) : is_byte l -> is_byte h -> bw (setPC l h).
Proof. intros. unfold setPC. bytewise_auto. Qed.
#[local] Hint Resolve bytewise_setPC : m6502_bytewise.

Lemma bytewise_incPC : bw (incPC).
Proof. unfold incPC. bytewise_auto. Qed.
#[local] Hint Resolve bytewise_incPC : m6502_bytewise.

Lemma bytewise_read (l h : Z) : bw (read l h).
Proof. unfold read. bytewise_auto. Qed.
#[local] Hint Resolve bytewise_read : m6502_bytewise.

Lemma bytewise_zread (l : Z) : bw (zread l).
Proof. unfold zread. bytewise_auto. Qed.
#[local] Hint Resolve bytewise_zread : m6502_bytewise.

Lemma bytewise_vread (l : Z) : bw (vread l).
Proof. unfold vread. bytewise_auto. Qed.
#[local] Hint Resolve bytewise_vread : m6502_bytewise.

Lemma bytewise_write (l h b : Z) : bw (write l h b).
Proof. unfold write. bytewise_auto. Qed.
#[local] Hint Resolve bytewise_write : m6502_bytewise.

Lemma bytewise_zwrite (l b : Z) : bw (zwrite l b).
Proof. unfold zwrite. bytewise_auto. Qed.
#[local] Hint Resolve bytewise_zwrite : m6502_bytewise.

Lemma bytewise_fetch : bw (fetch).
Proof. unfold fetch. bytewise_auto. Qed.
#[local] Hint Resolve bytewise_fetch : m6502_bytewise.

Lemma bytewise_setF (c : bool) (f : Z) : is_byte f -> bw (setF c f).
Proof. intros. unfold setF. bytewise_auto. Qed.
#[local] Hint Resolve bytewise_setF : m6502_bytewise.

Lemma bytewise_hasF (f : Z) : bw (hasF f).
Proof. unfold hasF. bytewise_auto. Qed.
#[local] Hint Resolve bytewise_hasF : m6502_bytewise.

Lemma bytewise_setC (c : bool) : bw (setC c).
Proof. unfold setC. bytewise_auto. Qed.
#[local] Hint Resolve bytewise_setC : m6502_bytewise.

Lemma bytewise_setI (c : bool) : bw (setI c).
Proof. unfold setI. bytewise_auto. Qed.
#[local] Hint Resolve bytewise_setI : m6502_bytewise.

Lemma bytewise_setN (b : Z) : bw (setN b).
Proof. unfold setN. bytewise_auto. Qed.
#[local] Hint Resolve bytewise_setN : m6502_bytewise.

Lemma bytewise_setNZ (b : Z) : is_byte b -> bw (setNZ b).
Proof. intros. unfold setNZ. bytewise_auto. Qed.
#[local] Hint Resolve bytewise_setNZ : m6502_bytewise.

Lemma bytewise_setA (b : Z) : is_byte b -> bw (setA b).
Proof. intros. unfold setA. bytewise_auto. Qed.
#[local] Hint Resolve bytewise_setA : m6502_bytewise.

Lemma bytewise_setX (b : Z) : is_byte b -> bw (setX b).
Proof. intros. unfold setX. bytewise_auto. Qed.
#[local] Hint Resolve bytewise_setX : m6502_bytewise.

Lemma bytewise_setY (b : Z) : is_byte b -> bw (setY b).
Proof. intros. unfold setY. bytewise_auto. Qed.
#[local] Hint Resolve bytewise_setY : m6502_bytewise.

Lemma bytewise_setS (b : Z) : is_byte b -> bw (setS b).
Proof. intros. unfold setS. bytewise_auto. Qed.
#[local] Hint Resolve bytewise_setS : m6502_bytewise.

Lemma bytewise_setHalted (h : bool) : bw (setHalted h).
Proof. unfold setHalted. bytewise_auto. Qed.
#[local] Hint Resolve bytewise_setHalted : m6502_bytewise.

Lemma bytewise_push (b : Z) : bw (push b).
Proof. unfold push. bytewise_auto. Qed.
#[local] Hint Resolve bytewise_push : m6502_bytewise.

Lemma bytewise_pop : bw (pop).
Proof. unfold pop. bytewise_auto. Qed.
#[local] Hint Resolve bytewise_pop : m6502_bytewise.

Lemma bytewise_pushPC : bw (pushPC).
Proof. unfold pushPC. bytewise_auto. Qed.
#[local] Hint Resolve bytewise_pushPC : m6502_bytewise.

Lemma bytewise_popPC : bw (popPC).
Proof. unfold popPC. bytewise_auto. Qed.
#[local] Hint Resolve bytewise_popPC : m6502_bytewise.

Lemma bytewise_php : bw (php).
Proof. unfold php. bytewise_auto. Qed.
#[local] Hint Resolve bytewise_php : m6502_bytewise.

Lemma bytewise_plp : bw (plp).
Proof. unfold plp. bytewise_auto. Qed.
#[local] Hint Resolve bytewise_plp : m6502_bytewise.

Lemma bytewise_cmp (a b : Z) : bw (cmp a b).
Proof. unfold cmp. bytewise_auto. Qed.
#[local] Hint Resolve bytewise_cmp : m6502_bytewise.

Lemma bytewise_bit (b : Z) : bw (bit b).
Proof. unfold bit. bytewise_auto. Qed.
#[local] Hint Resolve bytewise_bit : m6502_bytewise.

Lemma bytewise_asl (b : Z) : bw (asl b).
Proof. unfold asl. bytewise_auto. Qed.
#[local] Hint Resolve bytewise_asl : m6502_bytewise.

Lemma bytewise_lsr (b : Z) : is_byte b -> bw (lsr b).
Proof. intros. unfold lsr. bytewise_auto. Qed.
#[local] Hint Resolve bytewise_lsr : m6502_bytewise.

Lemma bytewise_rol (b : Z) : bw (rol b).
Proof. unfold rol. bytewise_auto. Qed.
#[local] Hint Resolve bytewise_rol : m6502_bytewise.

Lemma bytewise_ror (b : Z) : is_byte b -> bw (ror b).
Proof. intros. unfold ror. bytewise_auto. Qed.
#[local] Hint Resolve bytewise_ror : m6502_bytewise.

Lemma bytewise_abs : bw (abs).
Proof. unfold abs. bytewise_auto. Qed.
#[local] Hint Resolve bytewise_abs : m6502_bytewise.

Lemma bytewise_absN (n : Z) : bw (absN n).
Proof. unfold absN. bytewise_auto. Qed.
#[local] Hint Resolve bytewise_absN : m6502_bytewise.

Lemma bytewise_relN (n : Z) : bw (relN n).
Proof. unfold relN. bytewise_auto. Qed.
#[local] Hint Resolve bytewise_relN : m6502_bytewise.

Lemma bytewise_indY : bw (indY).
Proof. unfold indY. bytewise_auto. Qed.
#[local] Hint Resolve bytewise_indY : m6502_bytewise.

Lemma bytewise_indX : bw (indX).
Proof. unfold indX. bytewise_auto. Qed.
#[local] Hint Resolve bytewise_indX : m6502_bytewise.

Lemma bytewise_adc (b : Z) : bw (adc b).
Proof. unfold adc. bytewise_auto. Qed.
#[local] Hint Resolve bytewise_adc : m6502_bytewise.

Lemma bytewise_sbc (b : Z) : bw (sbc b).
Proof. unfold sbc. bytewise_auto. Qed.
#[local] Hint Resolve bytewise_sbc : m6502_bytewise.

Lemma bytewise_branch (c : bool) : bw (branch c).
Proof. unfold branch. bytewise_auto. Qed.
#[local] Hint Resolve bytewise_branch : m6502_bytewise.

Lemma bytewise_invalid (pcl pch : Z) : bw (invalid pcl pch).
Proof. unfold invalid. bytewise_auto. Qed.
#[local] Hint Resolve bytewise_invalid : m6502_bytewise.

Lemma bytewise_switch (pcl pch op : Z) : bw (switch pcl pch op).
Proof.
  opcode_tree op; cbv beta iota delta [switch]; unfold fall; bytewise_auto.
Qed.

Lemma bytewise_tick : bw tick.
Proof.
  unfold tick.
  apply bytewise_bind; [ bytewise_auto | intros _ _ ].
  apply bytewise_bind; [ bytewise_auto | intros pcl _ ].
  apply bytewise_bind; [ bytewise_auto | intros pch _ ].
  apply bytewise_bind; [ bytewise_auto | intros op _ ].
  apply bytewise_bind; [ apply bytewise_switch | intros [e | ] _ ]; bytewise_auto.
Qed.

Lemma bytewise_Step (c : CPU B) : wf_cpu c -> wf_cpu (fst (Step c)).
Proof.
  intros Hc. unfold Step. destruct (cpu_halted c); [ exact Hc | ].
  pose proof (proj1 (bytewise_tick c Hc)) as Ht.
  destruct (tick c) as [c1 [[e|]|[msg|]]]; exact Ht.
Qed.

Lemma bytewise_Reset : bw Reset.
Proof. unfold Reset. bytewise_auto. Qed.

Lemma bytewise_interrupt (l h : Z) : is_byte l -> is_byte h -> bw (interrupt l h).
Proof. intros Hl Hh. unfold interrupt. bytewise_auto. Qed.

Lemma bytewise_NMI : bw NMI.
Proof. unfold NMI. bytewise_auto. Qed.

Lemma bytewise_IRQ : bw IRQ.
Proof. unfold IRQ. bytewise_auto. Qed.

End BytewiseOps.

(** Under a bus that answers with bytes, every register of every
    reachable CPU holds a byte: the byte hypotheses of the theorems of
    this file hold on every state a caller can reach. *)
Lemma reachable_wf_cpu {B : Type} `{BusBytes B} (c : CPU B) : reachable c -> wf_cpu c.
Proof.
  induction 1 as [b c Hn | c _ IH | c _ IH | c _ IH | c _ IH | c lo hi Hlo Hhi _ IH | c b _ IH].
  - unfold New in Hn.
    assert (Hz : wf_cpu (mkCPU b 0 0 0 0 0 0 0 0 false)) by (unfold wf_cpu; cbn; repeat split; lia).
    pose proof (proj1 (bytewise_Reset _ Hz)) as Hk. rewrite Hn in Hk. exact Hk.
  - apply bytewise_Reset. exact IH.
  - apply bytewise_Step. exact IH.
  - apply bytewise_NMI. exact IH.
  - apply bytewise_IRQ. exact IH.
  - destruct c as [b0 a x y s p pcl pch cyc hl]. unfold wf_cpu in *. cbn in *. tauto.
  - destruct c as [b0 a x y s p pcl pch cyc hl]. exact IH.
Qed.

(** ** Pushing and pulling the status *)

Lemma mem_get_put (m : memoryBus) (i v : Z) : mem_get (mem_put m i v) i = byte v.
Proof. unfold mem_get, mem_put. cbn [mem]. rewrite lookup_insert_eq. reflexivity. Qed.

Lemma pushed_status_is_byte (p : Z) : is_byte p -> byte (Z.lor (Z.lor p flagU) flagB) = Z.lor (Z.lor p flagU) flagB.
Proof.
  intros Hp. apply Z.eqb_eq. revert p Hp. refine (all_bytes_spec _ _).
  vm_compute. reflexivity.
Qed.

Lemma pulled_status (p : Z) :
  is_byte p ->
  Z.land (Z.lor (Z.lor p flagU) flagB) (not8 (Z.lor flagU flagB))
  = Z.land p (not8 (Z.lor flagU flagB)).
Proof.
  intros Hp. apply Z.eqb_eq. revert p Hp. refine (all_bytes_spec _ _).
  vm_compute. reflexivity.
Qed.

Lemma UB_clear_mask_id (p : Z) :
  is_byte p -> Z.land p (Z.lor flagU flagB) = 0 -> Z.land p (not8 (Z.lor flagU flagB)) = p.
Proof.
  intros Hp H0. apply Z.eqb_eq.
  assert (Himp : implb (Z.land p (Z.lor flagU flagB) =? 0)
                       (Z.land p (not8 (Z.lor flagU flagB)) =? p) = true).
  { clear H0. revert p Hp. refine (all_bytes_spec _ _). vm_compute. reflexivity. }
  apply Z.eqb_eq in H0. rewrite H0 in Himp. exact Himp.
Qed.

Lemma pop_after_push (s : Z) : is_byte s -> add8 (sub8 s 1) 1 = s.
Proof. unfold is_byte, add8, sub8, byte. intros Hs. Z.div_mod_to_equations. lia. Qed.

Section Status.
Context {B : Type} `{Bus B}.

(** C8. In every state reachable through [New], [Reset], [Step], [NMI],
    [IRQ] and [PC] the U and B bits of the live status register are
    clear. [php] writes [P | U | B] to the stack; [plp] loads the popped
    byte with U and B masked off; and on a memory bus [php] followed by
    [plp] leaves [P | U | B] on the stack and the live P with U and B
    cleared (the P it started from, when that had them clear). *)
Theorem status_U_B_only_on_stack :
  (forall c : CPU B, reachable c -> UB_clear c)
  /\ (forall (c : CPU B) (b' : B),
      bus_Write (bus c) (cpu_s c) 0x01 (Z.lor (Z.lor (cpu_p c) flagU) flagB) = (b', Val tt) ->
      php c = (with_s (sub8 (cpu_s c) 1) (with_cycles (cpu_cycles c + 1) (with_bus b' c)),
               Val tt))
  /\ (forall (c : CPU B) (v : Z) (b' : B),
      bus_Read (bus c) (add8 (cpu_s c) 1) 0x01 = (b', Val v) ->
      plp c = (with_p (Z.land v (not8 (Z.lor flagU flagB)))
                 (with_cycles (cpu_cycles c + 1) (with_s (add8 (cpu_s c) 1) (with_bus b' c))),
               Val tt)
      /\ UB_clear (fst (plp c)))
  /\ (forall c : CPU memoryBus,
      is_byte (cpu_s c) -> is_byte (cpu_p c) ->
      exists c',
        bind php (fun _ => plp) c = (c', Val tt)
        /\ mem_get (bus c') (mem_index (cpu_s c) 0x01) = Z.lor (Z.lor (cpu_p c) flagU) flagB
        /\ cpu_p c' = Z.land (cpu_p c) (not8 (Z.lor flagU flagB))
        /\ UB_clear c' /\ cpu_s c' = cpu_s c
        /\ (UB_clear c -> cpu_p c' = cpu_p c)).
Proof.
  split; [ exact reachable_UB_clear | ].
  split; [ | split ].
  - intros c b' E. destruct c as [b a x y s p pcl pch cyc hl].
    cbn [bus cpu_s cpu_p cpu_cycles] in *. m6502_cbv. rewrite E. reflexivity.
  - intros c v b' E. destruct c as [b a x y s p pcl pch cyc hl].
    cbn [bus cpu_s cpu_p cpu_cycles] in *.
    assert (Hplp : plp (mkCPU b a x y s p pcl pch cyc hl)
                   = (with_p (Z.land v (not8 (Z.lor flagU flagB)))
                        (with_cycles (cyc + 1)
                           (with_s (add8 s 1) (with_bus b' (mkCPU b a x y s p pcl pch cyc hl)))),
                      Val tt)).
    { m6502_cbv. rewrite E. reflexivity. }
    split; [ exact Hplp | ]. rewrite Hplp. apply plp_mask_UB.
  - intros c Hs Hp. destruct c as [m a x y s p pcl pch cyc hl].
    cbn [cpu_s cpu_p] in *.
    eexists. split; [ | split; [ | split; [ | split; [ | split ] ] ] ].
    + m6502_cbv. cbv beta iota zeta delta [bus_Read bus_Write memoryBus_Bus].
      rewrite (pop_after_push s Hs), mem_get_put, (pushed_status_is_byte p Hp),
        (pulled_status p Hp).
      reflexivity.
    + cbn [bus]. rewrite mem_get_put. apply (pushed_status_is_byte p Hp).
    + reflexivity.
    + unfold UB_clear. cbn [cpu_p]. rewrite <- (pulled_status p Hp). apply plp_mask_UB.
    + reflexivity.
    + unfold UB_clear. cbn [cpu_p]. apply (UB_clear_mask_id p Hp).
Qed.

End Status.

(** A new CPU on a memory whose cell [$0100] holds [0xFF] pulls its status
    with [PLP]: the reachable state holds [0xCF], U and B clear. And
    [PHP; PLP] from the status [0xC3]: [0xF3] on the stack, [0xC3] live. *)
Lemma status_U_B_only_on_stack_witness :
  (let m := W 0x00 0x01 [0xFF] (W 0x00 0x04 [0x28] (mkMemoryBus ∅)) in
   let c := fst (Step (fst (PC 0x00 0x04 (fst (New m))))) in
   cpu_p c = 0xCF /\ UB_clear c)
  /\ (let c := with_p 0xC3 (harness [0x08; 0x28]) in
      exists c',
        bind php (fun _ => plp) c = (c', Val tt)
        /\ mem_get (bus c') (mem_index 0xFF 0x01) = 0xF3 /\ cpu_p c' = 0xC3).
Proof.
  pose proof (@status_U_B_only_on_stack memoryBus _) as (Hreach & _ & _ & Hround).
  split.
  - intros m c. split; [ vm_compute; reflexivity | ].
    apply Hreach. apply reach_Step. apply reach_PC; [ byte_closed | byte_closed | ].
    apply (reach_New m). vm_compute. reflexivity.
  - intros c.
    destruct (Hround c) as (c' & Hs & Hm & Hp & _); [ byte_closed | byte_closed | ].
    exists c'. split; [ exact Hs | ]. split; [ exact Hm | rewrite Hp; reflexivity ].
Defined.

(** ** Cycle counts *)

Lemma uadd_carry (a b : Z) :
  is_byte a -> is_byte b ->
  when (add8 a b <? b) 1 0 = (if a + b >? 255 then 1 else 0).
Proof.
  unfold is_byte, when, add8, byte. intros Ha Hb.
  destruct (Z.gtb_spec (a + b) 255) as [Hc | Hc];
    destruct (Z.ltb_spec ((a + b) mod 256) b) as [Hd | Hd];
    try reflexivity; Z.div_mod_to_equations; lia.
Qed.

Section Cycles.
Context {B : Type} `{BusBytes B}.

(** Case analysis on the next access to the bus: it answers or it panics. *)
Ltac bus_case :=
  match goal with
  | |- context [bus_Read ?b ?l ?h] =>
      let E := fresh "E" in
      destruct (bus_Read b l h) as [? [? | [? | ]]] eqn:E;
      [ pose proof (bus_Read_byte _ _ _ _ _ E) | | ]
  | |- context [bus_Write ?b ?l ?h ?v] =>
      destruct (bus_Write b l h v) as [? [[] | [? | ]]]
  end; cbv beta iota zeta.

(** From the states that share an answered first fetch: the rest of the
    instruction, opcode by opcode. *)
Ltac decimal_case :=
  match goal with
  | |- context [if flag_has ?p flagD then _ else _] => destruct (flag_has p flagD)
  end; cbv beta iota zeta.

Lemma switch_cycles_documented (b b1 : B) (a x y s p pcl pch cyc op : Z)
      (c' : CPU B) (n : Z) :
  is_byte x -> is_byte y -> is_byte pcl -> is_byte pch ->
  bus_Read b pcl pch = (b1, Val op) ->
  ~ In op NOP_absoluteX ->
  branch_condition op p = None ->
  Step (mkCPU b a x y s p pcl pch cyc false) = (c', Returned n None) ->
  snd (documented_cycles (mkCPU b a x y s p pcl pch cyc false)) = Val (Some n).
Proof.
  intros Hx Hy Hl Hh E Hnop Hbr. unfold documented_cycles.
  m6502_cbv. rewrite E. cbv beta iota zeta.
  opcode_tree op;
    try (exfalso; apply Hnop; cbv; tauto);
    try discriminate Hbr;
    m6502_switch; cbv beta iota zeta delta [OPCODES e_penalty e_mode e_cycles];
    m6502_cbv;
    repeat (first [ bus_case | decimal_case ]; try (intros Hs; discriminate Hs));
    try (intros Hs; discriminate Hs);
    intros Hs; injection Hs as <- <-;
    rewrite ?uadd_carry by assumption;
    try reflexivity.
Qed.

(** Every instruction that completes, the absolute,X NOP rows apart,
    costs what the table documents for it. *)
Lemma Step_cycles_documented (c c' : CPU B) (n : Z) :
  is_byte (cpu_x c) -> is_byte (cpu_y c) -> is_byte (cpu_pcl c) -> is_byte (cpu_pch c) ->
  (forall b1 op, bus_Read (bus c) (cpu_pcl c) (cpu_pch c) = (b1, Val op) ->
                 ~ In op NOP_absoluteX) ->
  Step c = (c', Returned n None) ->
  snd (documented_cycles c) = Val (Some n).
Proof.
  intros Hx Hy Hl Hh Hnop Hs.
  destruct c as [b a x y s p pcl pch cyc hl].
  cbn [bus cpu_x cpu_y cpu_pcl cpu_pch] in *.
  destruct hl; [ discriminate Hs | ].
  destruct (bus_Read b pcl pch) as [b1 [op | r]] eqn:E.
  2: { exfalso. revert Hs. m6502_cbv. rewrite E. destruct r; discriminate. }
  specialize (Hnop b1 op eq_refl).
  destruct (branch_condition op p) as [taken | ] eqn:Hbr.
  2: { exact (switch_cycles_documented b b1 a x y s p pcl pch cyc op c' n
                Hx Hy Hl Hh E Hnop Hbr Hs). }
  remember (mkCPU b a x y s p pcl pch cyc false) as c eqn:Hc.
  assert (Hhl : cpu_halted c = false) by (subst c; reflexivity).
  assert (Hp : cpu_p c = p) by (subst c; reflexivity).
  assert (Hpcl : cpu_pcl c = pcl) by (subst c; reflexivity).
  assert (Hpch : cpu_pch c = pch) by (subst c; reflexivity).
  assert (Hb : bus c = b) by (subst c; reflexivity).
  rewrite <- Hp in Hbr. rewrite <- Hb, <- Hpcl, <- Hpch in E.
  rewrite <- Hpcl in Hl. rewrite <- Hpch in Hh.
  destruct (bus_Read b1 (fst (next (pc c))) (snd (next (pc c)))) as [b2 [d | r]] eqn:E2.
  2: { exfalso. exact (Step_branch_panic c op taken b1 b2 r Hhl Hbr E E2 c' n Hs). }
  pose proof (bus_Read_byte _ _ _ _ _ E2) as Hd.
  assert (Hr : reads (bus c) [(pc c, op); (next (pc c), d)] b2).
  { cbn [reads fst snd]. exists b1. split; [ exact E | ]. exists b2. split; [ exact E2 | reflexivity ]. }
  pose proof (Step_branch_exec c op d taken b2 Hhl Hbr Hr) as Hex. cbv zeta in Hex.
  rewrite Hex in Hs.
  assert (Hn := f_equal (fun r : CPU B * outcome =>
                           match snd r with Returned k _ => k | Panicked => 0 end) Hs).
  cbn [snd] in Hn.
  destruct (next_next_addr16 (pc c) Hl Hh) as (Hl2 & Hh2 & Ha2).
  pose proof (sadd_target (fst (next (next (pc c)))) (snd (next (next (pc c)))) d Hl2 Hh2 Hd)
    as Hrel.
  cbv zeta in Hrel. rewrite <- surjective_pairing, Ha2 in Hrel.
  destruct Hrel as (_ & _ & _ & Ho & Hcost).
  destruct (branch_condition_row op (cpu_p c) taken Hbr) as [mn Hrow].
  assert (Hdoc : snd (documented_cycles c)
                 = Val (Some (2 + if taken
                                  then (if ((addr16 (pc c) + 2) mod 65536 + signed8 d) mod 65536 / 256
                                           =? (addr16 (pc c) + 2) mod 65536 / 256 then 1 else 2)
                                  else 0))).
  { clear Hex Hs Hn Ho Hcost Ha2 Hl2 Hh2 Hr Hl Hh Hhl. unfold documented_cycles, bind, gets, busRead, ret. unfold pc in *. cbn [fst snd].
    rewrite E. rewrite Hrow.
    cbn [e_penalty e_cycles fst snd bus with_bus cpu_p cpu_pcl cpu_pch].
    rewrite E2. cbn [fst snd bus with_bus cpu_p cpu_pcl cpu_pch].
    rewrite Hbr. destruct taken; reflexivity. }
  rewrite Hdoc. apply f_equal, f_equal. subst n. destruct taken; [ | reflexivity ].
  rewrite Hcost, <- Ho. reflexivity.
Qed.

(** X28. On every state a caller can reach, with a bus that answers
    with bytes, a [Step] that completes on an opcode other than the six
    absolute,X NOPs returns the cycle count the table documents: the
    row's count, the page-crossing cycle of a row marked [*], and one or
    two cycles for a taken branch. *)
Lemma Step_cycles_documented_reachable (c c' : CPU B) (n : Z) :
  reachable c ->
  (forall b1 op, bus_Read (bus c) (cpu_pcl c) (cpu_pch c) = (b1, Val op) ->
                 ~ In op NOP_absoluteX) ->
  Step c = (c', Returned n None) ->
  snd (documented_cycles c) = Val (Some n).
Proof.
  intros Hreach Hnop Hs.
  destruct (reachable_wf_cpu c Hreach) as (_ & Hx & Hy & _ & _ & Hl & Hh).
  exact (Step_cycles_documented c c' n Hx Hy Hl Hh Hnop Hs).
Qed.

End Cycles.

(** ** The absolute,X NOP rows *)

Section NOPAbsoluteX.
Context {B : Type} `{Bus B}.

(** An absolute,X NOP fetches no operand and charges three cycles after
    the opcode fetch, whatever [X] and the bytes after the opcode are. *)
Lemma Step_NOP_absoluteX (c : CPU B) (op : Z) (b1 : B) :
  cpu_halted c = false -> In op NOP_absoluteX ->
  reads (bus c) [(pc c, op)] b1 ->
  Step c = (with_pc (fst (next (pc c))) (snd (next (pc c))) (with_cycles 4 (with_bus b1 c)),
            Returned 4 None).
Proof.
  intros Hh Hop Hr. destruct c as [b a x y s p pcl pch cyc hl].
  cbn [cpu_halted] in Hh. subst hl.
  m6502_cbv_in Hr. m6502_reads Hr.
  cbn [In NOP_absoluteX] in Hop.
  repeat (destruct Hop as [<- | Hop];
          [ m6502_cbv; m6502_bus; m6502_switch; reflexivity | ]).
  destruct Hop.
Qed.

End NOPAbsoluteX.

(** C1. The table documents [0x1C] as NOP absolute,X with [4*] cycles:
    one more when a page boundary is crossed. After a reset to [$0400]
    and [LDX #$01], the instruction [NOP $10FF,X] (bytes [1C FF 10] at
    [$0402]) has its indexed address [$10FF + 1] on the next page and a
    documented count of 5; [Step] returns 4. (For every other row,
    [Step_cycles_documented] shows the documented count.) *)
Theorem NOP_absoluteX_page_cross_not_charged :
  let c := fst (Step (boot [0xA2; 0x01; 0x1C; 0xFF; 0x10])) in
  reachable c
  /\ pc c = (0x02, 0x04) /\ cpu_x c = 0x01
  /\ OPCODES 0x1C = Some (mkEntry NOP AbsoluteX 4 Star)
  /\ snd (documented_cycles c) = Val (Some 5)
  /\ snd (Step c) = Returned 4 None.
Proof.
  intros c.
  split; [ apply reach_Step, (reach_New (bus (boot [0xA2; 0x01; 0x1C; 0xFF; 0x10]))); vm_compute; reflexivity | ].
  split; [ vm_compute; reflexivity | ]. split; [ vm_compute; reflexivity | ].
  split; [ reflexivity | ]. split; [ vm_compute; reflexivity | ].
  rewrite (Step_NOP_absoluteX c 0x1C (bus c)); [ reflexivity | vm_compute; reflexivity | | reads_closed ].
  cbn. tauto.
Qed.

(** ** The test table *)

(** The embedding passes the 354 entries of the repository's test table. *)
Lemma TestCPU_passes : forallb TestCPU.run TestCPU.tests = true.
Proof. vm_compute. reflexivity. Qed.

(** * Further properties *)

(** ** Panics come from the bus, and only HLT halts *)

Section Discipline.
Context {B : Type} `{Bus B} (P : panicval -> Prop).

Lemma disciplined_ret {A} (v : A) : disciplined (B:=B) P (ret v).
Proof. intros c Hc. split; [ exact Hc | intros r Hr; discriminate Hr ]. Qed.

Lemma disciplined_gets {A} (f : CPU B -> A) : disciplined P (gets f).
Proof. intros c Hc. split; [ exact Hc | intros r Hr; discriminate Hr ]. Qed.

Lemma disciplined_bind {A C} (m : M B A) (f : A -> M B C) :
  disciplined P m -> (forall v, disciplined P (f v)) -> disciplined P (bind m f).
Proof.
  intros Hm Hf c Hc. unfold bind. specialize (Hm c Hc).
  destruct (m c) as [c1 [v | r]]; cbn [fst snd] in *.
  - apply Hf. apply Hm.
  - split; [ apply Hm | ]. intros r0 [= <-]. apply Hm. reflexivity.
Qed.

(** An update that does not write the latch. *)
Lemma disciplined_modify (f : CPU B -> CPU B) :
  (forall c, cpu_halted (f c) = cpu_halted c) -> disciplined P (modify f).
Proof.
  intros Hf c Hc. unfold modify. cbn [fst snd]. rewrite Hf.
  split; [ exact Hc | intros r Hr; discriminate Hr ].
Qed.

Hypothesis bus_P : bus_panics_within B P.

Lemma disciplined_busRead (l h : Z) : disciplined P (busRead l h).
Proof.
  intros c Hc. unfold busRead.
  destruct (bus_Read (bus c) l h) as [b' r] eqn:E. cbn [fst snd].
  split; [ destruct c; exact Hc | ].
  intros r0 ->. exact (proj1 bus_P _ _ _ _ _ E).
Qed.

Lemma disciplined_busWrite (l h v : Z) : disciplined P (busWrite l h v).
Proof.
  intros c Hc. unfold busWrite.
  destruct (bus_Write (bus c) l h v) as [b' r] eqn:E. cbn [fst snd].
  split; [ destruct c; exact Hc | ].
  intros r0 ->. exact (proj2 bus_P _ _ _ _ _ _ E).
Qed.

End Discipline.

Create HintDb m6502_disciplined.

Ltac disciplined_step :=
  lazymatch goal with
  | |- disciplined _ (bind _ _) => apply disciplined_bind; [ | intros ? ]
  | |- disciplined _ (ret _) => apply disciplined_ret
  | |- disciplined _ (gets _) => apply disciplined_gets
  | |- disciplined _ (busRead _ _) => apply disciplined_busRead; assumption
  | |- disciplined _ (busWrite _ _ _) => apply disciplined_busWrite; assumption
  | |- disciplined _ (modify _) => apply disciplined_modify; intros []; reflexivity
  | |- disciplined _ (match ?x with (_, _) => _ end) => destruct x
  | |- disciplined _ (if ?b then _ else _) => destruct b
  | |- disciplined _ (let _ := _ in _) => cbv zeta
  | |- disciplined _ ?m =>
      first [ solve [ auto 1 with m6502_disciplined nocore ]
            | let h := head_of m in unfold h ]
  end.

Ltac disciplined_auto := repeat disciplined_step.

Section DisciplineOps.
Context {B : Type} `{Bus B} (P : panicval -> Prop).
Hypothesis bus_P : bus_panics_within B P.

Local Abbreviation disc := (disciplined (B:=B) P).

Lemma disciplined_cost (n : Z) : disc (cost n).
Proof. unfold cost. disciplined_auto. Qed.
#[local] Hint Resolve disciplined_cost : m6502_disciplined.

Lemma disciplined_setPC (l h : Z) : disc (setPC l h).
Proof. unfold setPC. disciplined_auto. Qed.
#[local] Hint Resolve disciplined_setPC : m6502_disciplined.

Lemma disciplined_incPC : disc (incPC).
Proof. unfold incPC. disciplined_auto. Qed.
#[local] Hint Resolve disciplined_incPC : m6502_disciplined.

Lemma disciplined_read (l h : Z) : disc (read l h).
Proof. unfold read. disciplined_auto. Qed.
#[local] Hint Resolve disciplined_read : m6502_disciplined.

Lemma disciplined_zread (l : Z) : disc (zread l).
Proof. unfold zread. disciplined_auto. Qed.
#[local] Hint Resolve disciplined_zread : m6502_disciplined.

Lemma disciplined_vread (l : Z) : disc (vread l).
Proof. unfold vread. disciplined_auto. Qed.
#[local] Hint Resolve disciplined_vread : m6502_disciplined.

Lemma disciplined_write (l h b : Z) : disc (write l h b).
Proof. unfold write. disciplined_auto. Qed.
#[local] Hint Resolve disciplined_write : m6502_disciplined.

Lemma disciplined_zwrite (l b : Z) : disc (zwrite l b).
Proof. unfold zwrite. disciplined_auto. Qed.
#[local] Hint Resolve disciplined_zwrite : m6502_disciplined.

Lemma disciplined_fetch : disc (fetch).
Proof. unfold fetch. disciplined_auto. Qed.
#[local] Hint Resolve disciplined_fetch : m6502_disciplined.

Lemma disciplined_setF (c : bool) (f : Z) : disc (setF c f).
Proof. unfold setF. disciplined_auto. Qed.
#[local] Hint Resolve disciplined_setF : m6502_disciplined.

Lemma disciplined_hasF (f : Z) : disc (hasF f).
Proof. unfold hasF. disciplined_auto. Qed.
#[local] Hint Resolve disciplined_hasF : m6502_disciplined.

Lemma disciplined_setC (c : bool) : disc (setC c).
Proof. unfold setC. disciplined_auto. Qed.
#[local] Hint Resolve disciplined_setC : m6502_disciplined.

Lemma disciplined_setI (c : bool) : disc (setI c).
Proof. unfold setI. disciplined_auto. Qed.
#[local] Hint Resolve disciplined_setI : m6502_disciplined.

Lemma disciplined_setN (b : Z) : disc (setN b).
Proof. unfold setN. disciplined_auto. Qed.
#[local] Hint Resolve disciplined_setN : m6502_disciplined.

Lemma disciplined_setNZ (b : Z) : disc (setNZ b).
Proof. unfold setNZ. disciplined_auto. Qed.
#[local] Hint Resolve disciplined_setNZ : m6502_disciplined.

Lemma disciplined_setA (b : Z) : disc (setA b).
Proof. unfold setA. disciplined_auto. Qed.
#[local] Hint Resolve disciplined_setA : m6502_disciplined.

Lemma disciplined_setX (b : Z) : disc (setX b).
Proof. unfold setX. disciplined_auto. Qed.
#[local] Hint Resolve disciplined_setX : m6502_disciplined.

Lemma disciplined_setY (b : Z) : disc (setY b).
Proof. unfold setY. disciplined_auto. Qed.
#[local] Hint Resolve disciplined_setY : m6502_disciplined.

Lemma disciplined_setS (b : Z) : disc (setS b).
Proof. unfold setS. disciplined_auto. Qed.
#[local] Hint Resolve disciplined_setS : m6502_disciplined.

Lemma disciplined_push (b : Z) : disc (push b).
Proof. unfold push. disciplined_auto. Qed.
#[local] Hint Resolve disciplined_push : m6502_disciplined.

Lemma disciplined_pop : disc (pop).
Proof. unfold pop. disciplined_auto. Qed.
#[local] Hint Resolve disciplined_pop : m6502_disciplined.

Lemma disciplined_pushPC : disc (pushPC).
Proof. unfold pushPC. disciplined_auto. Qed.
#[local] Hint Resolve disciplined_pushPC : m6502_disciplined.

Lemma disciplined_popPC : disc (popPC).
Proof. unfold popPC. disciplined_auto. Qed.
#[local] Hint Resolve disciplined_popPC : m6502_disciplined.

Lemma disciplined_php : disc (php).
Proof. unfold php. disciplined_auto. Qed.
#[local] Hint Resolve disciplined_php : m6502_disciplined.

Lemma disciplined_plp : disc (plp).
Proof. unfold plp. disciplined_auto. Qed.
#[local] Hint Resolve disciplined_plp : m6502_disciplined.

Lemma disciplined_cmp (a b : Z) : disc (cmp a b).
Proof. unfold cmp. disciplined_auto. Qed.
#[local] Hint Resolve disciplined_cmp : m6502_disciplined.

Lemma disciplined_bit (b : Z) : disc (bit b).
Proof. unfold bit. disciplined_auto. Qed.
#[local] Hint Resolve disciplined_bit : m6502_disciplined.

Lemma disciplined_asl (b : Z) : disc (asl b).
Proof. unfold asl. disciplined_auto. Qed.
#[local] Hint Resolve disciplined_asl : m6502_disciplined.

Lemma disciplined_lsr (b : Z) : disc (lsr b).
Proof. unfold lsr. disciplined_auto. Qed.
#[local] Hint Resolve disciplined_lsr : m6502_disciplined.

Lemma disciplined_rol (b : Z) : disc (rol b).
Proof. unfold rol. disciplined_auto. Qed.
#[local] Hint Resolve disciplined_rol : m6502_disciplined.

Lemma disciplined_ror (b : Z) : disc (ror b).
Proof. unfold ror. disciplined_auto. Qed.
#[local] Hint Resolve disciplined_ror : m6502_disciplined.

Lemma disciplined_abs : disc (abs).
Proof. unfold abs. disciplined_auto. Qed.
#[local] Hint Resolve disciplined_abs : m6502_disciplined.

Lemma disciplined_absN (n : Z) : disc (absN n).
Proof. unfold absN. disciplined_auto. Qed.
#[local] Hint Resolve disciplined_absN : m6502_disciplined.

Lemma disciplined_relN (n : Z) : disc (relN n).
Proof. unfold relN. disciplined_auto. Qed.
#[local] Hint Resolve disciplined_relN : m6502_disciplined.

Lemma disciplined_indY : disc (indY).
Proof. unfold indY. disciplined_auto. Qed.
#[local] Hint Resolve disciplined_indY : m6502_disciplined.

Lemma disciplined_indX : disc (indX).
Proof. unfold indX. disciplined_auto. Qed.
#[local] Hint Resolve disciplined_indX : m6502_disciplined.

Lemma disciplined_adc (b : Z) : disc (adc b).
Proof. unfold adc. disciplined_auto. Qed.
#[local] Hint Resolve disciplined_adc : m6502_disciplined.

Lemma disciplined_sbc (b : Z) : disc (sbc b).
Proof. unfold sbc. disciplined_auto. Qed.
#[local] Hint Resolve disciplined_sbc : m6502_disciplined.

Lemma disciplined_branch (c : bool) : disc (branch c).
Proof. unfold branch. disciplined_auto. Qed.
#[local] Hint Resolve disciplined_branch : m6502_disciplined.

Lemma disciplined_invalid (pcl pch : Z) : disc (invalid pcl pch).
Proof. unfold invalid. disciplined_auto. Qed.
#[local] Hint Resolve disciplined_invalid : m6502_disciplined.

Lemma disciplined_switch (pcl pch op : Z) :
  ~ In op HLT_opcodes -> disc (switch pcl pch op).
Proof.
  intros Hn.
  opcode_tree op; cbv beta iota delta [switch];
    first [ solve [ unfold fall; disciplined_auto ]
          | exfalso; apply Hn; cbn [In HLT_opcodes]; tauto ].
Qed.

(** A HLT case sets the latch and does nothing else. *)
Lemma switch_HLT (pcl pch op : Z) (c : CPU B) :
  In op HLT_opcodes -> switch pcl pch op c = (with_halted true c, Val None).
Proof.
  intros Hop. cbn [In HLT_opcodes] in Hop.
  repeat (destruct Hop as [<- | Hop]; [ reflexivity | ]). destruct Hop.
Qed.

Lemma fall_not_error (m : M B unit) (c c' : CPU B) (e : error) :
  fall m c <> (c', Val (Some e)).
Proof.
  unfold fall, bind, ret. destruct (m c) as [c1 [[] | r]]; discriminate.
Qed.

(** Only the [default] case returns an error from inside the switch. *)
Lemma switch_error (pcl pch op : Z) (c c' : CPU B) (e : error) :
  switch pcl pch op c = (c', Val (Some e)) ->
  OPCODES op = None /\ exists b, e = invalid_op_code pch pcl b.
Proof.
  destruct (OPCODES op) as [row | ] eqn:Hop.
  - intros Hs. exfalso. revert Hs.
    opcode_tree op; try discriminate Hop; clear Hop;
      cbv beta iota delta [switch]; apply fall_not_error.
  - rewrite (switch_default pcl pch op Hop). unfold invalid, bind, ret.
    destruct (read pcl pch c) as [c1 [b | r]]; [ | discriminate ].
    intros [= _ <-]. split; [ reflexivity | ]. exists b. reflexivity.
Qed.

Lemma In_HLT_dec (op : Z) : {In op HLT_opcodes} + {~ In op HLT_opcodes}.
Proof. apply (in_dec Z.eq_dec). Qed.

(** [tick] step by step. *)
Lemma tick_eq (c : CPU B) :
  tick c =
  match fetch (with_cycles 0 c) with
  | (c1, Val op) =>
      match switch (cpu_pcl c) (cpu_pch c) op c1 with
      | (c2, Val (Some e)) => (c2, Val (Some e))
      | (c2, Val None) =>
          if cpu_halted c2 then (c2, Val (Some ErrHalted)) else (c2, Val None)
      | (c2, Panic r) => (c2, Panic r)
      end
  | (c1, Panic r) => (c1, Panic r)
  end.
Proof.
  destruct c as [b a x y s p pcl pch cyc hl].
  unfold tick, bind, modify, gets, ret.
  cbn [with_cycles bus cpu_a cpu_x cpu_y cpu_s cpu_p cpu_pcl cpu_pch cpu_halted].
  destruct (fetch _) as [c1 [op | r]]; [ | reflexivity ].
  destruct (switch pcl pch op c1) as [c2 [[e | ] | r]]; try reflexivity.
  destruct (cpu_halted c2); reflexivity.
Qed.

(** What [tick] leaves and returns on a running CPU. *)
Lemma tick_outcome (c : CPU B) :
  cpu_halted c = false ->
  match snd (tick c) with
  | Val None => cpu_halted (fst (tick c)) = false
  | Val (Some e) =>
      (e = ErrHalted /\ cpu_halted (fst (tick c)) = true)
      \/ (cpu_halted (fst (tick c)) = false
          /\ exists b, e = invalid_op_code (cpu_pch c) (cpu_pcl c) b)
  | Panic r => cpu_halted (fst (tick c)) = false /\ P r
  end.
Proof.
  intros Hc. rewrite tick_eq.
  assert (H0 : cpu_halted (with_cycles 0 c) = false) by (destruct c; exact Hc).
  pose proof (disciplined_fetch (with_cycles 0 c) H0) as [Hf1 Hf2].
  destruct (fetch (with_cycles 0 c)) as [c1 [op | r]]; cbn [fst snd] in *.
  2: { split; [ exact Hf1 | apply Hf2; reflexivity ]. }
  destruct (In_HLT_dec op) as [Hop | Hop].
  - rewrite (switch_HLT (cpu_pcl c) (cpu_pch c) op c1 Hop).
    destruct c1. cbn. left. split; reflexivity.
  - pose proof (disciplined_switch (cpu_pcl c) (cpu_pch c) op Hop c1 Hf1) as [Hs1 Hs2].
    pose proof (switch_error (cpu_pcl c) (cpu_pch c) op c1) as He.
    destruct (switch (cpu_pcl c) (cpu_pch c) op c1) as [c2 [[e | ] | r]]; cbn [fst snd] in *.
    + right. split; [ exact Hs1 | ]. exact (proj2 (He c2 e eq_refl)).
    + rewrite Hs1. cbn [fst snd]. exact Hs1.
    + split; [ exact Hs1 | apply Hs2; reflexivity ].
Qed.

End DisciplineOps.

Section StepOutcome.
Context {B : Type} `{Bus B}.

(** X1. Whatever the bus does, the CPU is halted after a [Step] exactly
    when that [Step] returned [ErrHalted]: a [Step] that completes, that
    reports an invalid opcode or a failure of the bus, or that panics,
    leaves a running CPU running. *)
Theorem Step_halted_iff_ErrHalted (c c' : CPU B) (o : outcome) :
  Step c = (c', o) ->
  (cpu_halted c' = true <-> exists n, o = Returned n (Some ErrHalted)).
Proof.
  unfold Step. destruct (cpu_halted c) eqn:Hc.
  - intros [= <- <-]. split; [ intros _; exists 0; reflexivity | intros _; exact Hc ].
  - assert (HP : bus_panics_within B (fun _ => True)) by (split; intros; exact I).
    pose proof (tick_outcome (fun _ => True) HP c Hc) as Ht.
    destruct (tick c) as [c1 [[e | ] | [msg | ]]]; cbn [fst snd] in Ht; intros [= <- <-].
    + destruct Ht as [[-> Hh] | [Hh [b ->]]].
      * split; [ intros _; exists 0; reflexivity | intros _; exact Hh ].
      * rewrite Hh. split; [ discriminate | intros [n Hn]; discriminate Hn ].
    + rewrite Ht. split; [ discriminate | intros [n Hn]; discriminate Hn ].
    + rewrite (proj1 Ht). split; [ discriminate | intros [n Hn]; discriminate Hn ].
    + rewrite (proj1 Ht). split; [ discriminate | intros [n Hn]; discriminate Hn ].
Qed.

(** X2. Every failure of [Step] other than [ErrHalted] and the invalid
    opcode comes from the bus: when every value the bus panics with
    satisfies [P], an error [errors.New(msg)] returned by [Step] has
    [P msg], and [Step] itself panics only if the bus can panic with a
    value that is not a string. Every other error is [ErrHalted] or the
    invalid-opcode error for the program counter [Step] started at. *)
Theorem Step_failures_come_from_the_bus (P : panicval -> Prop) (c c' : CPU B) (o : outcome) :
  bus_panics_within B P ->
  Step c = (c', o) ->
  match o with
  | Returned _ None => True
  | Returned _ (Some ErrHalted) => True
  | Returned _ (Some (Errorf m)) =>
      exists b, Errorf m = invalid_op_code (cpu_pch c) (cpu_pcl c) b
  | Returned _ (Some (ErrorsNew msg)) => P (PanicString msg)
  | Panicked => P PanicOther
  end.
Proof.
  intros HP. unfold Step. destruct (cpu_halted c) eqn:Hc.
  - intros [= <- <-]. exact I.
  - pose proof (tick_outcome P HP c Hc) as Ht.
    destruct (tick c) as [c1 [[e | ] | [msg | ]]]; cbn [fst snd] in Ht; intros [= <- <-].
    + destruct Ht as [[-> Hh] | [Hh [b ->]]]; [ exact I | ].
      exists b. reflexivity.
    + exact I.
    + apply Ht.
    + apply Ht.
Qed.

End StepOutcome.

(** On the panicking bus of the tests every value of a panic is the
    string ["foo"]: the error of the first [Step] after [Reset], which
    fetches at a zero low byte, carries that message. *)
Lemma Step_failures_come_from_the_bus_witness :
  match snd (Step (mkCPU mkPanicBus 0 0 0 0xFF 0 0 0 0 false)) with
  | Returned _ (Some (ErrorsNew msg)) => PanicString msg = PanicString "foo"
  | _ => False
  end.
Proof.
  assert (HP : bus_panics_within panicBus (fun r => r = PanicString "foo")).
  { split.
    - intros b l h b' r. cbn. destruct (l =? 0); intros [= _ <-]. reflexivity.
    - intros b l h v b' r. cbn. discriminate. }
  exact (Step_failures_come_from_the_bus _ (mkCPU mkPanicBus 0 0 0 0xFF 0 0 0 0 false)
           _ _ HP (surjective_pairing _)).
Defined.

(** The first [Step] of a program that starts with HLT. *)
Lemma Step_halted_iff_ErrHalted_witness :
  cpu_halted (fst (Step (boot [0x02]))) = true.
Proof.
  apply (Step_halted_iff_ErrHalted (boot [0x02]) _ _ (surjective_pairing _)).
  exists 0. vm_compute. reflexivity.
Defined.

(** ** Arithmetic and logic *)

Lemma not8_byte (m : Z) : is_byte m -> not8 m = 255 - m.
Proof.
  intros Hm. apply Z.eqb_eq. revert m Hm. refine (all_bytes_spec _ _).
  vm_compute. reflexivity.
Qed.

Lemma signed8_not8 (m : Z) : is_byte m -> signed8 (255 - m) = - signed8 m - 1.
Proof.
  unfold is_byte, signed8. intros Hm.
  destruct (Z.ltb_spec (255 - m) 128), (Z.ltb_spec m 128); lia.
Qed.

Section SBC.
Context {B : Type} `{Bus B}.

(** X3. With the D flag clear, SBC (here as the immediate instruction
    [0xE9]) stores [(A - m - borrow) mod 256] in A, where the borrow is 1
    when the carry is clear; it sets C iff the difference did not go
    below zero, V iff the signed difference left the range of a signed
    byte, and N and Z from the result. *)
Theorem SBC_binary (c : CPU B) (m : Z) (b2 : B) :
  cpu_halted c = false -> is_byte (cpu_a c) -> is_byte m ->
  flag_has (cpu_p c) flagD = false ->
  reads (bus c) [(pc c, 0xE9); (next (pc c), m)] b2 ->
  let borrow := if flag_has (cpu_p c) flagC then 0 else 1 in
  let diff := cpu_a c - m - borrow in
  let sdiff := signed8 (cpu_a c) - signed8 m - borrow in
  exists c',
    Step c = (c', Returned 2 None)
    /\ cpu_a c' = diff mod 256
    /\ flag_has (cpu_p c') flagC = (0 <=? diff)
    /\ flag_has (cpu_p c') flagV = negb ((-128 <=? sdiff) && (sdiff <=? 127))
    /\ flag_has (cpu_p c') flagN = negb (Z.land (diff mod 256) 0x80 =? 0)
    /\ flag_has (cpu_p c') flagZ = (diff mod 256 =? 0)
    /\ cpu_x c' = cpu_x c /\ cpu_y c' = cpu_y c /\ cpu_s c' = cpu_s c
    /\ pc c' = next (next (pc c)) /\ bus c' = b2.
Proof.
  intros Hh Ha Hm Hd Hr borrow diff sdiff.
  destruct c as [b a x y s p pcl pch cyc hl].
  cbn [cpu_halted cpu_a cpu_p] in *. subst hl.
  m6502_cbv_in Hr. m6502_reads Hr.
  assert (Hn : is_byte (not8 m)) by (rewrite not8_byte by exact Hm; unfold is_byte in *; lia).
  assert (Hsum : a + not8 m + when (flag_has p flagC) 1 0 = diff + 256).
  { rewrite not8_byte by exact Hm. subst diff borrow. destruct (flag_has p flagC); cbn [when]; lia. }
  assert (Hres : (diff + 256) mod 256 = diff mod 256).
  { rewrite <- (Z.mul_1_l 256) at 1. apply Z.mod_add. lia. }
  eexists. split.
  { m6502_cbv. m6502_bus. m6502_switch. m6502_bus. rewrite Hd. cbv beta iota zeta.
    rewrite Hd. cbv beta iota zeta.
    rewrite (adc_sum16 a (not8 m) _ Ha Hn (carry_in_range _)). reflexivity. }
  cbn [cpu_a cpu_p cpu_x cpu_y cpu_s bus pc cpu_pcl cpu_pch].
  unfold byte. rewrite Hsum, Hres.
  repeat split; try reflexivity; flag_simpl; try reflexivity.
  - destruct (Z.gtb_spec (diff + 256) 255), (Z.leb_spec 0 diff); lia.
  - pose proof (adc_overflow_signed a (not8 m) (flag_has p (Z.shiftl 1 0)) Ha Hn) as Hv.
    cbv zeta in Hv.
    replace (a + not8 m + (if flag_has p (Z.shiftl 1 0) then 1 else 0)) with (diff + 256) in Hv
      by (rewrite <- Hsum; reflexivity).
    rewrite Hres in Hv. rewrite Hv.
    rewrite not8_byte, signed8_not8 by exact Hm.
    replace (signed8 a + (- signed8 m - 1) + (if flag_has p (Z.shiftl 1 0) then 1 else 0))
      with sdiff; [ reflexivity | ].
    subst sdiff borrow. unfold flagC. destruct (flag_has p (Z.shiftl 1 0)); lia.
Qed.

End SBC.

(** [SEC; SBC #$01] with A = 0: A = 0xFF, N set, C clear (a borrow), V
    clear. *)
Lemma SBC_binary_witness :
  let c1 := fst (Step (harness [0x38; 0xE9; 0x01])) in
  exists c',
    Step c1 = (c', Returned 2 None)
    /\ cpu_a c' = 0xFF
    /\ flag_has (cpu_p c') flagC = false /\ flag_has (cpu_p c') flagV = false
    /\ flag_has (cpu_p c') flagN = true.
Proof.
  intros c1.
  assert (Hh : cpu_halted c1 = false) by (vm_compute; reflexivity).
  assert (Ha : is_byte (cpu_a c1)) by byte_closed.
  assert (Hm : is_byte 0x01) by byte_closed.
  assert (Hd : flag_has (cpu_p c1) flagD = false) by (vm_compute; reflexivity).
  assert (Hr : reads (bus c1) [(pc c1, 0xE9); (next (pc c1), 0x01)] (bus c1)) by reads_closed.
  destruct (SBC_binary c1 0x01 (bus c1) Hh Ha Hm Hd Hr)
    as (c' & Hs & HA & HC & HV & HN & _).
  exists c'. split; [ exact Hs | ].
  rewrite HA, HC, HV, HN. vm_compute. repeat split; reflexivity.
Defined.

(** ** Decimal mode on packed BCD operands *)

Lemma bcd_bytes_spec (b : Z) : is_bcd b -> In b bcd_bytes.
Proof.
  unfold is_bcd, bcd_bytes. intros (H0 & Hh & Hl).
  apply in_map_iff. exists (bcd_value b). split.
  - unfold bcd_encode, bcd_value.
    replace ((10 * (b / 16) + b mod 16) / 10) with (b / 16)
      by (Z.div_mod_to_equations; lia).
    replace ((10 * (b / 16) + b mod 16) mod 10) with (b mod 16)
      by (Z.div_mod_to_equations; lia).
    Z.div_mod_to_equations; lia.
  - apply list_elem_of_In, elem_of_seqZ. unfold bcd_value. Z.div_mod_to_equations; lia.
Qed.

Lemma is_bcd_byte (b : Z) : is_bcd b -> is_byte b.
Proof. unfold is_bcd, is_byte. intros (H0 & Hh & Hl). Z.div_mod_to_equations; lia. Qed.

(** A boolean test over all pairs of packed BCD bytes and both carries. *)
Lemma all_bcd_spec (f : Z -> Z -> bool -> bool) :
  forallb (fun a => forallb (fun m => f a m true && f a m false) bcd_bytes) bcd_bytes = true ->
  forall a m cin, is_bcd a -> is_bcd m -> f a m cin = true.
Proof.
  intros Hall a m cin Ha Hm. rewrite forallb_forall in Hall.
  specialize (Hall a (bcd_bytes_spec a Ha)). rewrite forallb_forall in Hall.
  specialize (Hall m (bcd_bytes_spec m Hm)). apply andb_true_iff in Hall.
  destruct cin; tauto.
Qed.

(** The nibble algorithm of [adc] adds packed BCD numbers. *)
Lemma adc_decimal_bcd (a m : Z) (cin : bool) :
  is_bcd a -> is_bcd m ->
  let n := bcd_value a + bcd_value m + (if cin then 1 else 0) in
  bcd_adc_spec a m (if cin then 1 else 0) = (bcd_encode (n mod 100), 100 <=? n).
Proof.
  intros Ha Hm. cbv zeta.
  pose proof (all_bcd_spec
    (fun a m cin =>
       let n := bcd_value a + bcd_value m + (if cin then 1 else 0) in
       (fst (bcd_adc_spec a m (if cin then 1 else 0)) =? bcd_encode (n mod 100))
       && Bool.eqb (snd (bcd_adc_spec a m (if cin then 1 else 0))) (100 <=? n))) as Hall.
  cbv beta zeta in Hall.
  specialize (Hall ltac:(vm_compute; reflexivity) a m cin Ha Hm).
  apply andb_true_iff in Hall. destruct Hall as [H1 H2].
  apply Z.eqb_eq in H1. apply Bool.eqb_prop in H2.
  rewrite (surjective_pairing (bcd_adc_spec _ _ _)), H1, H2. reflexivity.
Qed.

(** The nibble algorithm of [sbc] subtracts packed BCD numbers. *)
Lemma sbc_decimal_bcd (a m : Z) (cin : bool) :
  is_bcd a -> is_bcd m ->
  let n := bcd_value a - bcd_value m - (if cin then 0 else 1) in
  let l := sub8 (sub8 (Z.land a 0x0F) (Z.land m 0x0F)) (when cin 0x00 0x01) in
  let l := sub8 l (when (negb (Z.land l 0x10 =? 0)) 6 0) in
  let h := sub8 (sub8 (Z.shiftr a 4) (Z.shiftr m 4)) (when (negb (Z.land l 0x10 =? 0)) 1 0) in
  let h := sub8 h (when (negb (Z.land h 0x10 =? 0)) 6 0) in
  Z.lor (Z.land l 0x0F) (shl8 h 4) = bcd_encode (n mod 100)
  /\ (Z.land h 0xFF <? 0x0F) = (0 <=? n).
Proof.
  intros Ha Hm. cbv zeta.
  pose proof (all_bcd_spec
    (fun a m cin =>
       let n := bcd_value a - bcd_value m - (if cin then 0 else 1) in
       let l := sub8 (sub8 (Z.land a 0x0F) (Z.land m 0x0F)) (when cin 0x00 0x01) in
       let l := sub8 l (when (negb (Z.land l 0x10 =? 0)) 6 0) in
       let h := sub8 (sub8 (Z.shiftr a 4) (Z.shiftr m 4)) (when (negb (Z.land l 0x10 =? 0)) 1 0) in
       let h := sub8 h (when (negb (Z.land h 0x10 =? 0)) 6 0) in
       (Z.lor (Z.land l 0x0F) (shl8 h 4) =? bcd_encode (n mod 100))
       && Bool.eqb (Z.land h 0xFF <? 0x0F) (0 <=? n))) as Hall.
  cbv beta zeta in Hall.
  specialize (Hall ltac:(vm_compute; reflexivity) a m cin Ha Hm).
  apply andb_true_iff in Hall. destruct Hall as [H1 H2].
  apply Z.eqb_eq in H1. apply Bool.eqb_prop in H2. split; assumption.
Qed.

Section Decimal.
Context {B : Type} `{Bus B}.

(** X4. In decimal mode ADC (here the immediate [0x69]) adds packed BCD
    numbers: for an accumulator and an operand whose nibbles are decimal
    digits, A becomes the packed BCD of the sum modulo 100 and C is set
    iff the sum reached 100. *)
Theorem ADC_decimal_adds_BCD (c : CPU B) (m : Z) (b2 : B) :
  cpu_halted c = false -> is_bcd (cpu_a c) -> is_bcd m ->
  flag_has (cpu_p c) flagD = true ->
  reads (bus c) [(pc c, 0x69); (next (pc c), m)] b2 ->
  let n := bcd_value (cpu_a c) + bcd_value m + (if flag_has (cpu_p c) flagC then 1 else 0) in
  exists c',
    Step c = (c', Returned 2 None)
    /\ is_bcd (cpu_a c') /\ bcd_value (cpu_a c') = n mod 100
    /\ flag_has (cpu_p c') flagC = (100 <=? n).
Proof.
  intros Hh Ha Hm Hd Hr n.
  pose proof (is_bcd_byte _ Ha) as Hab. pose proof (is_bcd_byte _ Hm) as Hmb.
  destruct c as [b a x y s p pcl pch cyc hl].
  cbn [cpu_halted cpu_a cpu_p] in *. subst hl.
  m6502_cbv_in Hr. m6502_reads Hr.
  pose proof (adc_decimal_refines a m (flag_has p flagC) Hab Hmb) as Href.
  cbv zeta in Href.
  rewrite (adc_decimal_bcd a m (flag_has p flagC) Ha Hm) in Href. cbv zeta in Href. fold n in Href.
  injection Href as Hres Hcar.
  assert (Hn : 0 <= n mod 100 < 100) by (apply Z.mod_pos_bound; lia).
  eexists. split.
  { m6502_cbv. m6502_bus. m6502_switch. m6502_bus. rewrite Hd. cbv beta iota zeta.
    rewrite Hres, Hcar. reflexivity. }
  cbn [cpu_a cpu_p]. split; [ | split ].
  - unfold is_bcd, bcd_encode. Z.div_mod_to_equations; lia.
  - unfold bcd_value, bcd_encode. Z.div_mod_to_equations; lia.
  - flag_simpl. reflexivity.
Qed.

(** X5. In decimal mode SBC (here the immediate [0xE9]) subtracts packed
    BCD numbers: A becomes the packed BCD of the difference modulo 100,
    the borrow being 1 when the carry is clear, and C is set iff the
    difference did not go below zero. *)
Theorem SBC_decimal_subtracts_BCD (c : CPU B) (m : Z) (b2 : B) :
  cpu_halted c = false -> is_bcd (cpu_a c) -> is_bcd m ->
  flag_has (cpu_p c) flagD = true ->
  reads (bus c) [(pc c, 0xE9); (next (pc c), m)] b2 ->
  let n := bcd_value (cpu_a c) - bcd_value m - (if flag_has (cpu_p c) flagC then 0 else 1) in
  exists c',
    Step c = (c', Returned 2 None)
    /\ is_bcd (cpu_a c') /\ bcd_value (cpu_a c') = n mod 100
    /\ flag_has (cpu_p c') flagC = (0 <=? n).
Proof.
  intros Hh Ha Hm Hd Hr n.
  destruct c as [b a x y s p pcl pch cyc hl].
  cbn [cpu_halted cpu_a cpu_p] in *. subst hl.
  m6502_cbv_in Hr. m6502_reads Hr.
  pose proof (sbc_decimal_bcd a m (flag_has p flagC) Ha Hm) as Href.
  cbv zeta in Href. fold n in Href. destruct Href as [Hres Hcar].
  assert (Hn : 0 <= n mod 100 < 100) by (apply Z.mod_pos_bound; lia).
  eexists. split.
  { m6502_cbv. m6502_bus. m6502_switch. m6502_bus. rewrite Hd. cbv beta iota zeta.
    rewrite Hres, Hcar. reflexivity. }
  cbn [cpu_a cpu_p]. split; [ | split ].
  - unfold is_bcd, bcd_encode. Z.div_mod_to_equations; lia.
  - unfold bcd_value, bcd_encode. Z.div_mod_to_equations; lia.
  - flag_simpl. reflexivity.
Qed.

End Decimal.

(** [SED; SEC; LDA #$58; ADC #$46]: 58 + 46 + 1 = 105, A = [0x05] with
    the carry set. *)
Lemma ADC_decimal_adds_BCD_witness :
  let c3 := StepN 3 (harness [0xF8; 0x38; 0xA9; 0x58; 0x69; 0x46]) in
  exists c',
    Step c3 = (c', Returned 2 None)
    /\ cpu_a c' = 0x05 /\ flag_has (cpu_p c') flagC = true.
Proof.
  intros c3.
  assert (Hh : cpu_halted c3 = false) by (vm_compute; reflexivity).
  assert (Ha : is_bcd (cpu_a c3)) by (vm_compute; repeat split; discriminate).
  assert (Hm : is_bcd 0x46) by (vm_compute; repeat split; discriminate).
  assert (Hd : flag_has (cpu_p c3) flagD = true) by (vm_compute; reflexivity).
  assert (Hr : reads (bus c3) [(pc c3, 0x69); (next (pc c3), 0x46)] (bus c3)) by reads_closed.
  destruct (ADC_decimal_adds_BCD c3 0x46 (bus c3) Hh Ha Hm Hd Hr)
    as (c' & Hs & (H0 & Hhi & Hlo) & Hv & HC).
  exists c'. split; [ exact Hs | ]. split; [ | rewrite HC; vm_compute; reflexivity ].
  assert (Hv' : bcd_value (cpu_a c') = 5) by (rewrite Hv; vm_compute; reflexivity).
  unfold bcd_value in Hv'. Z.div_mod_to_equations; lia.
Defined.

(** [SED; SEC; LDA #$12; SBC #$34]: 12 - 34 = -22, A = [0x78] with the
    carry clear. *)
Lemma SBC_decimal_subtracts_BCD_witness :
  let c3 := StepN 3 (harness [0xF8; 0x38; 0xA9; 0x12; 0xE9; 0x34]) in
  exists c',
    Step c3 = (c', Returned 2 None)
    /\ cpu_a c' = 0x78 /\ flag_has (cpu_p c') flagC = false.
Proof.
  intros c3.
  assert (Hh : cpu_halted c3 = false) by (vm_compute; reflexivity).
  assert (Ha : is_bcd (cpu_a c3)) by (vm_compute; repeat split; discriminate).
  assert (Hm : is_bcd 0x34) by (vm_compute; repeat split; discriminate).
  assert (Hd : flag_has (cpu_p c3) flagD = true) by (vm_compute; reflexivity).
  assert (Hr : reads (bus c3) [(pc c3, 0xE9); (next (pc c3), 0x34)] (bus c3)) by reads_closed.
  destruct (SBC_decimal_subtracts_BCD c3 0x34 (bus c3) Hh Ha Hm Hd Hr)
    as (c' & Hs & (H0 & Hhi & Hlo) & Hv & HC).
  exists c'. split; [ exact Hs | ]. split; [ | rewrite HC; vm_compute; reflexivity ].
  assert (Hv' : bcd_value (cpu_a c') = 78) by (rewrite Hv; vm_compute; reflexivity).
  unfold bcd_value in Hv'. Z.div_mod_to_equations; lia.
Defined.

(** ** Compare, shift and rotate, BIT, the flag instructions *)

Lemma sub8_zero (r m : Z) : is_byte r -> is_byte m -> (sub8 r m =? 0) = (r =? m).
Proof.
  unfold is_byte, sub8, byte. intros Hr Hm.
  destruct (Z.eqb_spec r m) as [-> | Hne].
  - rewrite Z.sub_diag. reflexivity.
  - apply Z.eqb_neq. Z.div_mod_to_equations; lia.
Qed.

Section Compare.
Context {B : Type} `{Bus B}.

(** X6. CMP, CPX and CPY (immediate) compare a register with the operand
    without changing any register: C is set iff the register is not
    below the operand, Z iff they are equal, N is bit 7 of their
    difference modulo 256; V, D and I are left alone. *)
Theorem compare_sets_flags (c : CPU B) (op r m : Z) (b2 : B) :
  cpu_halted c = false ->
  compare_register op c = Some r -> is_byte r -> is_byte m ->
  reads (bus c) [(pc c, op); (next (pc c), m)] b2 ->
  exists c',
    Step c = (c', Returned 2 None)
    /\ flag_has (cpu_p c') flagC = (m <=? r)
    /\ flag_has (cpu_p c') flagZ = (r =? m)
    /\ flag_has (cpu_p c') flagN = negb (Z.land ((r - m) mod 256) 0x80 =? 0)
    /\ flag_has (cpu_p c') flagV = flag_has (cpu_p c) flagV
    /\ flag_has (cpu_p c') flagD = flag_has (cpu_p c) flagD
    /\ flag_has (cpu_p c') flagI = flag_has (cpu_p c) flagI
    /\ cpu_a c' = cpu_a c /\ cpu_x c' = cpu_x c /\ cpu_y c' = cpu_y c
    /\ cpu_s c' = cpu_s c /\ pc c' = next (next (pc c)).
Proof.
  intros Hh Hop Hrb Hm Hr.
  destruct c as [b a x y s p pcl pch cyc hl].
  cbn [cpu_halted] in *. subst hl.
  m6502_cbv_in Hr. m6502_reads Hr.
  opcode_tree op; try discriminate Hop;
    cbn [compare_register cpu_a cpu_x cpu_y] in Hop; injection Hop as ->;
    (eexists; split;
     [ m6502_cbv; m6502_bus; m6502_switch; m6502_bus; reflexivity | ]);
    cbn [cpu_a cpu_p cpu_x cpu_y cpu_s bus pc cpu_pcl cpu_pch];
    repeat split; try reflexivity; flag_simpl; try reflexivity;
    first [ apply Z.geb_leb | apply sub8_zero; assumption ].
Qed.

End Compare.

(** [LDX #$40; CPX #$41]: X is below the operand, C and Z are clear and N
    is set ([0x40 - 0x41 = 0xFF]). *)
Lemma compare_sets_flags_witness :
  let c1 := fst (Step (harness [0xA2; 0x40; 0xE0; 0x41])) in
  exists c',
    Step c1 = (c', Returned 2 None)
    /\ flag_has (cpu_p c') flagC = false /\ flag_has (cpu_p c') flagZ = false
    /\ flag_has (cpu_p c') flagN = true /\ cpu_x c' = 0x40.
Proof.
  intros c1.
  assert (Hh : cpu_halted c1 = false) by (vm_compute; reflexivity).
  assert (Hop : compare_register 0xE0 c1 = Some 0x40) by (vm_compute; reflexivity).
  assert (Hr : reads (bus c1) [(pc c1, 0xE0); (next (pc c1), 0x41)] (bus c1)) by reads_closed.
  destruct (compare_sets_flags c1 0xE0 0x40 0x41 (bus c1) Hh Hop ltac:(byte_closed)
              ltac:(byte_closed) Hr)
    as (c' & Hs & HC & HZ & HN & _ & _ & _ & _ & HX & _).
  exists c'. split; [ exact Hs | ].
  rewrite HC, HZ, HN, HX. vm_compute. repeat split; reflexivity.
Defined.

Lemma land_flagC (p : Z) : Z.land p flagC = if flag_has p flagC then 1 else 0.
Proof.
  unfold flag_has, flagC. change (Z.shiftl 1 0) with (Z.ones 1).
  rewrite Z.land_ones by lia. change (2 ^ 1) with 2.
  destruct (Z.eqb_spec (p mod 2) 0) as [-> | Hne]; [ reflexivity | ].
  cbn [negb]. Z.div_mod_to_equations; lia.
Qed.

(** The byte arithmetic of the shifts and rotates. *)
Lemma shift_bytes (a : Z) (cin : bool) :
  is_byte a ->
  let c := if cin then 1 else 0 in
  Z.lor (shl8 a 1) c = (2 * a + c) mod 256
  /\ Z.lor (Z.shiftr a 1) (shl8 c 7) = a / 2 + 128 * c
  /\ shl8 a 1 = (2 * a) mod 256
  /\ Z.shiftr a 1 = a / 2
  /\ negb (Z.land a 0x80 =? 0) = (128 <=? a)
  /\ negb (Z.land a 0x01 =? 0) = Z.odd a.
Proof.
  intros Ha.
  assert (Hall : all_bytes (fun a =>
            (Z.lor (shl8 a 1) 1 =? (2 * a + 1) mod 256)
            && (Z.lor (shl8 a 1) 0 =? (2 * a + 0) mod 256)
            && (Z.lor (Z.shiftr a 1) (shl8 1 7) =? a / 2 + 128 * 1)
            && (Z.lor (Z.shiftr a 1) (shl8 0 7) =? a / 2 + 128 * 0)
            && (shl8 a 1 =? (2 * a) mod 256)
            && (Z.shiftr a 1 =? a / 2)
            && Bool.eqb (negb (Z.land a 0x80 =? 0)) (128 <=? a)
            && Bool.eqb (negb (Z.land a 0x01 =? 0)) (Z.odd a)) = true)
    by (vm_compute; reflexivity).
  pose proof (all_bytes_spec _ Hall a Ha) as Hb. cbv beta in Hb.
  repeat (apply andb_true_iff in Hb; destruct Hb as [Hb ?]).
  repeat match goal with
         | H : (_ =? _) = true |- _ => apply Z.eqb_eq in H
         | H : Bool.eqb _ _ = true |- _ => apply Bool.eqb_prop in H
         end.
  destruct cin; cbv zeta; repeat split; assumption.
Qed.

Section Shifts.
Context {B : Type} `{Bus B}.

(** X7. The shifts and rotates of the accumulator: ASL doubles A modulo
    256 and LSR halves it; ROL and ROR do the same with the carry
    entering at the empty end. C receives the bit that left: bit 7 for
    ASL and ROL, bit 0 for LSR and ROR. *)
Theorem shift_rotate_accumulator (c : CPU B) (op r : Z) (cout : bool) (b1 : B) :
  cpu_halted c = false -> is_byte (cpu_a c) ->
  shift_result op (cpu_a c) (if flag_has (cpu_p c) flagC then 1 else 0) = Some (r, cout) ->
  reads (bus c) [(pc c, op)] b1 ->
  exists c',
    Step c = (c', Returned 2 None)
    /\ cpu_a c' = r
    /\ flag_has (cpu_p c') flagC = cout
    /\ flag_has (cpu_p c') flagZ = (r =? 0)
    /\ flag_has (cpu_p c') flagN = negb (Z.land r 0x80 =? 0)
    /\ cpu_x c' = cpu_x c /\ cpu_y c' = cpu_y c /\ cpu_s c' = cpu_s c
    /\ pc c' = next (pc c) /\ bus c' = b1.
Proof.
  intros Hh Ha Hop Hr.
  destruct c as [b a x y s p pcl pch cyc hl].
  cbn [cpu_halted cpu_a cpu_p] in *. subst hl.
  m6502_cbv_in Hr. m6502_reads Hr.
  destruct (shift_bytes a (flag_has p flagC) Ha) as (Hrol & Hror & Hasl & Hlsr & H7 & H0).
  cbv zeta in Hrol, Hror.
  pose proof (land_flagC p) as Hc.
  opcode_tree op; try discriminate Hop;
    cbn [shift_result] in Hop; injection Hop as <- <-;
    (eexists; split;
     [ m6502_cbv; m6502_bus; m6502_switch; m6502_bus; reflexivity | ]);
    cbn [cpu_a cpu_p cpu_x cpu_y cpu_s bus pc cpu_pcl cpu_pch];
    rewrite ?Hc, ?Hrol, ?Hror, ?Hasl, ?Hlsr, ?H7, ?H0;
    repeat split; try reflexivity; flag_simpl; rewrite ?H7, ?H0; reflexivity.
Qed.

(** X8. ROL A followed by ROR A is the identity on the accumulator and
    on the carry: the nine bits rotate left and back. *)
Theorem ROL_then_ROR_restores (c : CPU B) (b2 : B) :
  cpu_halted c = false -> is_byte (cpu_a c) ->
  reads (bus c) [(pc c, 0x2A); (next (pc c), 0x6A)] b2 ->
  exists c1 c2,
    Step c = (c1, Returned 2 None) /\ Step c1 = (c2, Returned 2 None)
    /\ cpu_a c2 = cpu_a c
    /\ flag_has (cpu_p c2) flagC = flag_has (cpu_p c) flagC
    /\ pc c2 = next (next (pc c)).
Proof.
  intros Hh Ha Hr.
  destruct c as [b a x y s p pcl pch cyc hl].
  cbn [cpu_halted cpu_a cpu_p] in *. subst hl.
  m6502_cbv_in Hr. m6502_reads Hr.
  destruct (shift_bytes a (flag_has p flagC) Ha) as (Hrol & _ & _ & _ & H7 & _).
  cbv zeta in Hrol.
  set (cin := if flag_has p flagC then 1 else 0) in *.
  set (r := (2 * a + cin) mod 256) in *.
  assert (Hrb : is_byte r) by apply byte_is_byte.
  destruct (shift_bytes r (128 <=? a) Hrb) as (_ & Hror & _ & _ & _ & H0).
  cbv zeta in Hror.
  pose proof (land_flagC p) as Hc. fold cin in Hc.
  assert (Hcin : 0 <= cin <= 1) by (subst cin; destruct (flag_has p flagC); lia).
  assert (Hback : r / 2 + 128 * (if 128 <=? a then 1 else 0) = a).
  { subst r. unfold is_byte in Ha. destruct (Z.leb_spec 128 a); Z.div_mod_to_equations; lia. }
  assert (Hodd : Z.odd r = flag_has p flagC).
  { subst r cin. unfold is_byte in Ha.
    rewrite <- Z.bit0_odd, Z.testbit_eqb by lia. change (2 ^ 0) with 1. rewrite Z.div_1_r.
    destruct (flag_has p flagC); [ apply Z.eqb_eq | apply Z.eqb_neq ];
      Z.div_mod_to_equations; lia. }
  eexists. eexists. split; [ | split ].
  { m6502_cbv. m6502_bus. m6502_switch. m6502_bus. rewrite Hc, Hrol, H7. fold r. reflexivity. }
  { m6502_cbv. m6502_bus. m6502_switch. m6502_bus. reflexivity. }
  cbn [cpu_a cpu_p pc cpu_pcl cpu_pch].
  split; [ | split ].
  - rewrite land_flagC. flag_simpl. rewrite Hror. exact Hback.
  - flag_simpl. rewrite H0. exact Hodd.
  - reflexivity.
Qed.

End Shifts.

(** [SEC; LDA #$81; ROL A]: A = [0x03] and the carry is set again. *)
Lemma shift_rotate_accumulator_witness :
  let c2 := StepN 2 (harness [0x38; 0xA9; 0x81; 0x2A]) in
  exists c',
    Step c2 = (c', Returned 2 None)
    /\ cpu_a c' = 0x03 /\ flag_has (cpu_p c') flagC = true.
Proof.
  intros c2.
  assert (Hh : cpu_halted c2 = false) by (vm_compute; reflexivity).
  assert (Hr : reads (bus c2) [(pc c2, 0x2A)] (bus c2)) by reads_closed.
  destruct (shift_rotate_accumulator c2 0x2A 0x03 true (bus c2) Hh ltac:(byte_closed)
              ltac:(vm_compute; reflexivity) Hr)
    as (c' & Hs & HA & HC & _).
  exists c'. repeat split; assumption.
Defined.

(** [LDA #$81; ROL A; ROR A] with the carry clear: A is [0x81] again
    and the carry is clear again. *)
Lemma ROL_then_ROR_restores_witness :
  let c1 := fst (Step (harness [0xA9; 0x81; 0x2A; 0x6A])) in
  exists c2 c3,
    Step c1 = (c2, Returned 2 None) /\ Step c2 = (c3, Returned 2 None)
    /\ cpu_a c3 = 0x81 /\ flag_has (cpu_p c3) flagC = false.
Proof.
  intros c1.
  assert (Hh : cpu_halted c1 = false) by (vm_compute; reflexivity).
  assert (Hr : reads (bus c1) [(pc c1, 0x2A); (next (pc c1), 0x6A)] (bus c1)) by reads_closed.
  destruct (ROL_then_ROR_restores c1 (bus c1) Hh ltac:(byte_closed) Hr)
    as (c2 & c3 & Hs1 & Hs2 & HA & HC & _).
  exists c2, c3. split; [ exact Hs1 | ]. split; [ exact Hs2 | ].
  rewrite HA, HC. vm_compute. split; reflexivity.
Defined.

Section FlagsAndTransfers.
Context {B : Type} `{Bus B}.

(** X9. BIT (zero page) copies bits 7 and 6 of the memory operand into N
    and V and sets Z iff the operand and the accumulator have no bit in
    common; the accumulator, the other registers and the flags C, D, I
    stay as they are. It reads the operand in page zero and costs 3
    cycles. *)
Theorem BIT_zeropage (c : CPU B) (zp v : Z) (b3 : B) :
  cpu_halted c = false ->
  reads (bus c) [(pc c, 0x24); (next (pc c), zp); ((zp, 0x00), v)] b3 ->
  exists c',
    Step c = (c', Returned 3 None)
    /\ flag_has (cpu_p c') flagN = Z.testbit v 7
    /\ flag_has (cpu_p c') flagV = Z.testbit v 6
    /\ flag_has (cpu_p c') flagZ = (Z.land v (cpu_a c) =? 0)
    /\ flag_has (cpu_p c') flagC = flag_has (cpu_p c) flagC
    /\ flag_has (cpu_p c') flagD = flag_has (cpu_p c) flagD
    /\ flag_has (cpu_p c') flagI = flag_has (cpu_p c) flagI
    /\ cpu_a c' = cpu_a c /\ cpu_x c' = cpu_x c /\ cpu_y c' = cpu_y c
    /\ cpu_s c' = cpu_s c /\ pc c' = next (next (pc c)) /\ bus c' = b3.
Proof.
  intros Hh Hr.
  destruct c as [b a x y s p pcl pch cyc hl].
  cbn [cpu_halted] in *. subst hl.
  m6502_cbv_in Hr. m6502_reads Hr.
  eexists. split.
  { m6502_cbv. m6502_bus. m6502_switch. m6502_bus. reflexivity. }
  cbn [cpu_a cpu_p cpu_x cpu_y cpu_s bus pc cpu_pcl cpu_pch].
  repeat split; try reflexivity; flag_simpl; try reflexivity.
  - exact (flag_has_testbit v 7 ltac:(lia)).
  - exact (flag_has_testbit v 6 ltac:(lia)).
Qed.

(** X10. CLC, SEC, CLI, SEI, CLV, CLD and SED write one flag and nothing
    else: the flag of the instruction takes its value, every other bit
    of P and every register stay as they are; 2 cycles. *)
Theorem flag_instruction_writes_one_flag (c : CPU B) (op f : Z) (v : bool) (b1 : B) :
  cpu_halted c = false ->
  flag_instruction op = Some (f, v) ->
  reads (bus c) [(pc c, op)] b1 ->
  exists c',
    Step c = (c', Returned 2 None)
    /\ flag_has (cpu_p c') f = v
    /\ (forall k, 0 <= k < 8 -> Z.shiftl 1 k <> f ->
        flag_has (cpu_p c') (Z.shiftl 1 k) = flag_has (cpu_p c) (Z.shiftl 1 k))
    /\ cpu_a c' = cpu_a c /\ cpu_x c' = cpu_x c /\ cpu_y c' = cpu_y c
    /\ cpu_s c' = cpu_s c /\ pc c' = next (pc c) /\ bus c' = b1.
Proof.
  intros Hh Hop Hr.
  destruct c as [b a x y s p pcl pch cyc hl].
  cbn [cpu_halted] in *. subst hl.
  m6502_cbv_in Hr. m6502_reads Hr.
  opcode_tree op; try discriminate Hop;
    cbn [flag_instruction] in Hop; injection Hop as <- <-;
    (eexists; split;
     [ m6502_cbv; m6502_bus; m6502_switch; m6502_bus; reflexivity | ]);
    cbn [cpu_a cpu_p cpu_x cpu_y cpu_s bus pc cpu_pcl cpu_pch];
    (split; [ flag_simpl; reflexivity | ]);
    (split; [ | repeat split; reflexivity ]);
    intros k Hk Hne; unfold flagC, flagI, flagV, flagD in *;
    apply flag_has_set_other; try lia; intros ->; apply Hne; reflexivity.
Qed.

(** X11. TXS copies X into the stack pointer and leaves the whole status
    register alone; TSX, the opposite transfer, sets N and Z from the
    value it copies. *)
Theorem TXS_leaves_flags_TSX_sets_them :
  (forall (c : CPU B) (b1 : B),
      cpu_halted c = false -> reads (bus c) [(pc c, 0x9A)] b1 ->
      Step c = (with_pc (fst (next (pc c))) (snd (next (pc c)))
                  (with_s (cpu_x c) (with_cycles 2 (with_bus b1 c))),
                Returned 2 None))
  /\ (forall (c : CPU B) (b1 : B),
      cpu_halted c = false -> reads (bus c) [(pc c, 0xBA)] b1 ->
      exists c',
        Step c = (c', Returned 2 None)
        /\ cpu_x c' = cpu_s c /\ cpu_s c' = cpu_s c
        /\ flag_has (cpu_p c') flagZ = (cpu_s c =? 0)
        /\ flag_has (cpu_p c') flagN = Z.testbit (cpu_s c) 7).
Proof.
  split.
  - intros c b1 Hh Hr.
    destruct c as [b a x y s p pcl pch cyc hl].
    cbn [cpu_halted] in *. subst hl.
    m6502_cbv_in Hr. m6502_reads Hr.
    m6502_cbv. m6502_bus. m6502_switch. m6502_bus. reflexivity.
  - intros c b1 Hh Hr.
    destruct c as [b a x y s p pcl pch cyc hl].
    cbn [cpu_halted] in *. subst hl.
    m6502_cbv_in Hr. m6502_reads Hr.
    eexists. split.
    { m6502_cbv. m6502_bus. m6502_switch. m6502_bus. reflexivity. }
    cbn [cpu_a cpu_p cpu_x cpu_y cpu_s bus pc cpu_pcl cpu_pch].
    repeat split; try reflexivity; flag_simpl; try reflexivity.
    exact (flag_has_testbit s 7 ltac:(lia)).
Qed.

(** X12. Every NOP row of the table, whatever addressing mode the table
    gives it (implied, immediate, zero page, zero page,X, absolute,
    absolute,X), fetches the opcode and nothing else: the program counter
    moves by one, no operand is read, and the registers, the flags and
    the bus beyond that one read stay as they are. *)
Theorem NOP_fetches_no_operand (c : CPU B) (op : Z) (e : entry) (b1 : B) :
  cpu_halted c = false ->
  OPCODES op = Some e -> e_mnemonic e = NOP ->
  reads (bus c) [(pc c, op)] b1 ->
  Step c = (with_pc (fst (next (pc c))) (snd (next (pc c)))
              (with_cycles (e_cycles e) (with_bus b1 c)),
            Returned (e_cycles e) None).
Proof.
  intros Hh Hop Hmn Hr.
  destruct c as [b a x y s p pcl pch cyc hl].
  cbn [cpu_halted] in *. subst hl.
  m6502_cbv_in Hr. m6502_reads Hr.
  opcode_tree op; try discriminate Hop;
    cbn [OPCODES] in Hop; injection Hop as <-;
    try discriminate Hmn;
    m6502_cbv; m6502_bus; m6502_switch; m6502_bus; reflexivity.
Qed.

End FlagsAndTransfers.

(** ** Addressing modes *)

Lemma split16_indexed (lo hi i : Z) :
  is_byte lo -> is_byte hi -> is_byte i ->
  split16 ((addr16 (lo, hi) + i) mod 65536)
  = (add8 lo i, add8 hi (when (add8 lo i <? i) 1 0)).
Proof.
  intros Hlo Hhi Hi. rewrite (uadd_carry lo i Hlo Hi).
  unfold is_byte, split16, addr16, add8, byte in *. cbn [fst snd].
  destruct (Z.gtb_spec (lo + i) 255); f_equal; Z.div_mod_to_equations; lia.
Qed.

Section Addressing.
Context {B : Type} `{Bus B}.

(** X13. Zero page,X addressing never leaves page zero: LDA oper,X reads
    its operand at [((oper + X) mod 256, 0x00)], so that [LDA $FF,X] with
    [X = 1] reads [$0000] and not [$0100]. 4 cycles. *)
Theorem LDA_zeropageX_wraps (c : CPU B) (zp v : Z) (b3 : B) :
  cpu_halted c = false ->
  reads (bus c) [(pc c, 0xB5); (next (pc c), zp); (((zp + cpu_x c) mod 256, 0x00), v)] b3 ->
  exists c',
    Step c = (c', Returned 4 None)
    /\ cpu_a c' = v /\ pc c' = next (next (pc c)) /\ bus c' = b3.
Proof.
  intros Hh Hr.
  destruct c as [b a x y s p pcl pch cyc hl].
  cbn [cpu_halted cpu_x] in *. subst hl.
  m6502_cbv_in Hr. m6502_reads Hr.
  eexists. split.
  { m6502_cbv. m6502_bus. m6502_switch. m6502_bus. unfold add8, byte. m6502_bus. reflexivity. }
  repeat split; reflexivity.
Qed.

(** X14. (Indirect,X) addressing takes both bytes of its pointer from
    page zero: LDA (oper,X) reads the low byte of the address at
    [(oper + X) mod 256] and the high byte at [(oper + X + 1) mod 256],
    wrapping from [$FF] to [$00], then the operand at that address. 6
    cycles. *)
Theorem LDA_indirectX_pointer_in_page_zero (c : CPU B) (zp lo hi v : Z) (b5 : B) :
  cpu_halted c = false ->
  reads (bus c) [(pc c, 0xA1); (next (pc c), zp);
                 (((zp + cpu_x c) mod 256, 0x00), lo);
                 ((((zp + cpu_x c) mod 256 + 1) mod 256, 0x00), hi);
                 ((lo, hi), v)] b5 ->
  exists c',
    Step c = (c', Returned 6 None)
    /\ cpu_a c' = v /\ pc c' = next (next (pc c)) /\ bus c' = b5.
Proof.
  intros Hh Hr.
  destruct c as [b a x y s p pcl pch cyc hl].
  cbn [cpu_halted cpu_x] in *. subst hl.
  m6502_cbv_in Hr. m6502_reads Hr.
  eexists. split.
  { m6502_cbv. m6502_bus. m6502_switch. m6502_bus. unfold add8, byte. m6502_bus. reflexivity. }
  repeat split; reflexivity.
Qed.

(** X15. (Indirect),Y addressing: LDA (oper),Y reads a 16-bit base from
    page zero at [oper] and [(oper + 1) mod 256] and its operand at the
    base plus Y, modulo 65536 (a base of [$FFFF] wraps to page zero). It
    costs 5 cycles, and 6 when adding Y carried out of the low byte of
    the base. *)
Theorem LDA_indirectY_effective_address (c : CPU B) (zp lo hi v : Z) (b5 : B) :
  cpu_halted c = false -> is_byte (cpu_y c) -> is_byte lo -> is_byte hi ->
  reads (bus c) [(pc c, 0xB1); (next (pc c), zp);
                 ((zp, 0x00), lo); (((zp + 1) mod 256, 0x00), hi);
                 (split16 ((addr16 (lo, hi) + cpu_y c) mod 65536), v)] b5 ->
  exists c',
    Step c = (c', Returned (if lo + cpu_y c >? 0xFF then 6 else 5) None)
    /\ cpu_a c' = v /\ pc c' = next (next (pc c)) /\ bus c' = b5.
Proof.
  intros Hh Hy Hlo Hhi Hr.
  destruct c as [b a x y s p pcl pch cyc hl].
  cbn [cpu_halted cpu_y] in *. subst hl.
  rewrite (split16_indexed lo hi y Hlo Hhi Hy) in Hr.
  m6502_cbv_in Hr. m6502_reads Hr.
  pose proof (uadd_carry lo y Hlo Hy) as Hc.
  destruct (lo + y >? 255);
    (eexists; split;
     [ m6502_cbv; m6502_bus; m6502_switch; m6502_bus; unfold add8 at 1, byte at 1; m6502_bus;
       rewrite Hc; reflexivity
     | repeat split; reflexivity ]).
Qed.

(** X16. The indexed stores always pay for the page crossing: STA oper,X
    (absolute) writes A at the operand plus X modulo 65536 and costs 5
    cycles whether or not the index carried into the high byte. *)
Theorem STA_absoluteX_flat_cost (c : CPU B) (lo hi : Z) (b3 b4 : B) :
  cpu_halted c = false -> is_byte (cpu_x c) -> is_byte lo -> is_byte hi ->
  reads (bus c) [(pc c, 0x9D); (next (pc c), lo); (next (next (pc c)), hi)] b3 ->
  (let a := split16 ((addr16 (lo, hi) + cpu_x c) mod 65536) in
   bus_Write b3 (fst a) (snd a) (cpu_a c) = (b4, Val tt)) ->
  Step c = (with_pc (fst (next (next (next (pc c))))) (snd (next (next (next (pc c)))))
              (with_cycles 5 (with_bus b4 c)),
            Returned 5 None).
Proof.
  intros Hh Hx Hlo Hhi Hr Hw.
  destruct c as [b a x y s p pcl pch cyc hl].
  cbn [cpu_halted cpu_x cpu_a] in *. subst hl.
  rewrite (split16_indexed lo hi x Hlo Hhi Hx) in Hw. cbn [fst snd] in Hw.
  m6502_cbv_in Hr. m6502_reads Hr.
  m6502_cbv. m6502_bus. m6502_switch. m6502_bus. reflexivity.
Qed.

End Addressing.

(** ** The memory bus, the stack and the interrupts *)

Lemma mem_index_addr16 (l h : Z) : is_byte l -> is_byte h -> mem_index l h = addr16 (l, h).
Proof.
  unfold is_byte, mem_index, addr16, uint16. cbn [fst snd]. intros Hl Hh.
  rewrite (Z.mod_small h), (Z.mod_small l) by lia.
  assert (Hs : Z.shiftl h 8 = h * 256) by (rewrite Z.shiftl_mul_pow2 by lia; reflexivity).
  rewrite (Z.mod_small (Z.shiftl h 8)) by lia.
  assert (Hd : Z.land (Z.shiftl h 8) l = 0).
  { apply Z.bits_inj'. intros n Hn. rewrite Z.land_spec, Z.bits_0.
    destruct (Z.lt_ge_cases n 8) as [Hlt | Hge].
    - rewrite Z.shiftl_spec_low by lia. reflexivity.
    - assert (Hb : Z.testbit l n = false).
      { destruct (Z.eq_dec l 0) as [-> | Hne]; [ apply Z.bits_0 | ].
        apply Z.bits_above_log2; [ lia | ].
        apply Z.lt_le_trans with 8; [ apply Z.log2_lt_pow2; lia | lia ]. }
      rewrite Hb. apply andb_false_r. }
  pose proof (Z.add_lor_land (Z.shiftl h 8) l) as Hadd. rewrite Hd in Hadd. lia.
Qed.

Lemma mem_index_inj (l h l' h' : Z) :
  is_byte l -> is_byte h -> is_byte l' -> is_byte h' ->
  mem_index l h = mem_index l' h' -> l = l' /\ h = h'.
Proof.
  intros Hl Hh Hl' Hh'. rewrite !mem_index_addr16 by assumption.
  unfold is_byte, addr16 in *. cbn [fst snd]. lia.
Qed.

Lemma mem_get_put_ne (m : memoryBus) (i j v : Z) :
  i <> j -> mem_get (mem_put m i v) j = mem_get m j.
Proof.
  intros Hne. unfold mem_get, mem_put. cbn [mem]. rewrite lookup_insert_ne by exact Hne.
  reflexivity.
Qed.

Lemma mem_get_byte (m : memoryBus) (i : Z) : is_byte (mem_get m i).
Proof. apply byte_is_byte. Qed.

(** X17. The memory bus of the tests is a memory: a read returns the
    byte last written at the same (low, high) address, and a write at one
    address changes no other address. *)
Theorem memoryBus_read_after_write (m : memoryBus) (l h v l' h' : Z) :
  is_byte l -> is_byte h -> is_byte l' -> is_byte h' -> is_byte v ->
  snd (bus_Read (fst (bus_Write m l h v)) l' h')
  = Val (if (l =? l') && (h =? h') then v else mem_get m (mem_index l' h')).
Proof.
  intros Hl Hh Hl' Hh' Hv. cbn [bus_Read bus_Write memoryBus_Bus fst snd]. f_equal.
  destruct (Z.eqb_spec l l') as [-> | Hne]; [ destruct (Z.eqb_spec h h') as [-> | Hne] | ];
    cbn [andb].
  - rewrite mem_get_put. apply byte_id. exact Hv.
  - apply mem_get_put_ne. intros Hi.
    destruct (mem_index_inj _ _ _ _ Hl' Hh Hl' Hh' Hi). contradiction.
  - apply mem_get_put_ne. intros Hi.
    destruct (mem_index_inj _ _ _ _ Hl Hh Hl' Hh' Hi). contradiction.
Qed.

Lemma memoryBus_read_after_write_witness :
  snd (bus_Read (fst (bus_Write (mkMemoryBus ∅) 0x34 0x12 0x80)) 0x34 0x12) = Val 0x80
  /\ snd (bus_Read (fst (bus_Write (mkMemoryBus ∅) 0x34 0x12 0x80)) 0x12 0x34) = Val 0x00.
Proof.
  split.
  - rewrite (memoryBus_read_after_write (mkMemoryBus ∅) 0x34 0x12 0x80 0x34 0x12);
      [ reflexivity | byte_closed .. ].
  - rewrite (memoryBus_read_after_write (mkMemoryBus ∅) 0x34 0x12 0x80 0x12 0x34);
      [ reflexivity | byte_closed .. ].
Defined.

(** Run the memory bus. *)
Ltac m6502_mem := cbn [bus_Read bus_Write memoryBus_Bus]; cbv beta iota zeta.

(** A cell outside page one is not a cell of the stack. *)
Lemma stack_index_ne (s l h : Z) :
  is_byte s -> is_byte l -> is_byte h -> h <> 0x01 -> mem_index s 0x01 <> mem_index l h.
Proof.
  intros Hs Hl Hh Hne Hi.
  destruct (mem_index_inj s 1 l h Hs ltac:(byte_closed) Hl Hh Hi) as [_ H1]. congruence.
Qed.

Lemma stack_index_ne_stack (s s' : Z) :
  is_byte s -> is_byte s' -> s <> s' -> mem_index s 0x01 <> mem_index s' 0x01.
Proof.
  intros Hs Hs' Hne Hi.
  destruct (mem_index_inj s 1 s' 1 Hs ltac:(byte_closed) Hs' ltac:(byte_closed) Hi) as [H1 _].
  contradiction.
Qed.

Lemma sub8_ne (s : Z) : is_byte s -> sub8 s 1 <> s.
Proof. unfold is_byte, sub8, byte. intros Hs. Z.div_mod_to_equations. lia. Qed.



Lemma sub8_sub8_ne (s : Z) : is_byte s -> sub8 (sub8 s 1) 1 <> s.
Proof. unfold is_byte, sub8, byte. intros Hs. Z.div_mod_to_equations. lia. Qed.

(** The stack after three pushes from [s]. *)
Lemma pushed3 (m : memoryBus) (s v1 v2 v3 : Z) :
  is_byte s -> is_byte v1 -> is_byte v2 -> is_byte v3 ->
  let m3 := mem_put (mem_put (mem_put m (mem_index s 1) v1)
                        (mem_index (sub8 s 1) 1) v2)
              (mem_index (sub8 (sub8 s 1) 1) 1) v3 in
  mem_get m3 (mem_index s 1) = v1
  /\ mem_get m3 (mem_index (sub8 s 1) 1) = v2
  /\ mem_get m3 (mem_index (sub8 (sub8 s 1) 1) 1) = v3
  /\ (forall l h, is_byte l -> is_byte h -> h <> 1 ->
                  mem_get m3 (mem_index l h) = mem_get m (mem_index l h)).
Proof.
  intros Hs H1 H2 H3 m3.
  assert (Hs1 : is_byte (sub8 s 1)) by apply byte_is_byte.
  assert (Hs2 : is_byte (sub8 (sub8 s 1) 1)) by apply byte_is_byte.
  subst m3. repeat split.
  - rewrite mem_get_put_ne
      by (apply stack_index_ne_stack; try assumption; apply sub8_sub8_ne; exact Hs).
    rewrite mem_get_put_ne
      by (apply stack_index_ne_stack; try assumption; apply sub8_ne; exact Hs).
    rewrite mem_get_put. apply byte_id. exact H1.
  - rewrite mem_get_put_ne, mem_get_put; [ apply byte_id; exact H2 | ].
    apply stack_index_ne_stack; try assumption. apply sub8_ne. exact Hs1.
  - rewrite mem_get_put. apply byte_id. exact H3.
  - intros l h Hl Hh Hne.
    rewrite !mem_get_put_ne by (apply stack_index_ne; assumption). reflexivity.
Qed.


Lemma pulled_interrupt_status (p : Z) :
  is_byte p ->
  Z.land (Z.lor p flagU) (not8 (Z.lor flagU flagB)) = Z.land p (not8 (Z.lor flagU flagB)).
Proof.
  intros Hp. apply Z.eqb_eq. revert p Hp. refine (all_bytes_spec _ _).
  vm_compute. reflexivity.
Qed.

Lemma interrupt_status_is_byte (p : Z) : is_byte p -> is_byte (Z.lor p flagU).
Proof.
  intros Hp. unfold is_byte.
  assert (Hb : ((0 <=? Z.lor p flagU) && (Z.lor p flagU <? 256)) = true).
  { revert p Hp. refine (all_bytes_spec _ _). vm_compute. reflexivity. }
  lia.
Qed.


Section IRQ.
Context {B : Type} `{Bus B}.

(** X22. IRQ honours the I flag: with I set it does nothing, not even a
    read of the bus; with I clear it is the interrupt through the
    vector at [$FFFE/$FFFF], which sets I, so that after an IRQ that was
    taken a further IRQ is ignored. NMI is taken whatever I is. *)
Theorem IRQ_masked_by_I :
  (forall c : CPU B, flag_has (cpu_p c) flagI = true -> IRQ c = (c, Val tt))
  /\ (forall c : CPU B, flag_has (cpu_p c) flagI = false ->
      IRQ c = bind (busRead 0xFE 0xFF) (fun l => bind (busRead 0xFF 0xFF) (fun h => interrupt l h)) c)
  /\ (forall c c1 : CPU B, IRQ c = (c1, Val tt) ->
      flag_has (cpu_p c1) flagI = true /\ IRQ c1 = (c1, Val tt))
  /\ (forall c c1 : CPU B, NMI c = (c1, Val tt) ->
      flag_has (cpu_p c1) flagI = true /\ IRQ c1 = (c1, Val tt)).
Proof.
  assert (Hmask : forall c : CPU B, flag_has (cpu_p c) flagI = true -> IRQ c = (c, Val tt)).
  { intros c Hi. unfold IRQ, bind, hasF, gets. rewrite Hi. reflexivity. }
  assert (Hset : forall (l h : Z) (c c1 : CPU B),
             interrupt l h c = (c1, Val tt) -> flag_has (cpu_p c1) flagI = true).
  { intros l h c c1. destruct c as [b a x y s p pcl pch cyc hl].
    m6502_cbv.
    destruct (bus_Write b s 1 pch) as [b1 [[] | r]]; [ | discriminate ].
    destruct (bus_Write b1 (sub8 s 1) 1 pcl) as [b2 [[] | r]]; [ | discriminate ].
    destruct (bus_Write b2 (sub8 (sub8 s 1) 1) 1 (Z.lor p flagU)) as [b3 [[] | r]];
      [ | discriminate ].
    intros [= <-]. cbn [cpu_p].
    rewrite (flag_has_testbit _ 2 ltac:(lia)), Z.lor_spec. apply orb_true_r. }
  split; [ exact Hmask | ]. split; [ | split ].
  - intros c Hi. unfold IRQ at 1. unfold bind at 1. unfold hasF, gets. rewrite Hi. reflexivity.
  - intros c c1 Hirq.
    assert (Hi1 : flag_has (cpu_p c1) flagI = true).
    { destruct (flag_has (cpu_p c) flagI) eqn:Hi.
      - rewrite (Hmask c Hi) in Hirq. injection Hirq as <-. exact Hi.
      - revert Hirq. unfold IRQ, bind at 1, hasF, gets. rewrite Hi. cbn [negb].
        unfold bind at 1. destruct (busRead 254 255 c) as [c2 [l | r]]; [ | discriminate ].
        unfold bind at 1. destruct (busRead 255 255 c2) as [c3 [h | r]]; [ | discriminate ].
        apply Hset. }
    split; [ exact Hi1 | apply Hmask; exact Hi1 ].
  - intros c c1 Hnmi.
    assert (Hi1 : flag_has (cpu_p c1) flagI = true).
    { revert Hnmi. unfold NMI.
      unfold bind at 1. destruct (busRead 250 255 c) as [c2 [l | r]]; [ | discriminate ].
      unfold bind at 1. destruct (busRead 251 255 c2) as [c3 [h | r]]; [ | discriminate ].
      apply Hset. }
    split; [ exact Hi1 | apply Hmask; exact Hi1 ].
Qed.

End IRQ.

(** ** Cycle counts *)

Section CycleBounds.
Context {B : Type} `{Bus B}.

Ltac bus_case :=
  match goal with
  | |- context [bus_Read ?b ?l ?h] =>
      destruct (bus_Read b l h) as [? [? | [? | ]]]
  | |- context [bus_Write ?b ?l ?h ?v] =>
      destruct (bus_Write b l h v) as [? [[] | [? | ]]]
  end; cbv beta iota zeta.

Ltac flag_case :=
  match goal with
  | |- context [if flag_has ?p ?f then _ else _] => destruct (flag_has p f)
  end; cbv beta iota zeta.

Lemma switch_cycles_between (b b1 : B) (a x y s p pcl pch cyc op : Z)
      (c' : CPU B) (n : Z) :
  bus_Read b pcl pch = (b1, Val op) ->
  branch_condition op p = None ->
  Step (mkCPU b a x y s p pcl pch cyc false) = (c', Returned n None) -> 2 <= n <= 7.
Proof.
  intros E Hbr.
  m6502_cbv. rewrite E. cbv beta iota zeta.
  opcode_tree op;
    try discriminate Hbr;
    m6502_switch;
    repeat (first [ bus_case | flag_case ]; try (intros Hs; discriminate Hs));
    try (intros Hs; discriminate Hs);
    intros Hs; injection Hs as _ <-;
    unfold when, add8, byte;
    repeat match goal with
           | |- context [if ?d then _ else _] => destruct d
           end;
    cbn; lia.
Qed.

(** X23. Whatever the registers and the bus hold, a [Step] that
    completes reports at least 2 and at most 7 cycles. *)
Theorem Step_cycles_between_2_and_7 (c c' : CPU B) (n : Z) :
  Step c = (c', Returned n None) -> 2 <= n <= 7.
Proof.
  intros Hs.
  destruct c as [b a x y s p pcl pch cyc hl].
  destruct hl; [ discriminate Hs | ].
  destruct (bus_Read b pcl pch) as [b1 [op | r]] eqn:E.
  2: { exfalso. revert Hs. m6502_cbv. rewrite E. destruct r; discriminate. }
  destruct (branch_condition op p) as [taken | ] eqn:Hbr.
  2: { exact (switch_cycles_between b b1 a x y s p pcl pch cyc op c' n E Hbr Hs). }
  remember (mkCPU b a x y s p pcl pch cyc false) as c eqn:Hc.
  assert (Hhl : cpu_halted c = false) by (subst c; reflexivity).
  assert (Hp : cpu_p c = p) by (subst c; reflexivity).
  assert (Hpcl : cpu_pcl c = pcl) by (subst c; reflexivity).
  assert (Hpch : cpu_pch c = pch) by (subst c; reflexivity).
  assert (Hb : bus c = b) by (subst c; reflexivity).
  rewrite <- Hp in Hbr. rewrite <- Hb, <- Hpcl, <- Hpch in E.
  destruct (bus_Read b1 (fst (next (pc c))) (snd (next (pc c)))) as [b2 [d | r]] eqn:E2.
  2: { exfalso. exact (Step_branch_panic c op taken b1 b2 r Hhl Hbr E E2 c' n Hs). }
  assert (Hr : reads (bus c) [(pc c, op); (next (pc c), d)] b2).
  { cbn [reads fst snd]. exists b1. split; [ exact E | ]. exists b2. split; [ exact E2 | reflexivity ]. }
  pose proof (Step_branch_exec c op d taken b2 Hhl Hbr Hr) as Hex. cbv zeta in Hex.
  rewrite Hex in Hs.
  assert (Hn := f_equal (fun r : CPU B * outcome =>
                           match snd r with Returned k _ => k | Panicked => 0 end) Hs).
  cbn [snd] in Hn. subst n.
  destruct taken; [ | lia ].
  unfold when, add8, byte.
  match goal with |- context [if ?d then _ else _] => destruct d end;
    vm_compute; split; discriminate.
Qed.

End CycleBounds.

(** [INC $10FF,X] with [X = 1], the longest instruction: 7 cycles. *)
Lemma Step_cycles_between_2_and_7_witness :
  exists c', Step (with_x 0x01 (harness [0xFE; 0xFF; 0x10])) = (c', Returned 7 None)
             /\ 2 <= 7 <= 7.
Proof.
  eexists. split; [ vm_compute; reflexivity | ].
  eapply (Step_cycles_between_2_and_7 (with_x 0x01 (harness [0xFE; 0xFF; 0x10]))).
  vm_compute. reflexivity.
Defined.

(** ** The printable forms *)

Lemma hexdigit_inj (n m : Z) :
  0 <= n < 16 -> 0 <= m < 16 -> hexdigit n = hexdigit m -> n = m.
Proof.
  intros Hn Hm He.
  assert (Hall : forallb (fun n => forallb (fun m =>
            implb (Ascii.eqb (hexdigit n) (hexdigit m)) (n =? m)) (seqZ 0 16)) (seqZ 0 16) = true)
    by (vm_compute; reflexivity).
  rewrite forallb_forall in Hall.
  specialize (Hall n ltac:(apply list_elem_of_In, elem_of_seqZ; lia)).
  rewrite forallb_forall in Hall.
  specialize (Hall m ltac:(apply list_elem_of_In, elem_of_seqZ; lia)).
  rewrite He, Ascii.eqb_refl in Hall. cbn [implb] in Hall. apply Z.eqb_eq. exact Hall.
Qed.

Lemma hex02_inj (a b : Z) : is_byte a -> is_byte b -> hex02 a = hex02 b -> a = b.
Proof.
  unfold is_byte, hex02. intros Ha Hb [= H1 H2].
  apply hexdigit_inj in H1; [ | Z.div_mod_to_equations; lia .. ].
  apply hexdigit_inj in H2; [ | Z.div_mod_to_equations; lia .. ].
  Z.div_mod_to_equations; lia.
Qed.

Lemma flag_char_inj (p q f : Z) (ch : ascii) :
  ch <> "-"%char ->
  (if negb (Z.land p f =? 0) then ch else "-"%char)
  = (if negb (Z.land q f =? 0) then ch else "-"%char) ->
  flag_has p f = flag_has q f.
Proof.
  unfold flag_has. intros Hch.
  destruct (Z.land p f =? 0), (Z.land q f =? 0); cbn [negb]; congruence.
Qed.

(** X24. The printed flags are six characters, one per flag N, V, D, I,
    Z, C and a dash where the flag is clear: two status bytes print the
    same iff they agree on these six flags, whatever their U and B
    bits. *)
Theorem flag_String_shows_six_flags (p q : Z) :
  String.length (flag_String p) = 6%nat
  /\ (flag_String p = flag_String q <->
      flag_has p flagN = flag_has q flagN /\ flag_has p flagV = flag_has q flagV
      /\ flag_has p flagD = flag_has q flagD /\ flag_has p flagI = flag_has q flagI
      /\ flag_has p flagZ = flag_has q flagZ /\ flag_has p flagC = flag_has q flagC).
Proof.
  split; [ reflexivity | ]. unfold flag_String. cbv zeta. split.
  - intros [= HN HV HD HI HZ HC].
    repeat split; eapply flag_char_inj; try eassumption; discriminate.
  - unfold flag_has. intros (HN & HV & HD & HI & HZ & HC).
    rewrite HN, HV, HD, HI, HZ, HC. reflexivity.
Qed.

(** X25. The printed form of a CPU determines what it shows: two CPUs
    whose registers are bytes print the same only if they have the same
    program counter, A, X, Y and S and the same six flags. *)
Theorem CPU_String_determines_registers {B} (c1 c2 : CPU B) :
  wf_cpu c1 -> wf_cpu c2 ->
  CPU_String c1 = CPU_String c2 ->
  pc c1 = pc c2 /\ cpu_a c1 = cpu_a c2 /\ cpu_x c1 = cpu_x c2 /\ cpu_y c1 = cpu_y c2
  /\ cpu_s c1 = cpu_s c2 /\ flag_String (cpu_p c1) = flag_String (cpu_p c2).
Proof.
  intros (Ha1 & Hx1 & Hy1 & Hs1 & _ & Hl1 & Hh1) (Ha2 & Hx2 & Hy2 & Hs2 & _ & Hl2 & Hh2).
  destruct c1 as [b1 a1 x1 y1 s1 p1 l1 h1 cyc1 hl1], c2 as [b2 a2 x2 y2 s2 p2 l2 h2 cyc2 hl2].
  unfold CPU_String, pc.
  cbn [cpu_a cpu_x cpu_y cpu_s cpu_p cpu_pcl cpu_pch] in *.
  unfold hex02, flag_String.
  cbn [String.concat String.append]. cbv zeta.
  intros [= Eh1 Eh2 El1 El2 Ea1 Ea2 Ex1 Ex2 Ey1 Ey2 F1 F2 F3 F4 F5 F6 Es1 Es2].
  assert (Hh : hex02 h1 = hex02 h2) by (unfold hex02; congruence).
  assert (Hl : hex02 l1 = hex02 l2) by (unfold hex02; congruence).
  assert (Ha : hex02 a1 = hex02 a2) by (unfold hex02; congruence).
  assert (Hx : hex02 x1 = hex02 x2) by (unfold hex02; congruence).
  assert (Hy : hex02 y1 = hex02 y2) by (unfold hex02; congruence).
  assert (Es : hex02 s1 = hex02 s2) by (unfold hex02; congruence).
  apply hex02_inj in Hh, Hl, Ha, Hx, Hy, Es; try assumption.
  subst. repeat split; try reflexivity.
  unfold flag_String. cbv zeta. congruence.
Qed.

(** The strings the tests expect: [0xFF ^ flagD] prints [NV-IZC], and a
    CPU fresh from [New] on a zeroed memory prints its zero registers;
    so does the same CPU with the U bit set, which is not printed. *)
Lemma CPU_String_determines_registers_witness :
  let c0 := fst (New (mkMemoryBus ∅)) in
  flag_String (Z.lxor 0xFF flagD) = "NV-IZC"%string
  /\ CPU_String c0 = "m6502: PC=0000 A=00 X=00 Y=00 [------] S=FF"%string
  /\ pc c0 = pc (with_p flagU c0).
Proof.
  intros c0.
  split; [ vm_compute; reflexivity | ]. split; [ vm_compute; reflexivity | ].
  apply (CPU_String_determines_registers c0 (with_p flagU c0)).
  - vm_compute. repeat split; discriminate.
  - vm_compute. repeat split; discriminate.
  - vm_compute. reflexivity.
Defined.

(** ** Reset *)

Section ResetProps.
Context {B : Type} `{Bus B}.


(** X27. [Reset] does not recover from a panic of the bus: when the
    read of the low byte of the vector panics, [Reset] (and [New], as
    its comment says) panics with the same value, after S, A, X and Y
    were reset but before the flags, the program counter and the halted
    latch were: a halted CPU is still halted. *)
Theorem Reset_panics_with_the_bus (c : CPU B) (b' : B) (r : panicval) :
  bus_Read (bus c) 0xFC 0xFF = (b', Panic r) ->
  Reset c = (with_y 0 (with_x 0 (with_a 0 (with_s 0xFF (with_bus b' c)))), Panic r)
  /\ cpu_halted (fst (Reset c)) = cpu_halted c
  /\ cpu_p (fst (Reset c)) = cpu_p c
  /\ pc (fst (Reset c)) = pc c
  /\ snd (New (bus c)) = Panic r.
Proof.
  intros E. destruct c as [b a x y s p pcl pch cyc hl]. cbn [bus] in E.
  assert (Hs : Reset (mkCPU b a x y s p pcl pch cyc hl)
               = (mkCPU b' 0 0 0 0xFF p pcl pch cyc hl, Panic r)).
  { m6502_cbv. rewrite E. reflexivity. }
  split; [ exact Hs | ]. rewrite Hs. cbn [fst cpu_halted cpu_p pc cpu_pcl cpu_pch].
  repeat split; try reflexivity.
  cbn [bus]. m6502_cbv. rewrite E. reflexivity.
Qed.

End ResetProps.


(** A halted CPU on a bus with nothing mapped: [Reset] panics and the
    CPU is still halted. *)
Lemma Reset_panics_with_the_bus_witness :
  let c := mkCPU mkUnmappedBus 0x12 0x34 0x56 0x78 0 0x00 0x04 0 true in
  snd (Reset c) = Panic (PanicString "unmapped")
  /\ cpu_halted (fst (Reset c)) = true /\ cpu_a (fst (Reset c)) = 0.
Proof.
  intros c.
  assert (E : bus_Read (bus c) 0xFC 0xFF = (mkUnmappedBus, Panic (PanicString "unmapped")))
    by reflexivity.
  destruct (Reset_panics_with_the_bus c mkUnmappedBus (PanicString "unmapped") E)
    as (Hs & Hh & _).
  rewrite Hh, Hs. repeat split; reflexivity.
Defined.

(** ** The theorems above at concrete programs *)

(** [LDA #$01; BIT $10] with [$0010 = 0xC0]: N and V are set from the
    operand, Z is set since it shares no bit with A. *)
Lemma BIT_zeropage_witness :
  let c0 := harness [0xA9; 0x01; 0x24; 0x10] in
  let c1 := fst (Step (with_bus (W 0x10 0x00 [0xC0] (bus c0)) c0)) in
  exists c',
    Step c1 = (c', Returned 3 None)
    /\ flag_has (cpu_p c') flagN = true /\ flag_has (cpu_p c') flagV = true
    /\ flag_has (cpu_p c') flagZ = true /\ cpu_a c' = 0x01.
Proof.
  intros c0 c1.
  assert (Hh : cpu_halted c1 = false) by (vm_compute; reflexivity).
  assert (Hr : reads (bus c1) [(pc c1, 0x24); (next (pc c1), 0x10); ((0x10, 0x00), 0xC0)] (bus c1))
    by reads_closed.
  destruct (BIT_zeropage c1 0x10 0xC0 (bus c1) Hh Hr)
    as (c' & Hs & HN & HV & HZ & _ & _ & _ & HA & _).
  exists c'. split; [ exact Hs | ].
  rewrite HN, HV, HZ, HA. vm_compute. repeat split; reflexivity.
Defined.

(** [SED] on a fresh CPU: D is set and nothing else. *)
Lemma flag_instruction_writes_one_flag_witness :
  let c := harness [0xF8] in
  exists c',
    Step c = (c', Returned 2 None)
    /\ flag_has (cpu_p c') flagD = true /\ flag_has (cpu_p c') flagC = flag_has (cpu_p c) flagC.
Proof.
  intros c.
  assert (Hh : cpu_halted c = false) by (vm_compute; reflexivity).
  assert (Hr : reads (bus c) [(pc c, 0xF8)] (bus c)) by reads_closed.
  destruct (flag_instruction_writes_one_flag c 0xF8 flagD true (bus c) Hh eq_refl Hr)
    as (c' & Hs & HD & Hother & _).
  exists c'. split; [ exact Hs | ]. split; [ exact HD | ].
  apply (Hother 0); [ lia | discriminate ].
Defined.

(** [LDX #$80; TXS]: S is [0x80] and N, set by LDX, is still set; Z is
    still clear. *)
Lemma TXS_leaves_flags_TSX_sets_them_witness :
  let c1 := fst (Step (harness [0xA2; 0x80; 0x9A])) in
  exists c',
    Step c1 = (c', Returned 2 None) /\ cpu_s c' = 0x80 /\ cpu_p c' = cpu_p c1.
Proof.
  intros c1.
  destruct (@TXS_leaves_flags_TSX_sets_them memoryBus _) as [Htxs _].
  assert (Hh : cpu_halted c1 = false) by (vm_compute; reflexivity).
  assert (Hr : reads (bus c1) [(pc c1, 0x9A)] (bus c1)) by reads_closed.
  eexists. split; [ exact (Htxs c1 (bus c1) Hh Hr) | ].
  split; vm_compute; reflexivity.
Defined.

(** The zero page,X NOP [0x14] with operand bytes behind it: 4 cycles,
    and the program counter is at the operand byte. *)
Lemma NOP_fetches_no_operand_witness :
  let c := harness [0x14; 0x10] in
  exists c',
    Step c = (c', Returned 4 None) /\ pc c' = (0x01, 0x04).
Proof.
  intros c.
  assert (Hh : cpu_halted c = false) by (vm_compute; reflexivity).
  assert (Hr : reads (bus c) [(pc c, 0x14)] (bus c)) by reads_closed.
  eexists. split.
  - exact (NOP_fetches_no_operand c 0x14 (mkEntry NOP ZeropageX 4 Flat) (bus c) Hh eq_refl eq_refl Hr).
  - vm_compute. reflexivity.
Defined.

(** [LDX #$01; LDA $FF,X] with [$0000 = 0x11] and [$0100 = 0x22]: A is
    [0x11]. *)
Lemma LDA_zeropageX_wraps_witness :
  let c0 := harness [0xA2; 0x01; 0xB5; 0xFF] in
  let c1 := fst (Step (with_bus (W 0x00 0x01 [0x22] (W 0x00 0x00 [0x11] (bus c0))) c0)) in
  exists c', Step c1 = (c', Returned 4 None) /\ cpu_a c' = 0x11.
Proof.
  intros c0 c1.
  assert (Hh : cpu_halted c1 = false) by (vm_compute; reflexivity).
  assert (Hr : reads (bus c1) [(pc c1, 0xB5); (next (pc c1), 0xFF);
                               (((0xFF + cpu_x c1) mod 256, 0x00), 0x11)] (bus c1))
    by reads_closed.
  destruct (LDA_zeropageX_wraps c1 0xFF 0x11 (bus c1) Hh Hr) as (c' & Hs & HA & _).
  exists c'. split; assumption.
Defined.

(** [LDX #$01; LDA ($FE,X)] with [$00FF = 0x34], [$0000 = 0x12] and
    [$1234 = 0x77]: the pointer wraps in page zero and A is [0x77]. *)
Lemma LDA_indirectX_pointer_in_page_zero_witness :
  let c0 := harness [0xA2; 0x01; 0xA1; 0xFE] in
  let m := W 0x34 0x12 [0x77] (W 0x00 0x00 [0x12] (W 0xFF 0x00 [0x34] (bus c0))) in
  let c1 := fst (Step (with_bus m c0)) in
  exists c', Step c1 = (c', Returned 6 None) /\ cpu_a c' = 0x77.
Proof.
  intros c0 m c1.
  assert (Hh : cpu_halted c1 = false) by (vm_compute; reflexivity).
  assert (Hr : reads (bus c1) [(pc c1, 0xA1); (next (pc c1), 0xFE);
                               (((0xFE + cpu_x c1) mod 256, 0x00), 0x34);
                               ((((0xFE + cpu_x c1) mod 256 + 1) mod 256, 0x00), 0x12);
                               ((0x34, 0x12), 0x77)] (bus c1))
    by reads_closed.
  destruct (LDA_indirectX_pointer_in_page_zero c1 0xFE 0x34 0x12 0x77 (bus c1) Hh Hr)
    as (c' & Hs & HA & _).
  exists c'. split; assumption.
Defined.

(** [LDY #$01; LDA ($10),Y] with the base [$FFFF] at [$0010] and
    [$0000 = 0x80]: the address wraps to [$0000] and the instruction
    costs 6 cycles. *)
Lemma LDA_indirectY_effective_address_witness :
  let c0 := harness [0xA0; 0x01; 0xB1; 0x10] in
  let m := W 0x00 0x00 [0x80] (W 0x10 0x00 [0xFF; 0xFF] (bus c0)) in
  let c1 := fst (Step (with_bus m c0)) in
  exists c', Step c1 = (c', Returned 6 None) /\ cpu_a c' = 0x80.
Proof.
  intros c0 m c1.
  assert (Hh : cpu_halted c1 = false) by (vm_compute; reflexivity).
  assert (Hy : is_byte (cpu_y c1)) by byte_closed.
  assert (Hr : reads (bus c1) [(pc c1, 0xB1); (next (pc c1), 0x10);
                               ((0x10, 0x00), 0xFF); (((0x10 + 1) mod 256, 0x00), 0xFF);
                               (split16 ((addr16 (0xFF, 0xFF) + cpu_y c1) mod 65536), 0x80)]
                 (bus c1))
    by reads_closed.
  destruct (LDA_indirectY_effective_address c1 0x10 0xFF 0xFF 0x80 (bus c1) Hh Hy
              ltac:(byte_closed) ltac:(byte_closed) Hr)
    as (c' & Hs & HA & _).
  exists c'. split; assumption.
Defined.

(** [LDX #$01; STA $10FF,X]: 5 cycles, as [STA $1000,X] costs. *)
Lemma STA_absoluteX_flat_cost_witness :
  let c1 := fst (Step (harness [0xA2; 0x01; 0x9D; 0xFF; 0x10])) in
  snd (Step c1) = Returned 5 None.
Proof.
  intros c1.
  assert (Hh : cpu_halted c1 = false) by (vm_compute; reflexivity).
  assert (Hx : is_byte (cpu_x c1)) by byte_closed.
  assert (Hr : reads (bus c1) [(pc c1, 0x9D); (next (pc c1), 0xFF);
                               (next (next (pc c1)), 0x10)] (bus c1))
    by reads_closed.
  rewrite (STA_absoluteX_flat_cost c1 0xFF 0x10 (bus c1)
             (fst (bus_Write (bus c1) 0x00 0x11 (cpu_a c1))) Hh Hx
             ltac:(byte_closed) ltac:(byte_closed) Hr ltac:(vm_compute; reflexivity)).
  reflexivity.
Defined.





(** The test of the repository: with I set an IRQ leaves PC and S
    alone; with I clear it goes through the vector, and a second IRQ is
    then ignored. *)
Lemma IRQ_masked_by_I_witness :
  let m := W 0xFE 0xFF [0x12; 0x34] (mkMemoryBus ∅) in
  let c := fst (New m) in
  IRQ (with_p flagI c) = (with_p flagI c, Val tt)
  /\ pc (fst (IRQ c)) = (0x12, 0x34) /\ cpu_s (fst (IRQ c)) = 0xFC
  /\ IRQ (fst (IRQ c)) = (fst (IRQ c), Val tt).
Proof.
  intros m c.
  destruct (@IRQ_masked_by_I memoryBus _) as (Hmask & _ & Hagain & _).
  split; [ apply Hmask; vm_compute; reflexivity | ].
  split; [ vm_compute; reflexivity | ]. split; [ vm_compute; reflexivity | ].
  apply (Hagain c (fst (IRQ c))).
  apply injective_projections; [ reflexivity | vm_compute; reflexivity ].
Defined.

(** The flags of a fresh CPU printed twice are the same six dashes. *)
Lemma flag_String_shows_six_flags_witness :
  flag_String 0x30 = flag_String 0x00.
Proof.
  apply (flag_String_shows_six_flags 0x30 0x00). vm_compute. repeat split; reflexivity.
Defined.

(** [LDX #$01; LDA $10FF,X] after a reset to [$0400]: the indexed read
    crosses a page and [Step] returns the 5 cycles the table documents. *)
Lemma Step_cycles_documented_reachable_witness :
  let c := fst (Step (boot [0xA2; 0x01; 0xBD; 0xFF; 0x10])) in
  snd (Step c) = Returned 5 None /\ snd (documented_cycles c) = Val (Some 5).
Proof.
  intros c.
  assert (Hs : Step c = (fst (Step c), Returned 5 None)).
  { rewrite (surjective_pairing (Step c)) at 1. apply f_equal. vm_compute. reflexivity. }
  split; [ rewrite Hs; reflexivity | ].
  apply (Step_cycles_documented_reachable c (fst (Step c)) 5).
  - apply reach_Step, (reach_New (bus (boot [0xA2; 0x01; 0xBD; 0xFF; 0x10]))).
    vm_compute. reflexivity.
  - intros b1 op E. vm_compute in E. injection E as _ <-.
    cbn [In NOP_absoluteX]. intuition discriminate.
  - exact Hs.
Defined.

(** ** Logic instructions, INC and DEC *)

Section LogicAndIncrement.
Context {B : Type} `{Bus B}.

(** X29. ORA, AND and EOR (immediate) combine the accumulator with the
    operand bit by bit and set N and Z from the result; C, V, D, I and
    the other registers stay as they are. 2 cycles. *)
Theorem logic_immediate (c : CPU B) (op m : Z) (f : Z -> Z -> Z) (b2 : B) :
  cpu_halted c = false ->
  logic_operation op = Some f ->
  reads (bus c) [(pc c, op); (next (pc c), m)] b2 ->
  exists c',
    Step c = (c', Returned 2 None)
    /\ cpu_a c' = f (cpu_a c) m
    /\ flag_has (cpu_p c') flagZ = (f (cpu_a c) m =? 0)
    /\ flag_has (cpu_p c') flagN = Z.testbit (f (cpu_a c) m) 7
    /\ flag_has (cpu_p c') flagC = flag_has (cpu_p c) flagC
    /\ flag_has (cpu_p c') flagV = flag_has (cpu_p c) flagV
    /\ flag_has (cpu_p c') flagD = flag_has (cpu_p c) flagD
    /\ flag_has (cpu_p c') flagI = flag_has (cpu_p c) flagI
    /\ cpu_x c' = cpu_x c /\ cpu_y c' = cpu_y c /\ cpu_s c' = cpu_s c
    /\ pc c' = next (next (pc c)) /\ bus c' = b2.
Proof.
  intros Hh Hop Hr.
  destruct c as [b a x y s p pcl pch cyc hl].
  cbn [cpu_halted] in *. subst hl.
  m6502_cbv_in Hr. m6502_reads Hr.
  opcode_tree op; try discriminate Hop;
    cbn [logic_operation] in Hop; injection Hop as <-;
    (eexists; split;
     [ m6502_cbv; m6502_bus; m6502_switch; m6502_bus; reflexivity | ]);
    cbn [cpu_a cpu_p cpu_x cpu_y cpu_s bus pc cpu_pcl cpu_pch];
    repeat split; try reflexivity; flag_simpl; try reflexivity;
    exact (flag_has_testbit _ 7 ltac:(lia)).
Qed.

(** X30. INC and DEC (zero page) read their operand in page zero, write
    it back at the same address one higher or one lower modulo 256, and
    set N and Z from the value they write; the registers and the flags
    C, V, D, I stay as they are. 5 cycles. *)
Theorem INC_DEC_zeropage (c : CPU B) (op d zp v : Z) (b3 b4 : B) :
  cpu_halted c = false ->
  increment_of op = Some d ->
  reads (bus c) [(pc c, op); (next (pc c), zp); ((zp, 0x00), v)] b3 ->
  bus_Write b3 zp 0x00 ((v + d) mod 256) = (b4, Val tt) ->
  exists c',
    Step c = (c', Returned 5 None)
    /\ bus c' = b4
    /\ flag_has (cpu_p c') flagZ = ((v + d) mod 256 =? 0)
    /\ flag_has (cpu_p c') flagN = Z.testbit ((v + d) mod 256) 7
    /\ flag_has (cpu_p c') flagC = flag_has (cpu_p c) flagC
    /\ flag_has (cpu_p c') flagV = flag_has (cpu_p c) flagV
    /\ cpu_a c' = cpu_a c /\ cpu_x c' = cpu_x c /\ cpu_y c' = cpu_y c
    /\ cpu_s c' = cpu_s c /\ pc c' = next (next (pc c)).
Proof.
  intros Hh Hop Hr Hw.
  destruct c as [b a x y s p pcl pch cyc hl].
  cbn [cpu_halted] in *. subst hl.
  m6502_cbv_in Hr. m6502_reads Hr.
  opcode_tree op; try discriminate Hop;
    cbn [increment_of] in Hop; injection Hop as <-;
    (eexists; split;
     [ m6502_cbv; m6502_bus; m6502_switch; m6502_bus;
       unfold add8, sub8, byte; change (v - 1) with (v + -1); m6502_bus; reflexivity | ]);
    cbn [cpu_a cpu_p cpu_x cpu_y cpu_s bus pc cpu_pcl cpu_pch];
    unfold add8, sub8, byte; change (v - 1) with (v + -1);
    repeat split; try reflexivity; flag_simpl; try reflexivity;
    exact (flag_has_testbit _ 7 ltac:(lia)).
Qed.

End LogicAndIncrement.

(** [LDA #$F0; EOR #$FF]: A is [0x0F], N is clear. *)
Lemma logic_immediate_witness :
  let c1 := fst (Step (harness [0xA9; 0xF0; 0x49; 0xFF])) in
  exists c',
    Step c1 = (c', Returned 2 None)
    /\ cpu_a c' = 0x0F /\ flag_has (cpu_p c') flagN = false.
Proof.
  intros c1.
  assert (Hh : cpu_halted c1 = false) by (vm_compute; reflexivity).
  assert (Hr : reads (bus c1) [(pc c1, 0x49); (next (pc c1), 0xFF)] (bus c1)) by reads_closed.
  destruct (logic_immediate c1 0x49 0xFF Z.lxor (bus c1) Hh eq_refl Hr)
    as (c' & Hs & HA & _ & HN & _).
  exists c'. split; [ exact Hs | ].
  rewrite HA, HN. vm_compute. split; reflexivity.
Defined.

(** [DEC $10] with [$0010 = 0x00]: the cell holds [0xFF] and N is set. *)
Lemma INC_DEC_zeropage_witness :
  let c := harness [0xC6; 0x10] in
  exists c',
    Step c = (c', Returned 5 None)
    /\ mem_get (bus c') (mem_index 0x10 0x00) = 0xFF
    /\ flag_has (cpu_p c') flagN = true.
Proof.
  intros c.
  assert (Hh : cpu_halted c = false) by (vm_compute; reflexivity).
  assert (Hr : reads (bus c) [(pc c, 0xC6); (next (pc c), 0x10); ((0x10, 0x00), 0x00)] (bus c))
    by reads_closed.
  assert (Hw : bus_Write (bus c) 0x10 0x00 ((0x00 + -1) mod 256)
               = (fst (bus_Write (bus c) 0x10 0x00 0xFF), Val tt))
    by (vm_compute; reflexivity).
  destruct (INC_DEC_zeropage c 0xC6 (-1) 0x10 0x00 (bus c) _ Hh eq_refl Hr Hw)
    as (c' & Hs & Hb & _ & HN & _).
  exists c'. split; [ exact Hs | ].
  rewrite Hb, HN. vm_compute. split; reflexivity.
Defined.
